(** * Asynchronous job orchestration: dispatcher, status reader, processor
      and planner handlers

    A shallow embedding of the Lambda handlers of the repository
    ([app.py], the two [processor.py] variants, [planner/handler.py] and
    [planner/handler-v3.py]) together with the services they talk to, and
    the properties of the job lifecycle that hold of them. *)

From Stdlib Require Import ZArith String Ascii List Lia DecimalString.
From stdpp Require Import base strings gmap list.
Import ListNotations.

Set Warnings "-register-all".

Local Open Scope string_scope.
Local Open Scope Z_scope.

(** ** Python values

    The handlers exchange JSON-shaped Python objects.  A [dict] keeps its
    insertion order, so it is an association list.  Numbers are integers;
    fractions are outside the model.  The table keeps a number as the
    integer it was stored as; the table client hands it back in the decimal
    type, which [json.dumps] refuses, and this is what [dumps_item] below
    decides on [has_number]. *)

Inductive value : Type :=
| VNone
| VBool (b : bool)
| VInt (n : Z)
| VStr (s : string)
| VList (l : list value)
| VDict (kv : list (string * value)).

Abbreviation dict := (list (string * value)).

(** A raised exception: its class and [str(e)]. *)
Record exn : Type := Exn { exn_class : string; exn_msg : string }.

(** The entry of an association list under a key. *)
Fixpoint assoc {A : Type} (k : string) (l : list (string * A)) : option A :=
  match l with
  | [] => None
  | (k', a) :: l' => if String.eqb k k' then Some a else assoc k l'
  end.

(** [d.get(k, dflt)] on a dict. *)
Definition dict_get (k : string) (dflt : value) (d : dict) : value :=
  match assoc k d with
  | Some v => v
  | None => dflt
  end.

(** [k in d]. *)
Fixpoint dict_has (k : string) (d : dict) : bool :=
  match d with
  | [] => false
  | (k', _) :: d' => if String.eqb k k' then true else dict_has k d'
  end.

(** Truth value of an object, as [not x] and [if x] test it. *)
Definition truthy (v : value) : bool :=
  match v with
  | VNone => false
  | VBool b => b
  | VInt n => negb (Z.eqb n 0)
  | VStr s => negb (String.eqb s EmptyString)
  | VList l => match l with [] => false | _ => true end
  | VDict kv => match kv with [] => false | _ => true end
  end.

(** [v == s] for a string literal [s]. *)
Definition value_is_str (v : value) (s : string) : bool :=
  match v with
  | VStr s' => String.eqb s' s
  | _ => false
  end.

(** A number somewhere in an object. *)
Fixpoint has_number (v : value) : bool :=
  match v with
  | VInt _ => true
  | VList l => existsb has_number l
  | VDict kv => existsb (fun p => has_number (snd p)) kv
  | _ => false
  end.

(** The name of the class of an object, as it shows in error messages. *)
Definition type_name (v : value) : string :=
  match v with
  | VNone => "NoneType"
  | VBool _ => "bool"
  | VInt _ => "int"
  | VStr _ => "str"
  | VList _ => "list"
  | VDict _ => "dict"
  end.

Definition string_of_Z (n : Z) : string :=
  NilZero.string_of_int (Z.to_int n).

Section Repr.
Variable repr : value -> string.

Fixpoint join_repr (l : list value) : string :=
  match l with
  | [] => EmptyString
  | [v] => repr v
  | v :: l' => repr v ++ ", " ++ join_repr l'
  end.

Fixpoint join_items (kv : dict) : string :=
  match kv with
  | [] => EmptyString
  | [(k, v)] => "'" ++ k ++ "': " ++ repr v
  | (k, v) :: kv' => "'" ++ k ++ "': " ++ repr v ++ ", " ++ join_items kv'
  end.
End Repr.

(** [repr(v)]; exact on strings that hold no quote and no backslash. *)
Fixpoint py_repr (v : value) : string :=
  match v with
  | VNone => "None"
  | VBool true => "True"
  | VBool false => "False"
  | VInt n => string_of_Z n
  | VStr s => "'" ++ s ++ "'"
  | VList l => "[" ++ join_repr py_repr l ++ "]"
  | VDict kv => "{" ++ join_items py_repr kv ++ "}"
  end.

(** [str(v)], which is also how an f-string renders [{v}]. *)
Definition py_str (v : value) : string :=
  match v with
  | VStr s => s
  | _ => py_repr v
  end.

(** ** Strings *)

(** Characters that [str.strip()] removes. *)
Definition is_space (a : ascii) : bool :=
  let n := nat_of_ascii a in
  (Nat.eqb n 32 || (Nat.leb 9 n && Nat.leb n 13) || (Nat.leb 28 n && Nat.leb n 31))%bool.

Fixpoint lstrip_by (p : ascii -> bool) (s : string) : string :=
  match s with
  | String a r => if p a then lstrip_by p r else s
  | EmptyString => EmptyString
  end.

Definition string_rev (s : string) : string :=
  string_of_list_ascii (rev (list_ascii_of_string s)).

Definition strip_by (p : ascii -> bool) (s : string) : string :=
  string_rev (lstrip_by p (string_rev (lstrip_by p s))).

(** [s.strip()] and [s.strip(c)]. *)
Definition py_strip (s : string) : string := strip_by is_space s.
Definition py_strip_char (c : ascii) (s : string) : string := strip_by (Ascii.eqb c) s.

(** [s.startswith(p)]. *)
Definition startswith (p s : string) : bool := String.prefix p s.

(** [s[start:-stop]] for [stop > 0]. *)
Definition py_slice (start stop : nat) (s : string) : string :=
  String.substring start (String.length s - stop - start)%nat s.

(** [s.split(c)] for a one-character separator. *)
Fixpoint py_split (c : ascii) (s : string) : list string :=
  match s with
  | EmptyString => [EmptyString]
  | String a r =>
      if Ascii.eqb a c then EmptyString :: py_split c r
      else match py_split c r with
           | h :: t => String a h :: t
           | [] => [String a EmptyString]
           end
  end.

(** ** A reader of JSON text

    [Json.loads] reads the part of JSON that the requests and model
    answers of the examples below are written in: objects, arrays, strings
    with the one-letter escapes, integers and the three literals.  What it
    does not read (fractions, exponents, [\u] escapes) it reports as a
    decode error.  The handlers themselves are stated over an arbitrary
    [json.loads]. *)
Module Json.

Definition is_ws (a : ascii) : bool :=
  let n := nat_of_ascii a in
  (Nat.eqb n 32 || Nat.eqb n 9 || Nat.eqb n 10 || Nat.eqb n 13)%bool.

Definition skip_ws (s : string) : string := lstrip_by is_ws s.

Definition dquote : ascii := ascii_of_nat 34.

(** JSON text written with ['] where the text has the double quote. *)
Fixpoint text (s : string) : string :=
  match s with
  | String a r => String (if Ascii.eqb a "'" then dquote else a) (text r)
  | EmptyString => EmptyString
  end.

Definition is_digit (a : ascii) : bool :=
  let n := nat_of_ascii a in (Nat.leb 48 n && Nat.leb n 57)%bool.

Definition digit_val (a : ascii) : Z := Z.of_nat (nat_of_ascii a - 48).

(** The literal [lit] at the head of [s]. *)
Definition expect (lit : string) (v : value) (s : string) : option (value * string) :=
  if String.prefix lit s
  then Some (v, String.substring (String.length lit) (String.length s - String.length lit) s)
  else None.

Fixpoint digits (acc : Z) (s : string) : Z * string :=
  match s with
  | String a r => if is_digit a then digits (10 * acc + digit_val a) r else (acc, s)
  | EmptyString => (acc, s)
  end.

Definition starts_fraction (s : string) : bool :=
  match s with
  | String a _ => (Ascii.eqb a "." || Ascii.eqb a "e" || Ascii.eqb a "E")%bool
  | EmptyString => false
  end.

(** An integer without sign: a lone [0], or a digit string that does not
    start with [0]. *)
Definition natural (s : string) : option (Z * string) :=
  match s with
  | String a r =>
      if Ascii.eqb a "0" then (if starts_fraction r then None else Some (0, r))
      else if is_digit a then
        let '(n, r') := digits (digit_val a) r in
        if starts_fraction r' then None else Some (n, r')
      else None
  | EmptyString => None
  end.

Definition unescape (a : ascii) : option ascii :=
  if Ascii.eqb a dquote then Some a
  else if Ascii.eqb a "\" then Some a
  else if Ascii.eqb a "/" then Some a
  else if Ascii.eqb a "b" then Some (ascii_of_nat 8)
  else if Ascii.eqb a "f" then Some (ascii_of_nat 12)
  else if Ascii.eqb a "n" then Some (ascii_of_nat 10)
  else if Ascii.eqb a "r" then Some (ascii_of_nat 13)
  else if Ascii.eqb a "t" then Some (ascii_of_nat 9)
  else None.

(** The characters of a string literal, after its opening quote. *)
Fixpoint chars (s : string) : option (string * string) :=
  match s with
  | EmptyString => None
  | String a r =>
      if Ascii.eqb a dquote then Some (EmptyString, r)
      else if Ascii.eqb a "\" then
        match r with
        | String b r' =>
            match unescape b, chars r' with
            | Some c, Some (t, rest) => Some (String c t, rest)
            | _, _ => None
            end
        | EmptyString => None
        end
      else if Nat.ltb (nat_of_ascii a) 32 then None
      else match chars r with
           | Some (t, rest) => Some (String a t, rest)
           | None => None
           end
  end.

(** Later occurrences of a key replace earlier ones, as in a Python
    dict built from the pairs in order. *)
Fixpoint dict_of_pairs (acc : dict) (kv : dict) : dict :=
  match kv with
  | [] => acc
  | (k, v) :: kv' =>
      dict_of_pairs
        (if dict_has k acc
         then map (fun '(k', v') => if String.eqb k k' then (k', v) else (k', v')) acc
         else acc ++ [(k, v)]) kv'
  end.

Fixpoint parse_value (fuel : nat) (s : string) : option (value * string) :=
  match fuel with
  | O => None
  | S fuel' =>
      match skip_ws s with
      | EmptyString => None
      | String a r as s' =>
          if Ascii.eqb a "n" then expect "null" VNone s'
          else if Ascii.eqb a "t" then expect "true" (VBool true) s'
          else if Ascii.eqb a "f" then expect "false" (VBool false) s'
          else if Ascii.eqb a dquote then
            match chars r with
            | Some (t, rest) => Some (VStr t, rest)
            | None => None
            end
          else if Ascii.eqb a "-" then
            match natural r with
            | Some (n, rest) => Some (VInt (- n), rest)
            | None => None
            end
          else if Ascii.eqb a "[" then
            match skip_ws r with
            | String b r' =>
                if Ascii.eqb b "]" then Some (VList [], r')
                else match parse_elems fuel' r with
                     | Some (l, rest) => Some (VList l, rest)
                     | None => None
                     end
            | EmptyString => None
            end
          else if Ascii.eqb a "{" then
            match skip_ws r with
            | String b r' =>
                if Ascii.eqb b "}" then Some (VDict [], r')
                else match parse_members fuel' r with
                     | Some (kv, rest) => Some (VDict (dict_of_pairs [] kv), rest)
                     | None => None
                     end
            | EmptyString => None
            end
          else match natural s' with
               | Some (n, rest) => Some (VInt n, rest)
               | None => None
               end
      end
  end
with parse_elems (fuel : nat) (s : string) : option (list value * string) :=
  match fuel with
  | O => None
  | S fuel' =>
      match parse_value fuel' s with
      | Some (v, rest) =>
          match skip_ws rest with
          | String b r' =>
              if Ascii.eqb b "]" then Some ([v], r')
              else if Ascii.eqb b "," then
                match parse_elems fuel' r' with
                | Some (l, rest') => Some (v :: l, rest')
                | None => None
                end
              else None
          | EmptyString => None
          end
      | None => None
      end
  end
with parse_members (fuel : nat) (s : string) : option (dict * string) :=
  match fuel with
  | O => None
  | S fuel' =>
      match skip_ws s with
      | String q r =>
          if Ascii.eqb q dquote then
            match chars r with
            | Some (k, rest) =>
                match skip_ws rest with
                | String c r1 =>
                    if Ascii.eqb c ":" then
                      match parse_value fuel' r1 with
                      | Some (v, rest1) =>
                          match skip_ws rest1 with
                          | String b r2 =>
                              if Ascii.eqb b "}" then Some ([(k, v)], r2)
                              else if Ascii.eqb b "," then
                                match parse_members fuel' r2 with
                                | Some (kv, rest2) => Some ((k, v) :: kv, rest2)
                                | None => None
                                end
                              else None
                          | EmptyString => None
                          end
                      | None => None
                      end
                    else None
                | EmptyString => None
                end
            | None => None
            end
          else None
      | EmptyString => None
      end
  end.

(** The object a text encodes, or the message of the decode error. *)
Definition loads (s : string) : string + value :=
  match parse_value (2 * String.length s + 2) s with
  | Some (v, rest) =>
      match skip_ws rest with
      | EmptyString => inr v
      | _ => inl "Extra data"
      end
  | None => inl "Expecting value"
  end.

End Json.

(** ** The world a handler runs in

    A handler reads and writes the jobs table, asks Lambda to run the
    processor, draws identifiers and reads the clock.  The world holds what
    these calls see and change:
    - [table]: the jobs table, an item (attribute map) per [job_id];
    - [reserved]: the words the table service refuses as attribute names
      written directly in an expression;
    - [faults]: what happens to the coming calls to a service, in order:
      [None] lets the call through, [Some e] makes it raise [e] before it
      has any effect; once the list is used up every call goes through.
      A call fails when the service cannot be reached or refuses it, and
      also when the client refuses its arguments before it sends anything
      (the table client refuses an item that holds a fraction or an
      integer of more than 38 digits); which items the client refuses is
      not decided here, so a statement that takes a call to go through
      says nothing about them;
    - [queue]: the payloads Lambda has accepted for asynchronous runs of
      the processor;
    - [uuids], [drawn]: the identifiers [uuid.uuid4()] yields and how many
      were drawn; [clock], [ticks]: the same for [datetime.now()]. *)

Record datetime : Type := Datetime {
  isoformat : string;   (* [.isoformat()] *)
  timestamp : Z;        (* [int(.timestamp())] *)
  strftime : string     (* [.strftime('%Y-%m-%d %H:%M:%S UTC')] *)
}.

Record world : Type := World {
  table : gmap string (gmap string value);
  reserved : string -> bool;
  faults : list (option exn);
  queue : list dict;
  uuids : nat -> string;
  drawn : nat;
  clock : nat -> datetime;
  ticks : nat
}.

Definition set_table (t : gmap string (gmap string value)) (w : world) : world :=
  World t (reserved w) (faults w) (queue w) (uuids w) (drawn w) (clock w) (ticks w).
Definition set_faults (f : list (option exn)) (w : world) : world :=
  World (table w) (reserved w) f (queue w) (uuids w) (drawn w) (clock w) (ticks w).
Definition set_queue (q : list dict) (w : world) : world :=
  World (table w) (reserved w) (faults w) q (uuids w) (drawn w) (clock w) (ticks w).
Definition set_drawn (n : nat) (w : world) : world :=
  World (table w) (reserved w) (faults w) (queue w) (uuids w) n (clock w) (ticks w).
Definition set_ticks (n : nat) (w : world) : world :=
  World (table w) (reserved w) (faults w) (queue w) (uuids w) (drawn w) (clock w) n.

(** A computation either returns or raises, and leaves a world behind. *)
Inductive outcome (A : Type) : Type :=
| Ret (a : A)
| Raise (e : exn).
Arguments Ret {A} a.
Arguments Raise {A} e.

Definition M (A : Type) : Type := world -> outcome A * world.

Definition ret {A : Type} (a : A) : M A := fun w => (Ret a, w).
Definition raise {A : Type} (e : exn) : M A := fun w => (Raise e, w).

Definition bind {A B : Type} (m : M A) (k : A -> M B) : M B :=
  fun w =>
    match m w with
    | (Ret a, w') => k a w'
    | (Raise e, w') => (Raise e, w')
    end.

(** [try: body  except Exception as e: handler e]. *)
Definition try_except {A : Type} (body : M A) (handler : exn -> M A) : M A :=
  fun w =>
    match body w with
    | (Ret a, w') => (Ret a, w')
    | (Raise e, w') => handler e w'
    end.

Notation "'let*' x ':=' m 'in' k" := (bind m (fun x => k))
  (at level 10, x name, m at level 100, k at level 200).
Notation "m ';;' k" := (bind m (fun _ => k))
  (at level 100, k at level 200, right associativity).

(** [d.get(k, default)] on an object that should be a dict. *)
Definition py_get (d : value) (k : string) (default : value) : M value :=
  match d with
  | VDict kv => ret (dict_get k default kv)
  | _ => raise (Exn "AttributeError"
                  ("'" ++ type_name d ++ "' object has no attribute 'get'"))
  end.

(** [json.loads(x)], for a [json.loads] that maps a text to the object it
    encodes or to the message of the [JSONDecodeError]. *)
Definition loads (json_loads : string -> string + value) (x : value) : M value :=
  match x with
  | VStr s =>
      match json_loads s with
      | inr v => ret v
      | inl msg => raise (Exn "JSONDecodeError" msg)
      end
  | _ => raise (Exn "TypeError"
                  ("the JSON object must be str, bytes or bytearray, not " ++ type_name x))
  end.

(** [try: body  except cls as e: handler e]: other exceptions pass. *)
Definition try_except_on {A : Type} (cls : string) (body : M A) (handler : exn -> M A) : M A :=
  fun w =>
    match body w with
    | (Ret a, w') => (Ret a, w')
    | (Raise e, w') =>
        if String.eqb (exn_class e) cls then handler e w' else (Raise e, w')
    end.

(** ** Services *)

(** The start of every call to a service: the next entry of [faults]
    decides whether the call raises. *)
Definition service_call : M unit :=
  fun w =>
    match faults w with
    | Some e :: rest => (Raise e, set_faults rest w)
    | None :: rest => (Ret tt, set_faults rest w)
    | [] => (Ret tt, w)
    end.

Definition uuid4 : M string :=
  fun w => (Ret (uuids w (drawn w)), set_drawn (S (drawn w)) w).

Definition datetime_now : M datetime :=
  fun w => (Ret (clock w (ticks w)), set_ticks (S (ticks w)) w).

(** [lambda_client.invoke(..., InvocationType='Event', Payload=...)]:
    Lambda takes the payload for a later run and answers at once; the
    processor does not run inside the call. *)
Definition invoke (payload : dict) : M unit :=
  service_call ;;
  (fun w => (Ret tt, set_queue (queue w ++ [payload]) w)).

Definition validation (operation msg : string) : exn :=
  Exn "ClientError"
      ("An error occurred (ValidationException) when calling the "
         ++ operation ++ " operation: " ++ msg).

(** The value of the table's key attribute [job_id]: a non-empty string. *)
Definition key_of (operation : string) (k : value) : M string :=
  match k with
  | VStr s =>
      if String.eqb s EmptyString
      then raise (validation operation
                    "One or more parameter values are not valid. The AttributeValue for a key attribute cannot contain an empty string value. Key: job_id")
      else ret s
  | _ => raise (validation operation
                  "The provided key element does not match the schema")
  end.

(** [jobs_table.put_item(Item=it)]: the item replaces whatever the table
    holds under its key.  The refusal of an item by the client itself (a
    fraction, an integer of more than 38 digits) is one of the failures
    that [faults] scripts. *)
Definition put_item (it : dict) : M unit :=
  service_call ;;
  let* k := key_of "PutItem" (dict_get "job_id" VNone it) in
  fun w => (Ret tt, set_table (<[k := list_to_map it]> (table w)) w).

(** [jobs_table.get_item(Key={'job_id': k})]: the item, when there is one
    (the ['Item'] entry of the response). *)
Definition get_item (k : value) : M (option (gmap string value)) :=
  service_call ;;
  let* k := key_of "GetItem" k in
  fun w => (Ret (table w !! k), w).

(** An update expression of the form [SET path = operand, ...]. *)
Definition parse_set (expression : string) : option (list (string * string)) :=
  if startswith "SET " expression then
    let body := String.substring 4 (String.length expression - 4) expression in
    foldr (fun clause acc =>
             match py_split "=" clause, acc with
             | [p; o], Some l => Some ((py_strip p, py_strip o) :: l)
             | _, _ => None
             end)
          (Some []) (py_split "," body)
  else None.

(** The attribute a path names: a [#placeholder] stands for its entry in
    [ExpressionAttributeNames]; a name written directly must not be a
    reserved word. *)
Definition resolve_path (rsv : string -> bool) (names : list (string * string))
    (p : string) : exn + string :=
  if startswith "#" p then
    match assoc p names with
    | Some a => inr a
    | None => inl (validation "UpdateItem"
                     ("Invalid UpdateExpression: An expression attribute name used in the document path is not defined; attribute name: " ++ p))
    end
  else if rsv p then
    inl (validation "UpdateItem"
           ("Invalid UpdateExpression: Attribute name is a reserved keyword; reserved keyword: " ++ p))
  else inr p.

Definition resolve_operand (values : dict) (o : string) : exn + value :=
  match assoc o values with
  | Some v => inr v
  | None => inl (validation "UpdateItem"
                   ("Invalid UpdateExpression: An expression attribute value used in expression is not defined; attribute value: " ++ o))
  end.

(** The assignments of a [SET] expression, or the first error in it: the
    service checks the whole expression before it writes anything. *)
Fixpoint resolve (rsv : string -> bool) (names : list (string * string))
    (values : dict) (sets : list (string * string)) : exn + list (string * value) :=
  match sets with
  | [] => inr []
  | (p, o) :: sets' =>
      match resolve_path rsv names p with
      | inl e => inl e
      | inr a =>
          match resolve_operand values o with
          | inl e => inl e
          | inr v =>
              match resolve rsv names values sets' with
              | inl e => inl e
              | inr l => inr ((a, v) :: l)
              end
          end
      end
  end.

Definition assign (it : gmap string value) (l : list (string * value)) : gmap string value :=
  foldl (fun it' '(a, v) => <[a := v]> it') it l.

(** [jobs_table.update_item(Key={'job_id': k}, UpdateExpression=...,
    ExpressionAttributeNames=..., ExpressionAttributeValues=...)].  No call
    in the repository passes a [ConditionExpression], so the update is
    applied to whatever item is stored; when none is stored the service
    creates one that holds the key and the assigned attributes. *)
Definition update_item (k : value) (expression : string)
    (names : list (string * string)) (values : dict) : M unit :=
  service_call ;;
  let* k := key_of "UpdateItem" k in
  fun w =>
    match parse_set expression with
    | None => (Raise (validation "UpdateItem" "Invalid UpdateExpression: Syntax error"), w)
    | Some sets =>
        match resolve (reserved w) names values sets with
        | inl e => (Raise e, w)
        | inr l =>
            let old := default {[ "job_id" := VStr k ]} (table w !! k) in
            (Ret tt, set_table (<[k := assign old l]> (table w)) w)
        end
    end.

(** ** The API function ([CrewApiFunction/app.py])

    The [print] calls of the handlers write to the log only and are left
    out, here and below.  The environment variables the handlers read
    ([JOBS_TABLE], [ENVIRONMENT]) are set by the deployment. *)
Module App.
Section WithJson.

(** [json.loads] on text: the decoded object, or the message of the
    decode error. *)
Variable json_loads : string -> string + value.

(** The ['body'] entry of a response stands for the text
    [json.dumps(body)]; it is kept as the dictionary that text encodes.
    The encoder takes every body that is built from the event and from
    literals.  The one body that holds attributes read from the table is
    the view of [check_status]; there the call of the encoder is
    [dumps_item]. *)
Definition cors_response (status_code : Z) (body : dict) : value :=
  VDict [("statusCode", VInt status_code);
         ("headers", VDict [("Access-Control-Allow-Origin", VStr "*");
                            ("Access-Control-Allow-Headers", VStr "Content-Type");
                            ("Access-Control-Allow-Methods", VStr "GET,POST,OPTIONS");
                            ("Content-Type", VStr "application/json")]);
         ("body", VDict body)].

Definition start_job (event : dict) : M value :=
  let* body := loads json_loads (dict_get "body" (VStr "{}") event) in
  let* question := py_get body "question" (VStr EmptyString) in
  let* context_data := py_get body "context" (VDict []) in
  if negb (truthy question) then
    ret (cors_response 400 [("error", VStr "Question is required")])
  else
    let* job_id := uuid4 in
    let* now := datetime_now in
    let ttl := timestamp now + 24 * 3600 in
    let* created := datetime_now in
    put_item [("job_id", VStr job_id);
              ("status", VStr "processing");
              ("question", question);
              ("context", context_data);
              ("created_at", VStr (isoformat created));
              ("ttl", VInt ttl)] ;;
    try_except
      (invoke [("job_id", VStr job_id);
               ("question", question);
               ("context", context_data)])
      (fun e =>
         update_item (VStr job_id)
           "SET #status = :status, #error = :error"
           [("#status", "status"); ("#error", "error")]
           [(":status", VStr "failed"); (":error", VStr (exn_msg e))]) ;;
    ret (cors_response 202
           [("job_id", VStr job_id);
            ("status", VStr "processing");
            ("message", VStr "Your request is being processed");
            ("check_status_url", VStr ("/status/" ++ job_id))]).

(** [json.dumps(body)] inside [cors_response], for a body that holds
    attributes of an item the table handed back.  A stored number arrives
    in the decimal type, which the encoder refuses. *)
Definition dumps_item (body : dict) : M unit :=
  if existsb (fun p => has_number (snd p)) body
  then raise (Exn "TypeError" "Object of type Decimal is not JSON serializable")
  else ret tt.

(** [job['status']]. *)
Definition job_status (job : gmap string value) : M value :=
  match job !! "status" with
  | Some s => ret s
  | None => raise (Exn "KeyError" "'status'")
  end.

Definition check_status (job_id : value) : M value :=
  try_except
    (let* response := get_item job_id in
     match response with
     | None =>
         ret (cors_response 404 [("error", VStr "Job not found"); ("job_id", job_id)])
     | Some job =>
         let* status := job_status job in
         let result :=
           [("job_id", job_id);
            ("status", status);
            ("created_at", default (VStr EmptyString) (job !! "created_at"));
            ("question", default (VStr EmptyString) (job !! "question"))] in
         let result :=
           if value_is_str status "completed" then
             (result ++ [("result", default (VDict []) (job !! "result"))])%list
           else if value_is_str status "failed" then
             (result ++ [("error", default (VStr "Unknown error") (job !! "error"))])%list
           else result in
         dumps_item result ;;
         ret (cors_response 200 result)
     end)
    (fun e => ret (cors_response 500 [("error", VStr (exn_msg e))])).

(** The job id of a status request: the path parameter when there is
    one, else the second segment of the path. *)
Definition path_job_id (event : dict) (path : string) : M value :=
  let pp := dict_get "pathParameters" VNone event in
  let* from_params :=
    if truthy pp then
      let* j := py_get pp "job_id" VNone in
      ret (if truthy j then j else VNone)
    else ret VNone in
  if truthy from_params then ret from_params
  else
    match py_split "/" (py_strip_char "/" path) with
    | first :: second :: _ =>
        if String.eqb first "status" then ret (VStr second) else ret VNone
    | _ => ret VNone
    end.

Definition lambda_handler (event : dict) : M value :=
  try_except
    (if value_is_str (dict_get "httpMethod" VNone event) "OPTIONS" then
       ret (cors_response 200 [])
     else
       let path := dict_get "path" (VStr EmptyString) event in
       let method := dict_get "httpMethod" (VStr EmptyString) event in
       if (value_is_str path "/query" && value_is_str method "POST")%bool then
         start_job event
       else
         match path with
         | VStr p =>
             if (startswith "/status/" p && value_is_str method "GET")%bool then
               let* job_id := path_job_id event p in
               if negb (truthy job_id) then
                 ret (cors_response 400 [("error", VStr "Job ID not found in path");
                                         ("path", path)])
               else check_status job_id
             else
               ret (cors_response 404
                      [("error", VStr ("Not found: " ++ py_str method ++ " " ++ p))])
         | _ =>
             raise (Exn "AttributeError"
                      ("'" ++ type_name path ++ "' object has no attribute 'startswith'"))
         end)
    (fun e => ret (cors_response 500 [("error", VStr (exn_msg e))])).

End WithJson.
End App.

(** ** The processor ([src/processor/processor.py])

    Lambda runs it on a payload that [start_job] handed over; after a run
    that raised, Lambda runs it again on the same payload. *)
Module Processor.

Definition lambda_handler (event : dict) : M value :=
  let job_id := dict_get "job_id" VNone event in
  let question := dict_get "question" VNone event in
  try_except
    (let result := "Processed: " ++ py_str question in
     let* now := datetime_now in
     update_item job_id
       "SET #status = :status, #result = :result, updated_at = :updated_at"
       [("#status", "status"); ("#result", "result")]
       [(":status", VStr "completed");
        (":result", VDict [("answer", VStr result)]);
        (":updated_at", VStr (isoformat now))] ;;
     ret (VDict [("statusCode", VInt 200)]))
    (fun e =>
       update_item job_id
         "SET #status = :status, #err = :error"
         [("#status", "status"); ("#err", "error")]
         [(":status", VStr "failed"); (":error", VStr (exn_msg e))] ;;
       raise e).

End Processor.

(** ** The processor as built ([CrewProcessorFunction/processor.py])

    It names the attributes [result] and [error] in its expressions
    directly, where the processor of the source tree names them through
    [ExpressionAttributeNames]. *)
Module ProcessorBuild.

Definition lambda_handler (event : dict) : M value :=
  let job_id := dict_get "job_id" VNone event in
  let question := dict_get "question" VNone event in
  try_except
    (let result := "Processed: " ++ py_str question in
     let* now := datetime_now in
     update_item job_id
       "SET #status = :status, result = :result, updated_at = :updated_at"
       [("#status", "status")]
       [(":status", VStr "completed");
        (":result", VDict [("answer", VStr result)]);
        (":updated_at", VStr (isoformat now))] ;;
     ret (VDict [("statusCode", VInt 200)]))
    (fun e =>
       update_item job_id
         "SET #status = :status, error = :error"
         [("#status", "status")]
         [(":status", VStr "failed"); (":error", VStr (exn_msg e))] ;;
       raise e).

End ProcessorBuild.

(** ** The question classifier ([planner/handler-v3.py]) *)
Module PlannerV3.
Section WithJson.

Variable json_loads : string -> string + value.

(** The fallback classification: the whole question as one
    [factual_direct] fragment. *)
Definition fallback_questions (question : value) : value :=
  VList [VDict [("question", question); ("category", VStr "factual_direct")]].

(** The answer with the blanks around it and a code fence stripped
    (the lines under [# Clean response text to extract JSON]).  A string
    of the model is a string of bytes: [py_strip] takes the ASCII blanks
    away and [py_slice] counts bytes, where the code takes every Unicode
    blank away and counts characters.  The two agree on ASCII text, and
    on any text where the blanks around the fence are ASCII and the fence
    is closed. *)
Definition clean_response (raw : string) : string :=
  let response_text := py_strip raw in
  if startswith "```json" response_text then py_slice 7 3 response_text
  else if startswith "```" response_text then py_slice 3 3 response_text
  else response_text.

(** [MovingQuestionClassifier.classify_question].  [kickoff] is what
    building the task and the crew and running [crew.kickoff()] come to in
    this call: the exception raised, or the text of the answer
    ([result.raw]). *)
Definition classify_question (kickoff : exn + string) (question : value) : M value :=
  try_except
    (let* raw := match kickoff with
                 | inr text => ret text
                 | inl e => raise e
                 end in
     let response_text := clean_response raw in
     try_except_on "JSONDecodeError"
       (let* classification_result := loads json_loads (VStr response_text) in
        let* questions := py_get classification_result "questions" (VList []) in
        let* now := datetime_now in
        ret (VDict [("success", VBool true);
                    ("questions", questions);
                    ("timestamp", VStr (isoformat now))]))
       (fun e =>
          ret (VDict [("success", VBool false);
                      ("questions", fallback_questions question);
                      ("error", VStr ("JSON parsing failed: " ++ exn_msg e));
                      ("raw_response", VStr response_text)])))
    (fun e =>
       ret (VDict [("success", VBool false);
                   ("questions", fallback_questions question);
                   ("error", VStr ("Classification failed: " ++ exn_msg e))])).

(** [lambda_handler].  [classifier] is what building the classifier
    ([MovingQuestionClassifier()]) comes to: [Some e] when it raises.  The
    default of [event.get('conversation_id', str(uuid.uuid4()))] is
    computed whether or not the event has the key, so an identifier is drawn
    in any case. *)
Definition lambda_handler (classifier : option exn) (kickoff : exn + string)
    (event : dict) : M value :=
  try_except
    (match classifier with
     | Some e => raise e
     | None => ret tt
     end ;;
     let question := dict_get "question" (VStr EmptyString) event in
     let* fresh := uuid4 in
     let conversation_id := dict_get "conversation_id" (VStr fresh) event in
     if negb (truthy question) then
       let* now := datetime_now in
       ret (VDict [("statusCode", VInt 400);
                   ("error", VStr "No question provided");
                   ("conversation_id", conversation_id);
                   ("question", VStr EmptyString);
                   ("classification", VDict []);
                   ("timestamp", VStr (isoformat now));
                   ("success", VBool false)])
     else
       let* result := classify_question kickoff question in
       let* now := datetime_now in
       let* success := py_get result "success" (VBool true) in
       ret (VDict [("statusCode", VInt 200);
                   ("conversation_id", conversation_id);
                   ("question", question);
                   ("classification", result);
                   ("timestamp", VStr (isoformat now));
                   ("success", success)]))
    (fun e =>
       let* fresh := uuid4 in
       let* now := datetime_now in
       ret (VDict [("statusCode", VInt 500);
                   ("error", VStr (exn_msg e));
                   ("conversation_id", dict_get "conversation_id" (VStr fresh) event);
                   ("question", dict_get "question" (VStr EmptyString) event);
                   ("classification", VDict []);
                   ("success", VBool false);
                   ("timestamp", VStr (isoformat now))])).

End WithJson.
End PlannerV3.

(** ** The step handlers ([processor/planner/handler.py]) *)
Module Planner.
Section WithCrew.

(** What the crew does when a handler builds its task and runs it: the
    exception raised, or [str(result)].  It is given the name of the step
    and the event. *)
Variable crew : string -> dict -> exn + string.

Definition run_crew (step : string) (event : dict) : M string :=
  match crew step event with
  | inr text => ret text
  | inl e => raise e
  end.

Definition create_step_function_error (step error_message : string) (event : dict) : M value :=
  let* now := datetime_now in
  ret (VDict [("statusCode", VInt 500);
              ("body", VDict [("error", VStr error_message);
                              ("step", VStr step);
                              ("input_event", VDict event);
                              ("timestamp", VStr (isoformat now));
                              ("success", VBool false)])]).

Definition task_planner_handler (event : dict) : M value :=
  try_except
    (let question := dict_get "question" (VStr EmptyString) event in
     let analysis_context := dict_get "context" (VDict []) event in
     let* result := run_crew "task_planning" event in
     let* now := datetime_now in
     ret (VDict [("statusCode", VInt 200);
                 ("body", VDict [("execution_plan", VStr result);
                                 ("question", question);
                                 ("context", analysis_context);
                                 ("timestamp", VStr (isoformat now));
                                 ("step", VStr "task_planning");
                                 ("success", VBool true)])]))
    (fun e => create_step_function_error "task_planning" (exn_msg e) event).

Definition metadata_handler (event : dict) : M value :=
  try_except
    (let question := dict_get "question" (VStr EmptyString) event in
     let* result := run_crew "metadata_retrieval" event in
     let* now := datetime_now in
     ret (VDict [("statusCode", VInt 200);
                 ("body", VDict [("metadata_analysis", VStr result);
                                 ("schemas_retrieved", VBool true);
                                 ("question", question);
                                 ("timestamp", VStr (isoformat now));
                                 ("step", VStr "metadata_retrieval");
                                 ("success", VBool true)])]))
    (fun e => create_step_function_error "metadata_retrieval" (exn_msg e) event).

Definition query_execution_handler (event : dict) : M value :=
  try_except
    (let question := dict_get "question" (VStr EmptyString) event in
     let* result := run_crew "query_execution" event in
     let* now := datetime_now in
     ret (VDict [("statusCode", VInt 200);
                 ("body", VDict [("query_results", VStr result);
                                 ("data_retrieved", VBool true);
                                 ("question", question);
                                 ("timestamp", VStr (isoformat now));
                                 ("step", VStr "query_execution");
                                 ("success", VBool true)])]))
    (fun e => create_step_function_error "query_execution" (exn_msg e) event).

Definition financial_analysis_handler (event : dict) : M value :=
  try_except
    (let question := dict_get "question" (VStr EmptyString) event in
     let analysis_context := dict_get "context" (VDict []) event in
     let* result := run_crew "complete_analysis" event in
     let* now := datetime_now in
     ret (VDict [("statusCode", VInt 200);
                 ("body", VDict [("analysis_result", VStr result);
                                 ("question", question);
                                 ("context", analysis_context);
                                 ("timestamp", VStr (isoformat now));
                                 ("step", VStr "complete_analysis");
                                 ("success", VBool true)])]))
    (fun e => create_step_function_error "complete_analysis" (exn_msg e) event).

Definition nl : string := String (ascii_of_nat 10) EmptyString.

Definition format_financial_report (query_results question format_type : value) : M string :=
  if value_is_str format_type "executive" then
    ret (nl ++ "EXECUTIVE FINANCIAL SUMMARY" ++ nl ++ nl
            ++ "Question: " ++ py_str question ++ nl ++ nl
            ++ "KEY FINDINGS:" ++ nl
            ++ py_str query_results ++ nl ++ nl
            ++ "STRATEGIC RECOMMENDATIONS:" ++ nl
            ++ "[Based on the analysis above, key recommendations would be generated here]" ++ nl ++ nl
            ++ "NEXT ACTIONS:" ++ nl
            ++ "[Specific next steps for leadership]" ++ nl)
  else if value_is_str format_type "detailed" then
    let* now := datetime_now in
    ret (nl ++ "DETAILED FINANCIAL ANALYSIS" ++ nl ++ nl
            ++ "Analysis Question: " ++ py_str question ++ nl
            ++ "Generated: " ++ strftime now ++ nl ++ nl
            ++ "COMPLETE ANALYSIS:" ++ nl
            ++ py_str query_results ++ nl ++ nl
            ++ "DATA SOURCES AND METHODOLOGY:" ++ nl
            ++ "[Details about data sources and calculation methods]" ++ nl ++ nl
            ++ "APPENDICES:" ++ nl
            ++ "[Supporting data and detailed breakdowns]" ++ nl)
  else
    let* now := datetime_now in
    ret (nl ++ "Financial Analysis Summary" ++ nl ++ nl
            ++ "Question: " ++ py_str question ++ nl
            ++ "Analysis Results: " ++ py_str query_results ++ nl
            ++ "Generated: " ++ strftime now ++ nl).

Definition reporting_handler (event : dict) : M value :=
  try_except
    (let query_results := dict_get "query_results" (VStr EmptyString) event in
     let question := dict_get "question" (VStr EmptyString) event in
     let report_format := dict_get "format" (VStr "summary") event in
     let* formatted_report := format_financial_report query_results question report_format in
     let* now := datetime_now in
     ret (VDict [("statusCode", VInt 200);
                 ("body", VDict [("final_report", VStr formatted_report);
                                 ("report_format", report_format);
                                 ("question", question);
                                 ("timestamp", VStr (isoformat now));
                                 ("step", VStr "reporting");
                                 ("success", VBool true)])]))
    (fun e => create_step_function_error "reporting" (exn_msg e) event).

(** The main handler.  Creating the directories under [/tmp] and listing
    the code directory come before the routing and do not raise there, and
    every step handler catches what it raises, so the [except] clause of
    the main handler is never entered and is left out. *)
Definition lambda_handler (event : dict) : M value :=
  let step := dict_get "step" VNone event in
  if value_is_str step "task_planning" then task_planner_handler event
  else if value_is_str step "metadata_retrieval" then metadata_handler event
  else if value_is_str step "query_execution" then query_execution_handler event
  else if value_is_str step "reporting" then reporting_handler event
  else if value_is_str step "complete_analysis" then financial_analysis_handler event
  else financial_analysis_handler event.

End WithCrew.
End Planner.

(** ** A concrete world for the examples

    The table service is DynamoDB, which refuses its reserved words as
    attribute names written directly in an expression, in any letter case.
    Of its reserved words the list holds those that the repository uses as
    attribute names. *)

Definition upper (a : ascii) : ascii :=
  let n := nat_of_ascii a in
  if (Nat.leb 97 n && Nat.leb n 122)%bool then ascii_of_nat (n - 32) else a.

Fixpoint upper_string (s : string) : string :=
  match s with
  | String a r => String (upper a) (upper_string r)
  | EmptyString => EmptyString
  end.

Definition dynamodb_reserved (name : string) : bool :=
  existsb (String.eqb (upper_string name)) ["STATUS"; "RESULT"; "ERROR"; "TTL"].

Definition example_clock (n : nat) : datetime :=
  Datetime ("2025-01-01T00:00:0" ++ string_of_Z (Z.of_nat n))
           (1735689600 + Z.of_nat n)
           ("2025-01-01 00:00:0" ++ string_of_Z (Z.of_nat n) ++ " UTC").

Definition example_uuids (n : nat) : string :=
  "job-" ++ string_of_Z (Z.of_nat n).

(** An empty table on DynamoDB, with the faults [f] ahead. *)
Definition fresh_world (f : list (option exn)) : world :=
  World ∅ dynamodb_reserved f [] example_uuids 0 example_clock 0.

Definition throttled : exn :=
  Exn "ClientError" "An error occurred (ThrottlingException) when calling the operation: Rate exceeded".

Definition post_query (body : string) : dict :=
  [("httpMethod", VStr "POST"); ("path", VStr "/query"); ("body", VStr (Json.text body))].

Definition get_status (job_id : string) : dict :=
  [("httpMethod", VStr "GET"); ("path", VStr ("/status/" ++ job_id))].

(** ** Observations *)

(** The attribute [a] of the job stored under [j]. *)
Definition stored (w : world) (j a : string) : option value :=
  match table w !! j with
  | Some it => it !! a
  | None => None
  end.

Definition status_code (response : value) : value :=
  match response with
  | VDict kv => dict_get "statusCode" VNone kv
  | _ => VNone
  end.

(** An entry of the body of a response. *)
Definition body_field (k : string) (response : value) : option value :=
  match response with
  | VDict kv =>
      match dict_get "body" VNone kv with
      | VDict b => assoc k b
      | _ => None
      end
  | _ => None
  end.

(** The view that [check_status] builds of the item [it] stored under
    [j], whose status is [s]. *)
Definition view_of (j : string) (it : gmap string value) (s : value) : dict :=
  ([("job_id", VStr j);
    ("status", s);
    ("created_at", default (VStr EmptyString) (it !! "created_at"));
    ("question", default (VStr EmptyString) (it !! "question"))]
     ++ (if value_is_str s "completed"
         then [("result", default (VDict []) (it !! "result"))]
         else if value_is_str s "failed"
              then [("error", default (VStr "Unknown error") (it !! "error"))]
              else []))%list.

(** No entry of a dictionary holds a number. *)
Definition no_number (d : dict) : bool :=
  negb (existsb (fun p => has_number (snd p)) d).

(** The call number [i] from now (counted from 0) to a service is let
    through. *)
Definition passes (i : nat) (f : list (option exn)) : bool :=
  match f !! i with
  | Some (Some _) => false
  | _ => true
  end.

(** The world after a call to a service was answered. *)
Definition after_call (w : world) : world := set_faults (tail (faults w)) w.

(** The world after the assignments [l] were written to the job [j]. *)
Definition written (j : string) (l : list (string * value)) (w : world) : world :=
  set_table (<[j := assign (default {[ "job_id" := VStr j ]} (table w !! j)) l]> (table w)) w.

(** What the table service makes of an update expression: the
    assignments, or the error it answers with. *)
Definition resolved (rsv : string -> bool) (expression : string)
    (names : list (string * string)) (values : dict) : exn + list (string * value) :=
  match parse_set expression with
  | Some sets => resolve rsv names values sets
  | None => inl (validation "UpdateItem" "Invalid UpdateExpression: Syntax error")
  end.

(** ** Job records *)

Definition has (a : string) (it : gmap string value) : bool :=
  match it !! a with
  | Some _ => true
  | None => false
  end.

Definition status_is (s : string) (it : gmap string value) : bool :=
  match it !! "status" with
  | Some v => value_is_str v s
  | None => false
  end.

(** The invariant of the data model: the status is one of the three, and
    it decides which of [result] and [error] the record holds. *)
Definition exclusive (it : gmap string value) : bool :=
  if status_is "processing" it then negb (has "result" it) && negb (has "error" it)
  else if status_is "completed" it then has "result" it && negb (has "error" it)
  else if status_is "failed" it then has "error" it && negb (has "result" it)
  else false.

(** What the writes of the code keep: a record in [processing] holds
    neither, a [completed] record holds a result and a [failed] record an
    error; a terminal record may hold the other attribute too. *)
Definition settled (it : gmap string value) : bool :=
  if status_is "processing" it then negb (has "result" it) && negb (has "error" it)
  else if status_is "completed" it then has "result" it
  else if status_is "failed" it then has "error" it
  else false.

Definition table_settled (w : world) : Prop :=
  forall j it, table w !! j = Some it -> settled it = true.

(** ** The system

    One step of the system is a request answered by the API function, a
    run of the processor (either variant) on a payload that Lambda holds
    (Lambda hands a payload over at least once, and again after a run that
    raised), or a change of the faults that lie ahead. *)
Inductive step (json_loads : string -> string + value) : world -> world -> Prop :=
| step_request (event : dict) (w : world) :
    step json_loads w (snd (App.lambda_handler json_loads event w))
| step_process (event : dict) (w : world) :
    In event (queue w) ->
    step json_loads w (snd (Processor.lambda_handler event w))
| step_process_build (event : dict) (w : world) :
    In event (queue w) ->
    step json_loads w (snd (ProcessorBuild.lambda_handler event w))
| step_faults (f : list (option exn)) (w : world) :
    step json_loads w (set_faults f w).

Inductive reachable (json_loads : string -> string + value) (w0 : world) : world -> Prop :=
| reach_start : reachable json_loads w0 w0
| reach_step (w w' : world) :
    reachable json_loads w0 w -> step json_loads w w' -> reachable json_loads w0 w'.

(** A computation that keeps [table_settled]. *)
Definition keeps {A : Type} (m : M A) : Prop :=
  forall w, table_settled w -> table_settled (snd (m w)).

(** The step a response of the step handlers reports to have run. *)
Definition step_run (o : outcome value) : option value :=
  match o with
  | Ret r => body_field "step" r
  | Raise _ => None
  end.

(** The routing of [Planner.lambda_handler] as a table on the ['step']
    entry of the event. *)
Definition routed (step : value) : string :=
  match step with
  | VStr s =>
      if existsb (String.eqb s) ["task_planning"; "metadata_retrieval"; "query_execution"; "reporting"]
      then s else "complete_analysis"
  | _ => "complete_analysis"
  end.

(** ** The admission of a job *)

(** The record [start_job] stores, the payload it hands to Lambda and the
    response it returns, for the job id [j]. *)
Definition new_job (j : string) (question context_data : value) (w : world) : dict :=
  [("job_id", VStr j);
   ("status", VStr "processing");
   ("question", question);
   ("context", context_data);
   ("created_at", VStr (isoformat (clock w (S (ticks w)))));
   ("ttl", VInt (timestamp (clock w (ticks w)) + 24 * 3600))].

Definition payload (j : string) (question context_data : value) : dict :=
  [("job_id", VStr j); ("question", question); ("context", context_data)].

Definition accepted (j : string) : value :=
  App.cors_response 202
    [("job_id", VStr j);
     ("status", VStr "processing");
     ("message", VStr "Your request is being processed");
     ("check_status_url", VStr ("/status/" ++ j))].

(** The world once the record of the new job is stored. *)
Definition admitted (question context_data : value) (w : world) : world :=
  let j := uuids w (drawn w) in
  let w1 := after_call (set_ticks (S (S (ticks w))) (set_drawn (S (drawn w)) w)) in
  set_table (<[j := list_to_map (new_job j question context_data w)]> (table w1)) w1.

(** ** The writes of the processor, and a job that is run twice *)

(** The assignments of the two updates of the processor. *)
Definition completed_write (event : dict) (w : world) : list (string * value) :=
  [("status", VStr "completed");
   ("result", VDict [("answer", VStr ("Processed: " ++ py_str (dict_get "question" VNone event)))]);
   ("updated_at", VStr (isoformat (clock w (ticks w))))].

Definition failed_write (e : exn) : list (string * value) :=
  [("status", VStr "failed"); ("error", VStr (exn_msg e))].

(** A job is admitted, the first run of the processor meets a throttled
    table and records the failure, and the run that Lambda starts again
    after the raised exception goes through. *)
Definition queued_job : dict :=
  [("job_id", VStr "job-0"); ("question", VStr "q"); ("context", VDict [])].

Definition retry_w0 : world := fresh_world [None; None; Some throttled].
Definition retry_w1 : world :=
  snd (App.lambda_handler Json.loads (post_query "{'question': 'q'}") retry_w0).
Definition retry_w2 : world := snd (Processor.lambda_handler queued_job retry_w1).
Definition retry_w3 : world := snd (Processor.lambda_handler queued_job retry_w2).

(** A crew that answers every step with the same text, and events that
    carry a classification as the planner writes it. *)
Definition steady_crew (step : string) (event : dict) : exn + string := inr "done".

Definition classified (category : string) : value :=
  VDict [("success", VBool true);
         ("questions", VList [VDict [("question", VStr "What are your storage rates?");
                                     ("category", VStr category)]])].

Definition planner_event (category : string) (step : list (string * value)) : dict :=
  [("question", VStr "What are your storage rates?");
   ("classification", classified category)] ++ step.

(** A table service that reserves no word. *)
Definition plain_world (f : list (option exn)) : world :=
  World ∅ (fun _ => false) f [] example_uuids 0 example_clock 0.

(** ** What a computation answers and what it touches *)

(** The computation never raises: it returns a response built by
    [cors_response]. *)
Definition answers (m : M value) : Prop :=
  forall w, exists code body, fst (m w) = Ret (App.cors_response code body).

(** The computation raises or returns a response built by
    [cors_response]. *)
Definition answers_or_raises (m : M value) : Prop :=
  forall w,
    match fst (m w) with
    | Ret r => exists code body, r = App.cors_response code body
    | Raise _ => True
    end.

(** Run from [w], the computation leaves the record of every job but [j]
    as it is, and writes nothing under the empty key. *)
Definition only_at {A : Type} (j : string) (m : M A) (w : world) : Prop :=
  forall j', j' = EmptyString \/ j' <> j -> table (snd (m w)) !! j' = table w !! j'.

Definition only {A : Type} (j : string) (m : M A) : Prop :=
  forall w, only_at j m w.

(** The computation changes neither the table nor the queue. *)
Definition reads {A : Type} (m : M A) : Prop :=
  forall w, table (snd (m w)) = table w /\ queue (snd (m w)) = queue w.

(** A string without [/]. *)
Definition no_slash (s : string) : bool :=
  forallb (fun a => negb (Ascii.eqb a "/")) (list_ascii_of_string s).

(** A string of [/] only. *)
Definition all_slash (s : string) : bool :=
  forallb (Ascii.eqb "/") (list_ascii_of_string s).

(** A string of blanks only (the characters [str.strip()] removes). *)
Definition all_space (s : string) : bool :=
  forallb is_space (list_ascii_of_string s).

(** An entry of a response that is a plain dictionary. *)
Definition response_field (k : string) (response : value) : option value :=
  match response with
  | VDict kv => assoc k kv
  | _ => None
  end.

(** A string of ASCII characters only. *)
Definition all_ascii (s : string) : bool :=
  forallb (fun a => Nat.ltb (nat_of_ascii a) 128) (list_ascii_of_string s).

(** The last character of a string is a blank. *)
Definition ends_blank (s : string) : bool :=
  match rev (list_ascii_of_string s) with
  | a :: _ => is_space a
  | [] => false
  end.

(** ** What holds before and after a computation *)

(** Run from a world where [P] holds, the computation ends in a world
    where [Q] holds when it returns and in one where [R] holds when it
    raises. *)
Definition from_to {A : Type} (P : world -> Prop) (m : M A) (Q R : world -> Prop) : Prop :=
  forall w, P w ->
    match fst (m w) with
    | Ret _ => Q (snd (m w))
    | Raise _ => R (snd (m w))
    end.

(** The computation leaves the queue as it is and removes no record. *)
Definition grows {A : Type} (m : M A) : Prop :=
  forall w,
    queue (snd (m w)) = queue w
    /\ forall k, is_Some (table w !! k) -> is_Some (table (snd (m w)) !! k).

(** Every payload that Lambda holds for the processor names, by a
    non-empty string, a job whose record is stored. *)
Definition queue_stored (w : world) : Prop :=
  forall p, In p (queue w) ->
    exists j, dict_get "job_id" VNone p = VStr j
              /\ j <> EmptyString
              /\ is_Some (table w !! j).

(** What the writes of the code keep as well: the status, the creation
    time, the result and the error of a record hold no number. *)
Definition numberless (a : string) (it : gmap string value) : bool :=
  match it !! a with
  | Some v => negb (has_number v)
  | None => true
  end.

Definition textual (it : gmap string value) : bool :=
  numberless "status" it && numberless "created_at" it
  && numberless "result" it && numberless "error" it.

Definition table_textual (w : world) : Prop :=
  forall j it, table w !! j = Some it -> textual it = true.

(** * Properties *)

(** ** The definitions at work *)

Example loads_empty_object : Json.loads "{}" = inr (VDict []).
Proof. reflexivity. Qed.

Example loads_question :
  Json.loads (Json.text "{'question': 'What are your storage rates?', 'context': {'n': [1, -2, true, null]}}")
  = inr (VDict [("question", VStr "What are your storage rates?");
                ("context", VDict [("n", VList [VInt 1; VInt (-2); VBool true; VNone])])]).
Proof. reflexivity. Qed.

Example loads_prose : Json.loads "Here is the classification" = inl "Expecting value".
Proof. reflexivity. Qed.

Example strip_fence :
  py_slice 7 3 (py_strip "  ```json{}```  ") = "{}".
Proof. reflexivity. Qed.

Example split_path : py_split "/" (py_strip_char "/" "/status/abc") = ["status"; "abc"].
Proof. reflexivity. Qed.

(** A question is admitted, the processor runs on the queued payload and
    the next status read shows the completed job with its result. *)
Example poll_after_run :
  let w1 := snd (App.lambda_handler Json.loads
                   (post_query "{'question': 'What are your storage rates?'}") (fresh_world [])) in
  let w2 := snd (Processor.lambda_handler (hd [] (queue w1)) w1) in
  let view := fst (App.lambda_handler Json.loads (get_status "job-0") w2) in
  match view with
  | Ret r =>
      status_code r = VInt 200
      /\ body_field "status" r = Some (VStr "completed")
      /\ body_field "result" r
         = Some (VDict [("answer", VStr "Processed: What are your storage rates?")])
  | Raise _ => False
  end.
Proof. vm_compute. repeat split. Qed.

(** A status read for a job that was never created is answered 404. *)
Example poll_unknown_job :
  status_code (match fst (App.lambda_handler Json.loads (get_status "nobody") (fresh_world [])) with
               | Ret r => r
               | Raise _ => VNone
               end) = VInt 404.
Proof. reflexivity. Qed.

Example parse_completed :
  parse_set "SET #status = :status, #result = :result, updated_at = :updated_at"
  = Some [("#status", ":status"); ("#result", ":result"); ("updated_at", ":updated_at")].
Proof. reflexivity. Qed.

(** ** Computations that keep the table settled *)

Lemma keeps_ret {A : Type} (a : A) : keeps (ret a).
Proof. intros w H. exact H. Qed.

Lemma keeps_raise {A : Type} (e : exn) : keeps (@raise A e).
Proof. intros w H. exact H. Qed.

Lemma keeps_bind {A B : Type} (m : M A) (k : A -> M B) :
  keeps m -> (forall a, keeps (k a)) -> keeps (bind m k).
Proof.
  intros Hm Hk w H. unfold bind.
  specialize (Hm w H). destruct (m w) as [[a|e] w']; simpl in *.
  - apply Hk, Hm.
  - exact Hm.
Qed.

Lemma keeps_try_except {A : Type} (m : M A) (h : exn -> M A) :
  keeps m -> (forall e, keeps (h e)) -> keeps (try_except m h).
Proof.
  intros Hm Hh w H. unfold try_except.
  specialize (Hm w H). destruct (m w) as [[a|e] w']; simpl in *.
  - exact Hm.
  - apply Hh, Hm.
Qed.

Lemma keeps_try_except_on {A : Type} (cls : string) (m : M A) (h : exn -> M A) :
  keeps m -> (forall e, keeps (h e)) -> keeps (try_except_on cls m h).
Proof.
  intros Hm Hh w H. unfold try_except_on.
  specialize (Hm w H). destruct (m w) as [[a|e] w']; simpl in *.
  - exact Hm.
  - destruct (String.eqb _ _); [apply Hh, Hm | exact Hm].
Qed.

Lemma keeps_service_call : keeps service_call.
Proof.
  intros w H. unfold service_call.
  destruct (faults w) as [|[e|] f]; exact H.
Qed.

Lemma keeps_uuid4 : keeps uuid4.
Proof. intros w H. exact H. Qed.

Lemma keeps_datetime_now : keeps datetime_now.
Proof. intros w H. exact H. Qed.

Lemma keeps_key_of (operation : string) (k : value) : keeps (key_of operation k).
Proof.
  unfold key_of. destruct k; try apply keeps_raise.
  destruct (String.eqb s EmptyString); [apply keeps_raise | apply keeps_ret].
Qed.

Lemma keeps_py_get (d : value) (k : string) (v : value) : keeps (py_get d k v).
Proof. destruct d; simpl; first [apply keeps_ret | apply keeps_raise]. Qed.

Lemma keeps_loads (json_loads : string -> string + value) (x : value) :
  keeps (loads json_loads x).
Proof.
  destruct x; simpl; try apply keeps_raise.
  destruct (json_loads s); [apply keeps_raise | apply keeps_ret].
Qed.

Lemma keeps_invoke (payload : dict) : keeps (invoke payload).
Proof.
  apply keeps_bind; [apply keeps_service_call | intros _ w H; exact H].
Qed.

Lemma keeps_get_item (k : value) : keeps (get_item k).
Proof.
  apply keeps_bind; [apply keeps_service_call | intros _].
  apply keeps_bind; [apply keeps_key_of | intros j w H; exact H].
Qed.

Lemma table_settled_insert (w : world) (j : string) (it : gmap string value) :
  table_settled w -> settled it = true ->
  table_settled (set_table (<[j := it]> (table w)) w).
Proof.
  intros H Hit j' it'. simpl. rewrite lookup_insert.
  case_decide; [intros [= <-]; exact Hit | apply H].
Qed.

Lemma keeps_put_item (it : dict) :
  settled (list_to_map it) = true -> keeps (put_item it).
Proof.
  intros Hit.
  apply keeps_bind; [apply keeps_service_call | intros _].
  apply keeps_bind; [apply keeps_key_of | intros j w H].
  apply table_settled_insert; assumption.
Qed.

(** An update keeps the table settled when its assignments settle every
    item they may be applied to, whatever words the service reserves. *)
Lemma keeps_update_item (k : value) (expression : string)
    (names : list (string * string)) (values : dict) :
  (forall rsv sets l old,
      parse_set expression = Some sets ->
      resolve rsv names values sets = inr l ->
      settled (assign old l) = true) ->
  keeps (update_item k expression names values).
Proof.
  intros Hl.
  apply keeps_bind; [apply keeps_service_call | intros _].
  apply keeps_bind; [apply keeps_key_of | intros j w H].
  destruct (parse_set expression) as [sets|] eqn:Hp; [|exact H].
  destruct (resolve (reserved w) names values sets) as [e|l] eqn:Hr; [exact H|].
  apply table_settled_insert; [exact H | eauto].
Qed.

Lemma settled_completed (old : gmap string value) (r u : value) :
  settled (assign old [("status", VStr "completed"); ("result", r); ("updated_at", u)]) = true.
Proof.
  unfold settled, status_is, has, assign. simpl.
  rewrite !lookup_insert_ne by done. rewrite lookup_insert_eq. simpl.
  rewrite lookup_insert_ne by done. rewrite lookup_insert_eq. reflexivity.
Qed.

Lemma settled_failed (old : gmap string value) (e : value) :
  settled (assign old [("status", VStr "failed"); ("error", e)]) = true.
Proof.
  unfold settled, status_is, has, assign. simpl.
  rewrite !lookup_insert_ne by done. rewrite lookup_insert_eq. simpl.
  rewrite lookup_insert_eq. reflexivity.
Qed.

Lemma keeps_processor (event : dict) : keeps (Processor.lambda_handler event).
Proof.
  unfold Processor.lambda_handler.
  apply keeps_try_except.
  - apply keeps_bind; [apply keeps_datetime_now | intros now].
    apply keeps_bind; [|intros _; apply keeps_ret].
    apply keeps_update_item. intros rsv sets l old Hp. vm_compute in Hp. injection Hp as <-. simpl. unfold resolve_path. simpl.
    destruct (rsv "updated_at"); [discriminate|]. intros [= <-].
    apply settled_completed.
  - intros e. apply keeps_bind; [|intros _; apply keeps_raise].
    apply keeps_update_item. intros rsv sets l old Hp. vm_compute in Hp. injection Hp as <-. simpl. unfold resolve_path. simpl.
    intros [= <-]. apply settled_failed.
Qed.

Lemma keeps_processor_build (event : dict) : keeps (ProcessorBuild.lambda_handler event).
Proof.
  unfold ProcessorBuild.lambda_handler.
  apply keeps_try_except.
  - apply keeps_bind; [apply keeps_datetime_now | intros now].
    apply keeps_bind; [|intros _; apply keeps_ret].
    apply keeps_update_item. intros rsv sets l old Hp. vm_compute in Hp. injection Hp as <-. simpl. unfold resolve_path. simpl.
    destruct (rsv "result"); [discriminate|].
    destruct (rsv "updated_at"); [discriminate|]. intros [= <-].
    apply settled_completed.
  - intros e. apply keeps_bind; [|intros _; apply keeps_raise].
    apply keeps_update_item. intros rsv sets l old Hp. vm_compute in Hp. injection Hp as <-. simpl. unfold resolve_path. simpl.
    destruct (rsv "error"); [discriminate|].
    intros [= <-]. apply settled_failed.
Qed.

Lemma settled_new (j q c t n : value) :
  settled (list_to_map [("job_id", j); ("status", VStr "processing"); ("question", q);
                        ("context", c); ("created_at", t); ("ttl", n)]) = true.
Proof. vm_compute. reflexivity. Qed.

Lemma keeps_start_job (json_loads : string -> string + value) (event : dict) :
  keeps (App.start_job json_loads event).
Proof.
  unfold App.start_job.
  apply keeps_bind; [apply keeps_loads | intros body].
  apply keeps_bind; [apply keeps_py_get | intros question].
  apply keeps_bind; [apply keeps_py_get | intros context_data].
  destruct (negb (truthy question)); [apply keeps_ret|].
  apply keeps_bind; [apply keeps_uuid4 | intros job_id].
  apply keeps_bind; [apply keeps_datetime_now | intros now].
  apply keeps_bind; [apply keeps_datetime_now | intros created].
  apply keeps_bind; [apply keeps_put_item, settled_new | intros _].
  apply keeps_bind; [|intros _; apply keeps_ret].
  apply keeps_try_except; [apply keeps_invoke | intros e].
  apply keeps_update_item. intros rsv sets l old Hp.
  vm_compute in Hp. injection Hp as <-. simpl. unfold resolve_path. simpl.
  intros [= <-]. apply settled_failed.
Qed.

Lemma keeps_dumps_item (body : dict) : keeps (App.dumps_item body).
Proof.
  unfold App.dumps_item. destruct (existsb _ body); [apply keeps_raise | apply keeps_ret].
Qed.

Lemma keeps_check_status (job_id : value) : keeps (App.check_status job_id).
Proof.
  unfold App.check_status.
  apply keeps_try_except; [|intros e; apply keeps_ret].
  apply keeps_bind; [apply keeps_get_item | intros [job|]]; [|apply keeps_ret].
  apply keeps_bind.
  - unfold App.job_status. destruct (job !! "status"); [apply keeps_ret | apply keeps_raise].
  - intros s. apply keeps_bind; [apply keeps_dumps_item | intros _; apply keeps_ret].
Qed.

Lemma keeps_api (json_loads : string -> string + value) (event : dict) :
  keeps (App.lambda_handler json_loads event).
Proof.
  unfold App.lambda_handler.
  apply keeps_try_except; [|intros e; apply keeps_ret].
  destruct (value_is_str _ "OPTIONS"); [apply keeps_ret|].
  destruct (_ && _)%bool; [apply keeps_start_job|].
  destruct (dict_get "path" _ event) as [| | |p| |]; try apply keeps_raise.
  destruct (_ && _)%bool; [|apply keeps_ret].
  apply keeps_bind.
  - unfold App.path_job_id.
    apply keeps_bind.
    + destruct (truthy _); [|apply keeps_ret].
      apply keeps_bind; [apply keeps_py_get | intros j; apply keeps_ret].
    + intros v. destruct (truthy v); [apply keeps_ret|].
      destruct (py_split _ _) as [|a [|b l]]; try apply keeps_ret.
      destruct (String.eqb a "status"); apply keeps_ret.
  - intros j. destruct (negb (truthy j)); [apply keeps_ret | apply keeps_check_status].
Qed.

(** Every step of the system keeps the table settled. *)
Lemma step_settled (json_loads : string -> string + value) (w w' : world) :
  step json_loads w w' -> table_settled w -> table_settled w'.
Proof.
  intros Hs H. destruct Hs as [event w | event w Hin | event w Hin | f w].
  - apply keeps_api, H.
  - apply keeps_processor, H.
  - apply keeps_processor_build, H.
  - exact H.
Qed.

(** ** Calls to the table service, step by step *)

Lemma world_eta (w : world) : set_faults (faults w) w = w.
Proof. destruct w; reflexivity. Qed.

Lemma service_call_passes (w : world) :
  passes 0 (faults w) = true ->
  service_call w = (Ret tt, after_call w).
Proof.
  unfold passes, service_call, after_call.
  destruct (faults w) as [|[e|] f] eqn:Hf; simpl; intros H.
  - rewrite <- Hf, world_eta. reflexivity.
  - discriminate.
  - reflexivity.
Qed.

Lemma service_call_fault (w : world) (e : exn) :
  faults w !! 0%nat = Some (Some e) ->
  service_call w = (Raise e, after_call w).
Proof.
  unfold service_call, after_call.
  destruct (faults w) as [|[e'|] f]; simpl; intros [= ->]. reflexivity.
Qed.

Lemma passes_after_call (i : nat) (w : world) :
  passes i (faults (after_call w)) = passes (S i) (faults w).
Proof.
  unfold passes, after_call. simpl. destruct (faults w); reflexivity.
Qed.

Lemma key_of_string (operation j : string) (w : world) :
  j <> EmptyString -> key_of operation (VStr j) w = (Ret j, w).
Proof.
  intros H. unfold key_of.
  destruct (String.eqb_spec j EmptyString); [contradiction | reflexivity].
Qed.

Lemma update_item_passes (w : world) (j expression : string)
    (names : list (string * string)) (values : dict)
    (sets : list (string * string)) (l : list (string * value)) :
  passes 0 (faults w) = true ->
  j <> EmptyString ->
  parse_set expression = Some sets ->
  resolve (reserved w) names values sets = inr l ->
  update_item (VStr j) expression names values w = (Ret tt, written j l (after_call w)).
Proof.
  intros Hf Hj Hp Hr. unfold update_item, bind.
  rewrite (service_call_passes w Hf), (key_of_string _ _ _ Hj), Hp.
  change (reserved (after_call w)) with (reserved w). rewrite Hr. reflexivity.
Qed.

Lemma update_item_fault (w : world) (k : value) (expression : string)
    (names : list (string * string)) (values : dict) (e : exn) :
  faults w !! 0%nat = Some (Some e) ->
  update_item k expression names values w = (Raise e, after_call w).
Proof.
  intros Hf. unfold update_item, bind. rewrite (service_call_fault w e Hf). reflexivity.
Qed.

Lemma stored_written (w : world) (j a : string) (l : list (string * value)) :
  stored (written j l w) j a
  = assign (default {[ "job_id" := VStr j ]} (table w !! j)) l !! a.
Proof. unfold stored, written. simpl. rewrite lookup_insert_eq. reflexivity. Qed.

(** ** A run of the processor *)

Lemma processor_completes (event : dict) (w : world) (j : string) :
  dict_get "job_id" VNone event = VStr j ->
  j <> EmptyString ->
  reserved w "updated_at" = false ->
  passes 0 (faults w) = true ->
  Processor.lambda_handler event w
  = (Ret (VDict [("statusCode", VInt 200)]),
     written j (completed_write event w) (after_call (set_ticks (S (ticks w)) w))).
Proof.
  intros Hj Hne Hr Hf.
  unfold Processor.lambda_handler, try_except, bind, datetime_now. rewrite Hj.
  erewrite update_item_passes; [reflexivity | exact Hf | exact Hne | vm_compute; reflexivity |].
  simpl. unfold resolve_path. simpl. rewrite Hr. reflexivity.
Qed.

Lemma processor_fails (event : dict) (w : world) (j : string) (e : exn) :
  dict_get "job_id" VNone event = VStr j ->
  j <> EmptyString ->
  faults w !! 0%nat = Some (Some e) ->
  passes 1 (faults w) = true ->
  Processor.lambda_handler event w
  = (Raise e,
     written j (failed_write e) (after_call (after_call (set_ticks (S (ticks w)) w)))).
Proof.
  intros Hj Hne He Hf.
  unfold Processor.lambda_handler, try_except, bind, datetime_now. rewrite Hj.
  rewrite (update_item_fault _ _ _ _ _ e) by exact He.
  erewrite update_item_passes; [reflexivity | | exact Hne | vm_compute; reflexivity | reflexivity].
  rewrite passes_after_call. exact Hf.
Qed.

Lemma status_completed_write (event : dict) (w w' : world) (j : string) :
  stored (written j (completed_write event w) w') j "status" = Some (VStr "completed").
Proof.
  rewrite stored_written. unfold assign, completed_write. simpl.
  rewrite !lookup_insert_ne by done. apply lookup_insert_eq.
Qed.

Lemma status_failed_write (e : exn) (w : world) (j : string) :
  stored (written j (failed_write e) w) j "status" = Some (VStr "failed").
Proof.
  rewrite stored_written. unfold assign, failed_write. simpl.
  rewrite !lookup_insert_ne by done. apply lookup_insert_eq.
Qed.

(** C1 (as amended): the terminal writes of the processor are
    unconditional.  Whatever is stored for the job, a run whose
    completed-update the table service accepts returns status code 200 and
    leaves the job [completed]; a run whose completed-update raises and
    whose failed-update is accepted raises that exception again and leaves
    the job [failed]. *)
Theorem terminal_writes_unconditional (event : dict) (w : world) (j : string) :
  dict_get "job_id" VNone event = VStr j ->
  j <> EmptyString ->
  reserved w "updated_at" = false ->
  (passes 0 (faults w) = true ->
   fst (Processor.lambda_handler event w) = Ret (VDict [("statusCode", VInt 200)])
   /\ stored (snd (Processor.lambda_handler event w)) j "status" = Some (VStr "completed"))
  /\ (forall e,
        faults w !! 0%nat = Some (Some e) -> passes 1 (faults w) = true ->
        fst (Processor.lambda_handler event w) = Raise e
        /\ stored (snd (Processor.lambda_handler event w)) j "status" = Some (VStr "failed")).
Proof.
  intros Hj Hne Hr. split.
  - intros Hf. rewrite (processor_completes event w j Hj Hne Hr Hf). simpl.
    split; [reflexivity | apply status_completed_write].
  - intros e He Hf. rewrite (processor_fails event w j e Hj Hne He Hf). simpl.
    split; [reflexivity | apply status_failed_write].
Qed.

Lemma retry_reachable : reachable Json.loads retry_w0 retry_w3.
Proof.
  apply reach_step with (w := retry_w2).
  - apply reach_step with (w := retry_w1).
    + apply reach_step with (w := retry_w0); [apply reach_start | apply step_request].
    + apply step_process. vm_compute. left. reflexivity.
  - apply step_process. vm_compute. left. reflexivity.
Qed.

(** C1, the claim as stated fails: the job that the first run left
    [failed] is [completed] after the second run, which is a step of the
    system like any other and meets no condition failure. *)
Lemma failed_job_becomes_completed :
  stored retry_w2 "job-0" "status" = Some (VStr "failed")
  /\ step Json.loads retry_w2 retry_w3
  /\ fst (Processor.lambda_handler queued_job retry_w2) = Ret (VDict [("statusCode", VInt 200)])
  /\ stored retry_w3 "job-0" "status" = Some (VStr "completed").
Proof.
  split; [vm_compute; reflexivity|].
  split; [apply step_process; vm_compute; left; reflexivity|].
  split; vm_compute; reflexivity.
Qed.

Lemma terminal_writes_unconditional_witness :
  stored retry_w2 "job-0" "status" = Some (VStr "failed")
  /\ stored (snd (Processor.lambda_handler queued_job retry_w2)) "job-0" "status"
     = Some (VStr "completed").
Proof.
  split; [vm_compute; reflexivity|].
  refine (proj2 (proj1 (terminal_writes_unconditional queued_job retry_w2 "job-0" _ _ _) _));
    [reflexivity | discriminate | reflexivity | reflexivity].
Defined.

(** ** The invariant of the job records *)

(** C2 (as amended): starting from an empty table, every record the
    system ever stores is settled: in [processing] it holds neither a
    result nor an error, [completed] it holds a result, [failed] it holds
    an error; the creation, the completed-update and the failed-update all
    keep this.  That a terminal record holds nothing of the other kind is
    not part of it: the updates set attributes and remove none. *)
Theorem reachable_settled (json_loads : string -> string + value) (w0 w : world) :
  table w0 = ∅ ->
  reachable json_loads w0 w ->
  table_settled w.
Proof.
  intros H0 Hr. induction Hr as [|w w' Hr IH Hs].
  - intros j it. rewrite H0, lookup_empty. discriminate.
  - exact (step_settled json_loads w w' Hs IH).
Qed.

Lemma reachable_settled_witness :
  table retry_w0 = ∅ /\ reachable Json.loads retry_w0 retry_w3 /\ table_settled retry_w3.
Proof.
  split; [reflexivity|]. split; [exact retry_reachable|].
  apply (reachable_settled Json.loads retry_w0 retry_w3); [reflexivity | exact retry_reachable].
Defined.

(** C2, the claim as stated fails: after the failed run and the run that
    follows it the record is [completed] and holds both the result and the
    error of the first run, so the completed-update did not keep the
    invariant of the data model. *)
Lemma completed_job_keeps_error :
  reachable Json.loads retry_w0 retry_w2
  /\ option_map exclusive (table retry_w2 !! "job-0") = Some true
  /\ step Json.loads retry_w2 retry_w3
  /\ option_map (status_is "completed") (table retry_w3 !! "job-0") = Some true
  /\ option_map (has "result") (table retry_w3 !! "job-0") = Some true
  /\ option_map (has "error") (table retry_w3 !! "job-0") = Some true
  /\ option_map exclusive (table retry_w3 !! "job-0") = Some false.
Proof.
  split.
  { apply reach_step with (w := retry_w1).
    - apply reach_step with (w := retry_w0); [apply reach_start | apply step_request].
    - apply step_process. vm_compute. left. reflexivity. }
  split; [vm_compute; reflexivity|].
  split; [apply step_process; vm_compute; left; reflexivity|].
  repeat split; vm_compute; reflexivity.
Qed.

Lemma put_item_passes (w : world) (it : dict) (j : string) :
  passes 0 (faults w) = true ->
  dict_get "job_id" VNone it = VStr j ->
  j <> EmptyString ->
  put_item it w
  = (Ret tt, set_table (<[j := list_to_map it]> (table w)) (after_call w)).
Proof.
  intros Hf Hk Hj. unfold put_item, bind.
  rewrite (service_call_passes w Hf), Hk, (key_of_string _ _ _ Hj). reflexivity.
Qed.

Lemma invoke_passes (w : world) (p : dict) :
  passes 0 (faults w) = true ->
  invoke p w = (Ret tt, set_queue (queue w ++ [p]) (after_call w)).
Proof.
  intros Hf. unfold invoke, bind. rewrite (service_call_passes w Hf). reflexivity.
Qed.

Lemma invoke_fault (w : world) (p : dict) (e : exn) :
  faults w !! 0%nat = Some (Some e) ->
  invoke p w = (Raise e, after_call w).
Proof.
  intros Hf. unfold invoke, bind. rewrite (service_call_fault w e Hf). reflexivity.
Qed.

Lemma lookup_after_call (i : nat) (w : world) :
  faults (after_call w) !! i = faults w !! S i.
Proof. unfold after_call. simpl. destruct (faults w); reflexivity. Qed.

(** ** A run of [start_job] *)

Section StartJob.
Variable json_loads : string -> string + value.
Variables (event : dict) (w : world) (text : string) (kv : dict).

Let question := dict_get "question" (VStr EmptyString) kv.
Let context_data := dict_get "context" (VDict []) kv.
Let j := uuids w (drawn w).

Hypothesis Hbody : dict_get "body" (VStr "{}") event = VStr text.
Hypothesis Hjson : json_loads text = inr (VDict kv).


Hypothesis Hq : truthy question = true.
Hypothesis Hj : j <> EmptyString.
Hypothesis Hput : passes 0 (faults w) = true.

Lemma start_job_admits :
  passes 1 (faults w) = true ->
  App.start_job json_loads event w
  = (Ret (accepted j),
     set_queue (queue w ++ [payload j question context_data])
               (after_call (admitted question context_data w))).
Proof.
  intros Hinv. unfold App.start_job, bind. rewrite Hbody. simpl. rewrite Hjson. simpl.
  fold question context_data. rewrite Hq. simpl. fold j.
  erewrite put_item_passes; [| exact Hput | reflexivity | exact Hj].
  unfold try_except. erewrite invoke_passes; [reflexivity|].
  rewrite <- (passes_after_call 0 w) in Hinv. exact Hinv.
Qed.

Lemma start_job_dispatch_fails (e : exn) :
  faults w !! 1%nat = Some (Some e) ->
  passes 2 (faults w) = true ->
  App.start_job json_loads event w
  = (Ret (accepted j),
     written j (failed_write e)
             (after_call (after_call (admitted question context_data w)))).
Proof.
  intros He Hupd. unfold App.start_job, bind. rewrite Hbody. simpl. rewrite Hjson. simpl.
  fold question context_data. rewrite Hq. simpl. fold j.
  erewrite put_item_passes; [| exact Hput | reflexivity | exact Hj].
  unfold try_except. erewrite invoke_fault.
  2:{ rewrite <- (lookup_after_call 0 w) in He. exact He. }
  erewrite update_item_passes; [reflexivity | | exact Hj | vm_compute; reflexivity | reflexivity].
  rewrite <- (passes_after_call 1 w), <- (passes_after_call 0 (after_call w)) in Hupd.
  exact Hupd.
Qed.

End StartJob.

Lemma stored_admitted (w W : world) (j a : string) (q c : value) (l : list (string * value)) :
  table W !! j = Some (list_to_map (new_job j q c w)) ->
  stored (written j l W) j a = assign (list_to_map (new_job j q c w)) l !! a.
Proof. intros H. rewrite stored_written, H. reflexivity. Qed.

Lemma table_admitted (q c : value) (w : world) :
  table (admitted q c w) !! uuids w (drawn w)
  = Some (list_to_map (new_job (uuids w (drawn w)) q c w)).
Proof. unfold admitted. simpl. apply lookup_insert_eq. Qed.

(** C3: when the asynchronous invocation of the processor raises, the
    record that [start_job] has just stored is updated to [failed], with
    the text of the exception as its error, before [start_job] returns; the
    processor was not queued. *)
Theorem dispatch_failure_marks_failed
    (json_loads : string -> string + value) (event : dict) (w : world)
    (text : string) (kv : dict) (e : exn) :
  dict_get "body" (VStr "{}") event = VStr text ->
  json_loads text = inr (VDict kv) ->
  truthy (dict_get "question" (VStr EmptyString) kv) = true ->
  uuids w (drawn w) <> EmptyString ->
  passes 0 (faults w) = true ->
  faults w !! 1%nat = Some (Some e) ->
  passes 2 (faults w) = true ->
  let j := uuids w (drawn w) in
  let run := App.start_job json_loads event w in
  (exists response, fst run = Ret response)
  /\ stored (snd run) j "status" = Some (VStr "failed")
  /\ stored (snd run) j "error" = Some (VStr (exn_msg e))
  /\ stored (snd run) j "question" = Some (dict_get "question" (VStr EmptyString) kv)
  /\ queue (snd run) = queue w.
Proof.
  intros Hbody Hjson Hq Hj Hput He Hupd j run. subst run.
  rewrite (start_job_dispatch_fails json_loads event w text kv Hbody Hjson Hq Hj Hput e He Hupd).
  simpl. split; [eexists; reflexivity|].
  rewrite !(stored_admitted w _ _ _ (dict_get "question" (VStr EmptyString) kv)
             (dict_get "context" (VDict []) kv)) by apply table_admitted.
  unfold assign, failed_write, new_job. simpl.
  repeat split.
Qed.

Lemma dispatch_failure_marks_failed_witness :
  let w := fresh_world [None; Some throttled] in
  let run := App.start_job Json.loads (post_query "{'question': 'q'}") w in
  stored (snd run) "job-0" "status" = Some (VStr "failed")
  /\ stored (snd run) "job-0" "error" = Some (VStr (exn_msg throttled)).
Proof.
  intros w run.
  destruct (dispatch_failure_marks_failed Json.loads (post_query "{'question': 'q'}") w
              (Json.text "{'question': 'q'}") [("question", VStr "q")] throttled)
    as (_ & Hs & He & _);
    [reflexivity | reflexivity | reflexivity | discriminate | reflexivity
    | reflexivity | reflexivity |].
  split; [exact Hs | exact He].
Defined.

(** C9: when the asynchronous invocation raises, [start_job] still
    answers 202 with status [processing] and the status URL in the body,
    while the record it leaves behind is [failed]. *)
Theorem dispatch_failure_still_accepted
    (json_loads : string -> string + value) (event : dict) (w : world)
    (text : string) (kv : dict) (e : exn) :
  dict_get "body" (VStr "{}") event = VStr text ->
  json_loads text = inr (VDict kv) ->
  truthy (dict_get "question" (VStr EmptyString) kv) = true ->
  uuids w (drawn w) <> EmptyString ->
  passes 0 (faults w) = true ->
  faults w !! 1%nat = Some (Some e) ->
  passes 2 (faults w) = true ->
  let j := uuids w (drawn w) in
  let run := App.start_job json_loads event w in
  exists response,
    fst run = Ret response
    /\ status_code response = VInt 202
    /\ body_field "status" response = Some (VStr "processing")
    /\ body_field "check_status_url" response = Some (VStr ("/status/" ++ j))
    /\ stored (snd run) j "status" = Some (VStr "failed").
Proof.
  intros Hbody Hjson Hq Hj Hput He Hupd j run. subst run.
  rewrite (start_job_dispatch_fails json_loads event w text kv Hbody Hjson Hq Hj Hput e He Hupd).
  simpl. exists (accepted j). repeat split.
  apply status_failed_write.
Qed.

Lemma dispatch_failure_still_accepted_witness :
  let w := fresh_world [None; Some throttled] in
  let run := App.start_job Json.loads (post_query "{'question': 'q'}") w in
  exists response,
    fst run = Ret response
    /\ body_field "status" response = Some (VStr "processing")
    /\ stored (snd run) "job-0" "status" = Some (VStr "failed").
Proof.
  intros w run.
  destruct (dispatch_failure_still_accepted Json.loads (post_query "{'question': 'q'}") w
              (Json.text "{'question': 'q'}") [("question", VStr "q")] throttled)
    as (response & Hr & _ & Hb & _ & Hs);
    [reflexivity | reflexivity | reflexivity | discriminate | reflexivity
    | reflexivity | reflexivity |].
  exists response. split; [exact Hr | split; [exact Hb | exact Hs]].
Defined.

(** ** The status read *)

Lemma value_is_str_spec (v : value) (s : string) :
  value_is_str v s = true <-> v = VStr s.
Proof.
  destruct v; simpl; try (split; [discriminate | intros [=]]).
  destruct (String.eqb_spec s0 s); split; congruence.
Qed.

Lemma get_item_passes (w : world) (j : string) :
  passes 0 (faults w) = true ->
  j <> EmptyString ->
  get_item (VStr j) w = (Ret (table w !! j), after_call w).
Proof.
  intros Hf Hj. unfold get_item, bind.
  rewrite (service_call_passes w Hf), (key_of_string _ _ _ Hj). reflexivity.
Qed.

(** The status read leaves the table as it is, whatever it returns. *)
Lemma check_status_read_only (job_id : value) (w : world) :
  table (snd (App.check_status job_id w)) = table w.
Proof.
  unfold App.check_status, try_except, get_item, bind, service_call, key_of,
    App.job_status, App.dumps_item.
  destruct (faults w) as [|[e|] f]; simpl; try reflexivity;
    destruct job_id; simpl; try reflexivity;
    destruct (String.eqb s EmptyString); simpl; try reflexivity;
    destruct (table w !! s) as [job|]; simpl; try reflexivity;
    destruct (job !! "status"); simpl; try reflexivity;
    destruct (existsb _ _); reflexivity.
Qed.

Lemma check_status_found (w : world) (j : string) (it : gmap string value) (s : value) :
  table w !! j = Some it ->
  it !! "status" = Some s ->
  j <> EmptyString ->
  passes 0 (faults w) = true ->
  App.check_status (VStr j) w
  = (Ret (if no_number (view_of j it s)
          then App.cors_response 200 (view_of j it s)
          else App.cors_response 500
                 [("error", VStr "Object of type Decimal is not JSON serializable")]),
     after_call w).
Proof.
  intros Hit Hs Hj Hf. unfold App.check_status, try_except, bind.
  rewrite (get_item_passes w j Hf Hj).
  rewrite Hit. unfold App.job_status. rewrite Hs. unfold ret.
  unfold no_number, view_of, App.dumps_item.
  destruct (value_is_str s "completed"); [|destruct (value_is_str s "failed")];
    cbn [app]; destruct (existsb _ _); reflexivity.
Qed.

(** C4, the code at a failing input.  A job is admitted with the question
    [5], which [start_job] takes (it tests the question for truth only) and
    stores.  The status read finds the job and builds its view, and the
    encoder of the response refuses the number that the table handed back:
    the read is answered 500 with the text of the type error, and the view
    with [job_id], [status], [created_at] and [question] is not
    returned.  The table is left as it was. *)
Theorem status_read_refuses_stored_number :
  let w1 := snd (App.lambda_handler Json.loads (post_query "{'question': 5}") (fresh_world [])) in
  let poll := App.lambda_handler Json.loads (get_status "job-0") w1 in
  stored w1 "job-0" "status" = Some (VStr "processing")
  /\ stored w1 "job-0" "question" = Some (VInt 5)
  /\ fst poll
     = Ret (App.cors_response 500
              [("error", VStr "Object of type Decimal is not JSON serializable")])
  /\ table (snd poll) = table w1.
Proof. vm_compute. repeat split. Qed.

(** X27: the view of a stored job.  For a stored job whose view holds no
    number, the status read, when the table answers, returns 200 with a
    view that holds [job_id], [status], [created_at] and [question] (the
    last two empty when the record has none); the view holds [result]
    exactly when the stored status is [completed] and [error] exactly when
    it is [failed]; and no status read, found or not, changes the table. *)
Theorem status_view_of_stored_job
    (w : world) (j : string) (it : gmap string value) (s : value) :
  table w !! j = Some it ->
  it !! "status" = Some s ->
  j <> EmptyString ->
  passes 0 (faults w) = true ->
  no_number (view_of j it s) = true ->
  (exists view,
      fst (App.check_status (VStr j) w) = Ret view
      /\ status_code view = VInt 200
      /\ body_field "job_id" view = Some (VStr j)
      /\ body_field "status" view = Some s
      /\ body_field "created_at" view = Some (default (VStr EmptyString) (it !! "created_at"))
      /\ body_field "question" view = Some (default (VStr EmptyString) (it !! "question"))
      /\ (is_Some (body_field "result" view) <-> s = VStr "completed")
      /\ (is_Some (body_field "error" view) <-> s = VStr "failed"))
  /\ (forall (job_id : value) (w0 : world),
         table (snd (App.check_status job_id w0)) = table w0).
Proof.
  intros Hit Hs Hj Hf Hn. split; [|exact check_status_read_only].
  rewrite (check_status_found w j it s Hit Hs Hj Hf), Hn. unfold view_of. simpl.
  eexists. split; [reflexivity|].
  do 5 (split; [reflexivity|]).
  rewrite <- !value_is_str_spec.
  destruct (value_is_str s "completed") eqn:Hc.
  - apply value_is_str_spec in Hc. subst s. simpl. split; split; try discriminate; eauto.
    intros [x [=]].
  - destruct (value_is_str s "failed") eqn:Hfl; simpl; split; split;
      try discriminate; eauto; intros [x [=]].
Qed.

Lemma status_view_of_stored_job_witness :
  exists view,
    fst (App.check_status (VStr "job-0") retry_w3) = Ret view
    /\ body_field "status" view = Some (VStr "completed")
    /\ is_Some (body_field "result" view).
Proof.
  destruct (status_view_of_stored_job retry_w3 "job-0"
              (default ∅ (table retry_w3 !! "job-0")) (VStr "completed"))
    as [(view & Hv & _ & _ & Hs & _ & _ & Hr & _) _];
    [vm_compute; reflexivity | vm_compute; reflexivity | discriminate | reflexivity
     | vm_compute; reflexivity |].
  exists view. split; [exact Hv | split; [exact Hs | apply Hr; reflexivity]].
Defined.

(** ** Admission followed by a status read *)




(** ** POST /query *)

Lemma lambda_handler_query (json_loads : string -> string + value) (event : dict) (w : world) :
  assoc "httpMethod" event = Some (VStr "POST") ->
  assoc "path" event = Some (VStr "/query") ->
  App.lambda_handler json_loads event w
  = try_except (App.start_job json_loads event)
      (fun e => ret (App.cors_response 500 [("error", VStr (exn_msg e))])) w.
Proof.
  intros Hm Hp. unfold App.lambda_handler, dict_get. rewrite Hm, Hp. reflexivity.
Qed.

(** C6, the code at a failing input.  A POST to [/query] that was sent
    without a body reaches the function with [body] set to [None]: the key
    is there, so the default of [event.get('body', '{}')] is not taken.
    The request has no question, and it is answered 500 with the type
    error of [json.loads], not 400 with [Question is required].  The same
    request without the [body] key is answered 400. *)
Theorem post_query_without_body (json_loads : string -> string + value) (w : world) :
  App.lambda_handler json_loads
    [("httpMethod", VStr "POST"); ("path", VStr "/query"); ("body", VNone)] w
  = (Ret (App.cors_response 500
            [("error", VStr "the JSON object must be str, bytes or bytearray, not NoneType")]),
     w)
  /\ App.lambda_handler Json.loads [("httpMethod", VStr "POST"); ("path", VStr "/query")] w
     = (Ret (App.cors_response 400 [("error", VStr "Question is required")]), w).
Proof. split; reflexivity. Qed.



(** ** The classification *)

(** [classify_question] never raises and always returns a dictionary with
    a [questions] entry.  When the call to the crew raises, when the
    cleaned answer is not JSON, and when it is JSON but not an object, the
    entry is the fallback: one fragment, the whole question, classified
    [factual_direct].  When the answer is a JSON object the entry is what
    the object holds under [questions], as it is, and the empty list when
    it holds nothing there: this last case has no fallback. *)
Lemma classify_question_returns
    (json_loads : string -> string + value) (kickoff : exn + string)
    (question : value) (w : world) :
  exists d,
    fst (PlannerV3.classify_question json_loads kickoff question w) = Ret (VDict d)
    /\ assoc "questions" d
       = Some match kickoff with
              | inl _ => PlannerV3.fallback_questions question
              | inr raw =>
                  match json_loads (PlannerV3.clean_response raw) with
                  | inr (VDict kv) => dict_get "questions" (VList []) kv
                  | _ => PlannerV3.fallback_questions question
                  end
              end.
Proof.
  unfold PlannerV3.classify_question, try_except, try_except_on, bind.
  destruct kickoff as [e|raw]; simpl; [eexists; split; reflexivity|].
  destruct (json_loads (PlannerV3.clean_response raw)) as [msg|v]; simpl;
    [eexists; split; reflexivity|].
  destruct v; simpl; eexists; split; reflexivity.
Qed.

(** C7: the classifier is to return a non-empty list of fragments for
    every question, falling back to the whole question as one
    [factual_direct] fragment.  It does so when the answer cannot be read;
    but for an answer that is an object without fragments, bare or inside a
    code fence, it reports success with an empty list of questions. *)
Lemma classification_may_be_empty :
  (exists d,
      fst (PlannerV3.classify_question Json.loads (inr "{}")
             (VStr "What are your storage rates?") (fresh_world []))
      = Ret (VDict d)
      /\ assoc "success" d = Some (VBool true)
      /\ assoc "questions" d = Some (VList []))
  /\ (exists d,
         fst (PlannerV3.classify_question Json.loads
                (inr (Json.text "```json{'questions': []}```"))
                (VStr "What are your storage rates?") (fresh_world []))
         = Ret (VDict d)
         /\ assoc "success" d = Some (VBool true)
         /\ assoc "questions" d = Some (VList [])).
Proof.
  split; eexists; (split; [vm_compute; reflexivity | split; reflexivity]).
Qed.

(** ** The routing of the step handlers *)

Lemma step_run_task_planner (crew : string -> dict -> exn + string) (event : dict) (w : world) :
  step_run (fst (Planner.task_planner_handler crew event w)) = Some (VStr "task_planning").
Proof.
  unfold Planner.task_planner_handler, Planner.run_crew, try_except, bind.
  destruct (crew "task_planning" event); reflexivity.
Qed.

Lemma step_run_metadata (crew : string -> dict -> exn + string) (event : dict) (w : world) :
  step_run (fst (Planner.metadata_handler crew event w)) = Some (VStr "metadata_retrieval").
Proof.
  unfold Planner.metadata_handler, Planner.run_crew, try_except, bind.
  destruct (crew "metadata_retrieval" event); reflexivity.
Qed.

Lemma step_run_query (crew : string -> dict -> exn + string) (event : dict) (w : world) :
  step_run (fst (Planner.query_execution_handler crew event w)) = Some (VStr "query_execution").
Proof.
  unfold Planner.query_execution_handler, Planner.run_crew, try_except, bind.
  destruct (crew "query_execution" event); reflexivity.
Qed.

Lemma step_run_analysis (crew : string -> dict -> exn + string) (event : dict) (w : world) :
  step_run (fst (Planner.financial_analysis_handler crew event w)) = Some (VStr "complete_analysis").
Proof.
  unfold Planner.financial_analysis_handler, Planner.run_crew, try_except, bind.
  destruct (crew "complete_analysis" event); reflexivity.
Qed.

Lemma step_run_reporting (event : dict) (w : world) :
  step_run (fst (Planner.reporting_handler event w)) = Some (VStr "reporting").
Proof.
  unfold Planner.reporting_handler, Planner.format_financial_report, try_except, bind.
  destruct (value_is_str _ "executive"); [reflexivity|].
  destruct (value_is_str _ "detailed"); reflexivity.
Qed.

Lemma processor_reads_job_and_question (event other : dict) (w : world) :
  dict_get "job_id" VNone other = dict_get "job_id" VNone event ->
  dict_get "question" VNone other = dict_get "question" VNone event ->
  Processor.lambda_handler other w = Processor.lambda_handler event w.
Proof.
  intros Hj Hq. unfold Processor.lambda_handler. rewrite Hj, Hq. reflexivity.
Qed.

(** C8 (as amended): a call of the main handler runs one step handler,
    and which one is read off the ['step'] entry of the event:
    [task_planning], [metadata_retrieval], [query_execution] and
    [reporting] select their handler, every other value and a missing
    entry select the complete analysis.  Nothing else in the event, a
    classification included, takes part in the choice.  The processor runs
    no step and classifies nothing: what it does is fixed by the [job_id]
    and the [question] of its event. *)
Theorem step_selected_by_event
    (crew : string -> dict -> exn + string) (event : dict) (w : world) :
  step_run (fst (Planner.lambda_handler crew event w))
  = Some (VStr (routed (dict_get "step" VNone event)))
  /\ (forall other : dict,
         dict_get "job_id" VNone other = dict_get "job_id" VNone event ->
         dict_get "question" VNone other = dict_get "question" VNone event ->
         Processor.lambda_handler other w = Processor.lambda_handler event w).
Proof.
  split; [|intros other; apply processor_reads_job_and_question].
  unfold Planner.lambda_handler, routed.
  destruct (dict_get "step" VNone event) as [| | |s| |]; simpl;
    try apply step_run_analysis.
  destruct (String.eqb s "task_planning") eqn:H1; simpl.
  { apply String.eqb_eq in H1. subst s. apply step_run_task_planner. }
  destruct (String.eqb s "metadata_retrieval") eqn:H2; simpl.
  { apply String.eqb_eq in H2. subst s. apply step_run_metadata. }
  destruct (String.eqb s "query_execution") eqn:H3; simpl.
  { apply String.eqb_eq in H3. subst s. apply step_run_query. }
  destruct (String.eqb s "reporting") eqn:H4; simpl.
  { apply String.eqb_eq in H4. subst s. apply step_run_reporting. }
  destruct (String.eqb s "complete_analysis"); apply step_run_analysis.
Qed.

(** C8, the claim as stated fails: two events with the same
    classification run different steps, and two events classified
    [factual_direct] and [strategic_planning] run the same single step. *)
Lemma step_not_selected_by_category :
  let run event := step_run (fst (Planner.lambda_handler steady_crew event (fresh_world []))) in
  let reporting := planner_event "factual_direct" [("step", VStr "reporting")] in
  let planning := planner_event "factual_direct" [("step", VStr "task_planning")] in
  let direct := planner_event "factual_direct" [] in
  let strategic := planner_event "strategic_planning" [] in
  dict_get "classification" VNone reporting = dict_get "classification" VNone planning
  /\ run reporting = Some (VStr "reporting")
  /\ run planning = Some (VStr "task_planning")
  /\ dict_get "classification" VNone direct <> dict_get "classification" VNone strategic
  /\ run direct = Some (VStr "complete_analysis")
  /\ run strategic = Some (VStr "complete_analysis").
Proof.
  simpl. repeat split; try reflexivity. vm_compute. discriminate.
Qed.

(** ** The two processors *)

Ltac eval_parse_set :=
  repeat match goal with
         | |- context [parse_set ?e] =>
             let r := eval vm_compute in (parse_set e) in
             change (parse_set e) with r
         end.

Lemma update_item_ext (k : value) (e1 e2 : string) (n1 n2 : list (string * string))
    (values : dict) (w : world) :
  resolved (reserved w) e1 n1 values = resolved (reserved w) e2 n2 values ->
  update_item k e1 n1 values w = update_item k e2 n2 values w.
Proof.
  unfold resolved, update_item, bind, service_call. intros H.
  destruct (faults w) as [|[e|] f]; try reflexivity;
    destruct (key_of "UpdateItem" k _) as [[j|e] w'] eqn:Hk; try reflexivity;
    assert (Hw : reserved w' = reserved w)
      by (unfold key_of in Hk; destruct k; try (injection Hk as _ <-; reflexivity);
          destruct (String.eqb s EmptyString); injection Hk as _ <-; reflexivity);
    rewrite Hw;
    destruct (parse_set e1) as [s1|], (parse_set e2) as [s2|];
    try (rewrite H; reflexivity); try (rewrite <- H; reflexivity); try reflexivity.
Qed.

Lemma reserved_update_item (k : value) (expression : string)
    (names : list (string * string)) (values : dict) (w : world) :
  reserved (snd (update_item k expression names values w)) = reserved w.
Proof.
  unfold update_item, bind, service_call, key_of.
  destruct (faults w) as [|[e|] f]; simpl; try reflexivity;
    destruct k; simpl; try reflexivity;
    destruct (String.eqb s EmptyString); simpl; try reflexivity;
    destruct (parse_set expression); simpl; try reflexivity;
    destruct (resolve _ _ _ _); reflexivity.
Qed.

Lemma completed_update_same (rsv : string -> bool) (values : dict) :
  rsv "result" = false ->
  resolved rsv "SET #status = :status, result = :result, updated_at = :updated_at"
    [("#status", "status")] values
  = resolved rsv "SET #status = :status, #result = :result, updated_at = :updated_at"
      [("#status", "status"); ("#result", "result")] values.
Proof.
  intros Hr. unfold resolved. eval_parse_set. simpl. unfold resolve_path. simpl.
  rewrite Hr. reflexivity.
Qed.

Lemma failed_update_same (rsv : string -> bool) (values : dict) :
  rsv "error" = false ->
  resolved rsv "SET #status = :status, error = :error" [("#status", "status")] values
  = resolved rsv "SET #status = :status, #err = :error"
      [("#status", "status"); ("#err", "error")] values.
Proof.
  intros He. unfold resolved. eval_parse_set. simpl. unfold resolve_path. simpl.
  rewrite He. reflexivity.
Qed.

(** On a table service that reserves neither [result] nor [error], the
    two processors do the same on every event and in every world: the same
    writes under the same key, the same return value or raised exception,
    the same world afterwards.  They differ only in how their expressions
    name the two attributes. *)
Lemma processors_agree_without_reserved_words (event : dict) (w : world) :
  reserved w "result" = false ->
  reserved w "error" = false ->
  ProcessorBuild.lambda_handler event w = Processor.lambda_handler event w.
Proof.
  intros Hr He.
  unfold ProcessorBuild.lambda_handler, Processor.lambda_handler, try_except, bind, datetime_now.
  set (w1 := set_ticks (S (ticks w)) w).
  rewrite (update_item_ext _ _ _ _ _ _ w1 (completed_update_same (reserved w1) _ Hr)).
  match goal with |- context [update_item ?k ?e ?n ?v w1] =>
    pose proof (reserved_update_item k e n v w1) as Hw;
    destruct (update_item k e n v w1) as [[u|x] w2] end; [reflexivity|].
  simpl in Hw. rewrite <- Hw in He.
  rewrite (update_item_ext _ _ _ _ _ _ w2 (failed_update_same (reserved w2) _ He)).
  reflexivity.
Qed.

Example processors_agree_on_plain_table :
  ProcessorBuild.lambda_handler queued_job (plain_world [Some throttled])
  = Processor.lambda_handler queued_job (plain_world [Some throttled])
  /\ fst (Processor.lambda_handler queued_job (plain_world [Some throttled])) = Raise throttled.
Proof.
  split; [|reflexivity].
  apply (processors_agree_without_reserved_words queued_job (plain_world [Some throttled]));
    reflexivity.
Qed.

(** C10: the two processors are to write the same and to return or raise
    the same on every event.  On DynamoDB, where [result] and [error] are
    reserved words, the processor of the source tree writes the completed
    record and returns status code 200, while the processor as built, which
    names both attributes directly, has both of its updates refused, writes
    nothing and raises the validation error. *)
Lemma processors_differ_on_dynamodb :
  let source := Processor.lambda_handler queued_job (fresh_world []) in
  let built := ProcessorBuild.lambda_handler queued_job (fresh_world []) in
  fst source = Ret (VDict [("statusCode", VInt 200)])
  /\ stored (snd source) "job-0" "status" = Some (VStr "completed")
  /\ fst built
     = Raise (validation "UpdateItem"
                "Invalid UpdateExpression: Attribute name is a reserved keyword; reserved keyword: error")
  /\ table (snd built) = ∅.
Proof.
  repeat split; vm_compute; reflexivity.
Qed.

(** * Further properties of the handlers *)

(** ** Responses of the API function *)

Lemma answers_or_raises_ret (code : Z) (body : dict) :
  answers_or_raises (ret (App.cors_response code body)).
Proof. intros w. simpl. eauto. Qed.

Lemma answers_or_raises_raise (e : exn) : answers_or_raises (raise e).
Proof. intros w. exact I. Qed.

Lemma answers_or_raises_bind {A : Type} (m : M A) (k : A -> M value) :
  (forall a, answers_or_raises (k a)) -> answers_or_raises (bind m k).
Proof.
  intros Hk w. unfold bind. destruct (m w) as [[a|e] w']; [apply Hk | exact I].
Qed.

Lemma answers_try_except (m : M value) (h : exn -> M value) :
  answers_or_raises m -> (forall e, answers (h e)) -> answers (try_except m h).
Proof.
  intros Hm Hh w. unfold try_except. specialize (Hm w).
  destruct (m w) as [[r|e] w']; simpl in *; [|apply Hh].
  destruct Hm as (code & body & ->). eauto.
Qed.

Lemma answers_ret (code : Z) (body : dict) : answers (ret (App.cors_response code body)).
Proof. intros w. simpl. eauto. Qed.

Lemma answers_weaken (m : M value) : answers m -> answers_or_raises m.
Proof. intros H w. destruct (H w) as (code & body & ->). eauto. Qed.

Lemma start_job_answers_or_raises (json_loads : string -> string + value) (event : dict) :
  answers_or_raises (App.start_job json_loads event).
Proof.
  unfold App.start_job.
  do 3 (apply answers_or_raises_bind; intros ?).
  destruct (negb (truthy _)); [apply answers_or_raises_ret|].
  do 5 (apply answers_or_raises_bind; intros ?).
  apply answers_or_raises_ret.
Qed.

Lemma check_status_answers (job_id : value) : answers (App.check_status job_id).
Proof.
  unfold App.check_status.
  apply answers_try_except; [|intros e; apply answers_ret].
  apply answers_or_raises_bind. intros [job|]; [|apply answers_or_raises_ret].
  apply answers_or_raises_bind. intros s.
  apply answers_or_raises_bind. intros _. apply answers_or_raises_ret.
Qed.

(** X1: the API function never raises.  Whatever the event and whatever
    the services do, it returns a response built by [cors_response]: a
    status code, the four CORS and content-type headers, and a body; an
    exception raised anywhere inside becomes such a response too. *)
Theorem api_always_answers
    (json_loads : string -> string + value) (event : dict) (w : world) :
  exists code body,
    fst (App.lambda_handler json_loads event w) = Ret (App.cors_response code body).
Proof.
  revert w. change (answers (App.lambda_handler json_loads event)).
  unfold App.lambda_handler.
  apply answers_try_except; [|intros e; apply answers_ret].
  destruct (value_is_str _ "OPTIONS"); [apply answers_or_raises_ret|].
  destruct (_ && _)%bool; [apply start_job_answers_or_raises|].
  destruct (dict_get "path" _ event) as [| | |p| |]; try apply answers_or_raises_raise.
  destruct (_ && _)%bool; [|apply answers_or_raises_ret].
  apply answers_or_raises_bind. intros j.
  destruct (negb (truthy j)); [apply answers_or_raises_ret|].
  apply answers_weaken, check_status_answers.
Qed.

(** ** Requests that only read *)

Lemma reads_ret {A : Type} (a : A) : reads (ret a).
Proof. intros w. split; reflexivity. Qed.

Lemma reads_raise {A : Type} (e : exn) : reads (@raise A e).
Proof. intros w. split; reflexivity. Qed.

Lemma reads_bind {A B : Type} (m : M A) (k : A -> M B) :
  reads m -> (forall a, reads (k a)) -> reads (bind m k).
Proof.
  intros Hm Hk w. unfold bind. specialize (Hm w).
  destruct (m w) as [[a|e] w']; simpl in *; [|exact Hm].
  destruct (Hk a w') as [Ht Hq]. destruct Hm as [Ht' Hq']. split; congruence.
Qed.

Lemma reads_try_except {A : Type} (m : M A) (h : exn -> M A) :
  reads m -> (forall e, reads (h e)) -> reads (try_except m h).
Proof.
  intros Hm Hh w. unfold try_except. specialize (Hm w).
  destruct (m w) as [[a|e] w']; simpl in *; [exact Hm|].
  destruct (Hh e w') as [Ht Hq]. destruct Hm as [Ht' Hq']. split; congruence.
Qed.

Lemma reads_service_call : reads service_call.
Proof.
  intros w. unfold service_call. destruct (faults w) as [|[e|] f]; split; reflexivity.
Qed.

Lemma reads_key_of (operation : string) (k : value) : reads (key_of operation k).
Proof.
  unfold key_of. destruct k; try apply reads_raise.
  destruct (String.eqb s EmptyString); [apply reads_raise | apply reads_ret].
Qed.

Lemma reads_get_item (k : value) : reads (get_item k).
Proof.
  apply reads_bind; [apply reads_service_call | intros _].
  apply reads_bind; [apply reads_key_of | intros j w; split; reflexivity].
Qed.

Lemma reads_py_get (d : value) (k : string) (v : value) : reads (py_get d k v).
Proof. destruct d; simpl; first [apply reads_ret | apply reads_raise]. Qed.

Lemma reads_check_status (job_id : value) : reads (App.check_status job_id).
Proof.
  unfold App.check_status.
  apply reads_try_except; [|intros e; apply reads_ret].
  apply reads_bind; [apply reads_get_item | intros [job|]]; [|apply reads_ret].
  apply reads_bind.
  - unfold App.job_status. destruct (job !! "status"); [apply reads_ret | apply reads_raise].
  - intros s. apply reads_bind; [|intros _; apply reads_ret].
    unfold App.dumps_item. destruct (existsb _ _); [apply reads_raise | apply reads_ret].
Qed.

Lemma reads_path_job_id (event : dict) (path : string) : reads (App.path_job_id event path).
Proof.
  unfold App.path_job_id.
  apply reads_bind.
  - destruct (truthy _); [|apply reads_ret].
    apply reads_bind; [apply reads_py_get | intros j; apply reads_ret].
  - intros v. destruct (truthy v); [apply reads_ret|].
    destruct (py_split _ _) as [|a [|b l]]; try apply reads_ret.
    destruct (String.eqb a "status"); apply reads_ret.
Qed.

Lemma lambda_handler_reads (json_loads : string -> string + value) (event : dict) :
  (value_is_str (dict_get "path" (VStr EmptyString) event) "/query"
   && value_is_str (dict_get "httpMethod" (VStr EmptyString) event) "POST")%bool = false ->
  reads (App.lambda_handler json_loads event).
Proof.
  intros Hroute.
  unfold App.lambda_handler. rewrite Hroute. clear Hroute.
  apply reads_try_except; [|intros e; apply reads_ret].
  destruct (value_is_str _ "OPTIONS"); [apply reads_ret|].
  destruct (dict_get "path" _ event) as [| | |p| |]; try apply reads_raise.
  destruct (_ && _)%bool; [|apply reads_ret].
  apply reads_bind; [apply reads_path_job_id | intros j].
  destruct (negb (truthy j)); [apply reads_ret | apply reads_check_status].
Qed.

(** X2: only POST /query writes.  A request that is not a POST to
    [/query] (a status read, a CORS preflight, an unknown route, a request
    that ends in an error response) leaves the jobs table and the queue of
    processor payloads exactly as they were. *)
Theorem other_requests_change_nothing
    (json_loads : string -> string + value) (event : dict) (w : world) :
  (value_is_str (dict_get "path" (VStr EmptyString) event) "/query"
   && value_is_str (dict_get "httpMethod" (VStr EmptyString) event) "POST")%bool = false ->
  table (snd (App.lambda_handler json_loads event w)) = table w
  /\ queue (snd (App.lambda_handler json_loads event w)) = queue w.
Proof.
  intros Hroute. exact (lambda_handler_reads json_loads event Hroute w).
Qed.

Lemma other_requests_change_nothing_witness :
  let event := [("httpMethod", VStr "OPTIONS"); ("path", VStr "/query");
                ("body", VStr (Json.text "{'question': 'q'}"))] in
  table (snd (App.lambda_handler Json.loads event retry_w3)) = table retry_w3
  /\ queue (snd (App.lambda_handler Json.loads event retry_w3)) = queue retry_w3.
Proof.
  intros event.
  apply (other_requests_change_nothing Json.loads event retry_w3). reflexivity.
Defined.

(** ** Which records a computation may touch *)

Lemma only_ret {A : Type} (j : string) (a : A) : only j (ret a).
Proof. intros w j' _. reflexivity. Qed.

Lemma only_raise {A : Type} (j : string) (e : exn) : only j (@raise A e).
Proof. intros w j' _. reflexivity. Qed.

Lemma only_bind {A B : Type} (j : string) (m : M A) (k : A -> M B) :
  only j m -> (forall a, only j (k a)) -> only j (bind m k).
Proof.
  intros Hm Hk w j' Hj. unfold bind. specialize (Hm w j' Hj).
  destruct (m w) as [[a|e] w']; simpl in *; [|exact Hm].
  rewrite (Hk a w' j' Hj). exact Hm.
Qed.

Lemma only_try_except {A : Type} (j : string) (m : M A) (h : exn -> M A) :
  only j m -> (forall e, only j (h e)) -> only j (try_except m h).
Proof.
  intros Hm Hh w j' Hj. unfold try_except. specialize (Hm w j' Hj).
  destruct (m w) as [[a|e] w']; simpl in *; [exact Hm|].
  rewrite (Hh e w' j' Hj). exact Hm.
Qed.

Lemma only_reads {A : Type} (j : string) (m : M A) : reads m -> only j m.
Proof. intros H w j' _. destruct (H w) as [-> _]. reflexivity. Qed.

Lemma reads_invoke_table (j : string) (p : dict) : only j (invoke p).
Proof.
  apply only_bind; [apply only_reads, reads_service_call | intros _ w j' _; reflexivity].
Qed.

Lemma only_put_item (j : string) (it : dict) :
  dict_get "job_id" VNone it = VStr j -> only j (put_item it).
Proof.
  intros Hk. unfold put_item. rewrite Hk.
  apply only_bind; [apply only_reads, reads_service_call | intros _].
  intros w j' Hj. unfold bind, key_of.
  destruct (String.eqb_spec j EmptyString) as [He|He]; [reflexivity|].
  simpl. apply lookup_insert_ne. destruct Hj; congruence.
Qed.

(** An update touches the record of its key only; a key that is not a
    non-empty string makes it raise before it writes. *)
Lemma only_update_item (j : string) (k : value) (expression : string)
    (names : list (string * string)) (values : dict) :
  (forall s, k = VStr s -> s = j) ->
  only j (update_item k expression names values).
Proof.
  intros Hk. unfold update_item.
  apply only_bind; [apply only_reads, reads_service_call | intros _].
  intros w j' Hj. unfold bind, key_of.
  destruct k as [| | |s| |]; try reflexivity.
  rewrite (Hk s eq_refl).
  destruct (String.eqb_spec j EmptyString) as [He|He]; [reflexivity|].
  simpl. destruct (parse_set expression); [|reflexivity].
  destruct (resolve _ _ _ _); [reflexivity|].
  simpl. apply lookup_insert_ne. destruct Hj; congruence.
Qed.

Lemma only_processor (j : string) (event : dict) :
  (forall s, dict_get "job_id" VNone event = VStr s -> s = j) ->
  only j (Processor.lambda_handler event).
Proof.
  intros Hk. unfold Processor.lambda_handler.
  apply only_try_except.
  - apply only_bind; [apply only_reads; intros w; split; reflexivity | intros now].
    apply only_bind; [apply only_update_item, Hk | intros _; apply only_ret].
  - intros e. apply only_bind; [apply only_update_item, Hk | intros _; apply only_raise].
Qed.

Lemma only_processor_build (j : string) (event : dict) :
  (forall s, dict_get "job_id" VNone event = VStr s -> s = j) ->
  only j (ProcessorBuild.lambda_handler event).
Proof.
  intros Hk. unfold ProcessorBuild.lambda_handler.
  apply only_try_except.
  - apply only_bind; [apply only_reads; intros w; split; reflexivity | intros now].
    apply only_bind; [apply only_update_item, Hk | intros _; apply only_ret].
  - intros e. apply only_bind; [apply only_update_item, Hk | intros _; apply only_raise].
Qed.

(** X3: a run of the processor touches the record of one job only.  The
    record of every job whose id is not the [job_id] of the event is
    after the run what it was before, whether the run returns or raises
    and whatever the services do. *)
Theorem processor_leaves_other_jobs (event : dict) (w : world) (other : string) :
  dict_get "job_id" VNone event <> VStr other ->
  table (snd (Processor.lambda_handler event w)) !! other = table w !! other.
Proof.
  intros Hne.
  destruct (dict_get "job_id" VNone event) as [| | |j| |] eqn:Hk.
  4:{ apply (only_processor j event); [rewrite Hk; intros s [= ->]; reflexivity|].
      right. congruence. }
  all: apply (only_processor EmptyString event); [rewrite Hk; discriminate|];
    destruct (String.eqb_spec other EmptyString); [left | right]; assumption.
Qed.

Lemma processor_leaves_other_jobs_witness :
  table (snd (Processor.lambda_handler [("job_id", VStr "job-1"); ("question", VStr "q")] retry_w3))
    !! "job-0"
  = table retry_w3 !! "job-0".
Proof.
  apply (processor_leaves_other_jobs [("job_id", VStr "job-1"); ("question", VStr "q")]
           retry_w3 "job-0").
  discriminate.
Defined.

Lemma only_at_bind_pure {A B : Type} (j : string) (m : M A) (k : A -> M B) (w : world) :
  snd (m w) = w ->
  (forall a, only_at j (k a) w) ->
  only_at j (bind m k) w.
Proof.
  intros Hm Hk j' Hj. unfold bind. destruct (m w) as [[a|e] w']; simpl in *; subst w'.
  - apply Hk, Hj.
  - reflexivity.
Qed.

Lemma loads_world (json_loads : string -> string + value) (x : value) (w : world) :
  snd (loads json_loads x w) = w.
Proof. destruct x; simpl; try reflexivity. destruct (json_loads s); reflexivity. Qed.

Lemma py_get_world (d : value) (k : string) (v : value) (w : world) :
  snd (py_get d k v w) = w.
Proof. destruct d; reflexivity. Qed.

Lemma start_job_only_at (json_loads : string -> string + value) (event : dict) (w : world) :
  only_at (uuids w (drawn w)) (App.start_job json_loads event) w.
Proof.
  unfold App.start_job.
  apply only_at_bind_pure; [apply loads_world | intros body].
  apply only_at_bind_pure; [apply py_get_world | intros question].
  apply only_at_bind_pure; [apply py_get_world | intros context_data].
  destruct (negb (truthy question)); [apply only_ret|].
  intros j' Hj. unfold bind at 1. unfold uuid4 at 1. cbv beta iota.
  set (j := uuids w (drawn w)) in *.
  match goal with
  | |- table (snd (?m ?w1)) !! _ = _ => assert (Hm : only j m); [|exact (Hm w1 j' Hj)]
  end.
  apply only_bind; [apply only_reads; intros w1; split; reflexivity | intros now].
  apply only_bind; [apply only_reads; intros w1; split; reflexivity | intros created].
  apply only_bind; [apply only_put_item; reflexivity | intros _].
  apply only_bind; [|intros _; apply only_ret].
  apply only_try_except; [apply reads_invoke_table | intros e].
  apply only_update_item. intros s [= <-]. reflexivity.
Qed.

Lemma api_only_at (json_loads : string -> string + value) (event : dict) (w : world) :
  only_at (uuids w (drawn w)) (App.lambda_handler json_loads event) w.
Proof.
  intros other Hne.
  destruct (value_is_str (dict_get "path" (VStr EmptyString) event) "/query"
            && value_is_str (dict_get "httpMethod" (VStr EmptyString) event) "POST")%bool
    eqn:Hroute.
  - unfold App.lambda_handler. rewrite Hroute. unfold try_except.
    destruct (value_is_str _ "OPTIONS"); [reflexivity|].
    pose proof (start_job_only_at json_loads event w other Hne) as H.
    destruct (App.start_job json_loads event w) as [[r|e] w']; exact H.
  - destruct (lambda_handler_reads json_loads event Hroute w) as [-> _].
    reflexivity.
Qed.

(** X4: a request touches the record of one job at most, the one whose
    id is the next identifier to be drawn.  Whatever the request is and
    whatever the services do, the record of every other job is after the
    call what it was before: admitting a job never overwrites or alters
    another job. *)
Theorem api_leaves_other_jobs
    (json_loads : string -> string + value) (event : dict) (w : world) (other : string) :
  other <> uuids w (drawn w) ->
  table (snd (App.lambda_handler json_loads event w)) !! other = table w !! other.
Proof.
  intros Hne. apply (api_only_at json_loads event w). right. exact Hne.
Qed.

Lemma api_leaves_other_jobs_witness :
  table (snd (App.lambda_handler Json.loads (post_query "{'question': 'again'}") retry_w3))
    !! "job-0"
  = table retry_w3 !! "job-0".
Proof.
  apply (api_leaves_other_jobs Json.loads (post_query "{'question': 'again'}") retry_w3 "job-0").
  vm_compute. discriminate.
Defined.

(** ** Admissions that go wrong *)

Lemma put_item_fault (w : world) (it : dict) (e : exn) :
  faults w !! 0%nat = Some (Some e) ->
  put_item it w = (Raise e, after_call w).
Proof.
  intros Hf. unfold put_item, bind. rewrite (service_call_fault w e Hf). reflexivity.
Qed.

(** X5: when the table refuses the record of a new job (the [put_item]
    call raises), POST /query is answered 500 with the text of the
    exception; no record is stored and nothing is handed to Lambda. *)
Theorem admission_store_failure
    (json_loads : string -> string + value) (event : dict) (w : world)
    (text : string) (kv : dict) (e : exn) :
  assoc "httpMethod" event = Some (VStr "POST") ->
  assoc "path" event = Some (VStr "/query") ->
  dict_get "body" (VStr "{}") event = VStr text ->
  json_loads text = inr (VDict kv) ->
  truthy (dict_get "question" (VStr EmptyString) kv) = true ->
  faults w !! 0%nat = Some (Some e) ->
  fst (App.lambda_handler json_loads event w)
  = Ret (App.cors_response 500 [("error", VStr (exn_msg e))])
  /\ table (snd (App.lambda_handler json_loads event w)) = table w
  /\ queue (snd (App.lambda_handler json_loads event w)) = queue w.
Proof.
  intros Hm Hp Hbody Hjson Hq He.
  rewrite (lambda_handler_query json_loads event w Hm Hp).
  unfold try_except, App.start_job, bind. rewrite Hbody. simpl. rewrite Hjson. simpl.
  rewrite Hq. simpl.
  erewrite put_item_fault by exact He. simpl. repeat split.
Qed.

Lemma admission_store_failure_witness :
  fst (App.lambda_handler Json.loads (post_query "{'question': 'q'}")
         (fresh_world [Some throttled]))
  = Ret (App.cors_response 500 [("error", VStr (exn_msg throttled))]).
Proof.
  refine (proj1 (admission_store_failure Json.loads (post_query "{'question': 'q'}")
                   (fresh_world [Some throttled]) (Json.text "{'question': 'q'}")
                   [("question", VStr "q")] throttled _ _ _ _ _ _)); reflexivity.
Defined.

(** X6: a POST /query whose body is not a JSON object is answered 500 and
    changes nothing: with the message of the decode error when the body is
    not JSON, with the attribute error of [body.get] when it is JSON of
    another kind (a list, a string, a number, [null]), and with the type
    error of [json.loads] when the event holds a body that is no string. *)
Theorem malformed_body_answers_500
    (json_loads : string -> string + value) (event : dict) (w : world) :
  assoc "httpMethod" event = Some (VStr "POST") ->
  assoc "path" event = Some (VStr "/query") ->
  (forall text msg,
      dict_get "body" (VStr "{}") event = VStr text ->
      json_loads text = inl msg ->
      App.lambda_handler json_loads event w
      = (Ret (App.cors_response 500 [("error", VStr msg)]), w))
  /\ (forall text v,
         dict_get "body" (VStr "{}") event = VStr text ->
         json_loads text = inr v ->
         (forall kv, v <> VDict kv) ->
         App.lambda_handler json_loads event w
         = (Ret (App.cors_response 500
                   [("error", VStr ("'" ++ type_name v ++ "' object has no attribute 'get'"))]),
            w))
  /\ ((forall text, dict_get "body" (VStr "{}") event <> VStr text) ->
      App.lambda_handler json_loads event w
      = (Ret (App.cors_response 500
                [("error", VStr ("the JSON object must be str, bytes or bytearray, not "
                                   ++ type_name (dict_get "body" (VStr "{}") event)))]),
         w)).
Proof.
  intros Hm Hp. rewrite (lambda_handler_query json_loads event w Hm Hp).
  unfold try_except, App.start_job, bind. repeat split.
  - intros text msg Hbody Hjson. rewrite Hbody. simpl. rewrite Hjson. reflexivity.
  - intros text v Hbody Hjson Hv. rewrite Hbody. simpl. rewrite Hjson. simpl.
    destruct v; try reflexivity. exfalso. exact (Hv kv eq_refl).
  - intros Hbody. destruct (dict_get "body" (VStr "{}") event); try reflexivity.
    exfalso. exact (Hbody s eq_refl).
Qed.

Lemma malformed_body_answers_500_witness :
  App.lambda_handler Json.loads (post_query "What are your storage rates?") (fresh_world [])
  = (Ret (App.cors_response 500 [("error", VStr "Expecting value")]), fresh_world [])
  /\ App.lambda_handler Json.loads (post_query "['q']") (fresh_world [])
     = (Ret (App.cors_response 500
               [("error", VStr "'list' object has no attribute 'get'")]), fresh_world [])
  /\ App.lambda_handler Json.loads
       [("httpMethod", VStr "POST"); ("path", VStr "/query"); ("body", VNone)] (fresh_world [])
     = (Ret (App.cors_response 500
               [("error", VStr "the JSON object must be str, bytes or bytearray, not NoneType")]),
        fresh_world []).
Proof.
  split; [|split].
  - refine (proj1 (malformed_body_answers_500 Json.loads
                     (post_query "What are your storage rates?") (fresh_world []) _ _)
              (Json.text "What are your storage rates?") "Expecting value" _ _); reflexivity.
  - refine (proj1 (proj2 (malformed_body_answers_500 Json.loads
                            (post_query "['q']") (fresh_world []) _ _))
              (Json.text "['q']") (VList [VStr "q"]) _ _ _);
      try reflexivity. discriminate.
  - refine (proj2 (proj2 (malformed_body_answers_500 Json.loads
                            [("httpMethod", VStr "POST"); ("path", VStr "/query"); ("body", VNone)]
                            (fresh_world []) _ _)) _);
      try reflexivity. discriminate.
Defined.

(** X7: when the invocation of the processor raises and the update that
    should mark the job as failed raises too, POST /query is answered 500
    with the text of the second exception and without a job id, while the
    record of the job stays in the table with status [processing] and no
    payload is queued for it: nothing will ever move it on. *)
Theorem job_stuck_when_marking_fails
    (json_loads : string -> string + value) (event : dict) (w : world)
    (text : string) (kv : dict) (e1 e2 : exn) :
  assoc "httpMethod" event = Some (VStr "POST") ->
  assoc "path" event = Some (VStr "/query") ->
  dict_get "body" (VStr "{}") event = VStr text ->
  json_loads text = inr (VDict kv) ->
  truthy (dict_get "question" (VStr EmptyString) kv) = true ->
  uuids w (drawn w) <> EmptyString ->
  passes 0 (faults w) = true ->
  faults w !! 1%nat = Some (Some e1) ->
  faults w !! 2%nat = Some (Some e2) ->
  let j := uuids w (drawn w) in
  let run := App.lambda_handler json_loads event w in
  fst run = Ret (App.cors_response 500 [("error", VStr (exn_msg e2))])
  /\ stored (snd run) j "status" = Some (VStr "processing")
  /\ queue (snd run) = queue w.
Proof.
  intros Hm Hp Hbody Hjson Hq Hj H0 H1 H2 j run. subst run.
  assert (Hrun : App.lambda_handler json_loads event w
                 = (Ret (App.cors_response 500 [("error", VStr (exn_msg e2))]),
                    after_call (after_call
                      (admitted (dict_get "question" (VStr EmptyString) kv)
                                (dict_get "context" (VDict []) kv) w)))).
  { rewrite (lambda_handler_query json_loads event w Hm Hp).
    unfold try_except at 1. unfold App.start_job, bind.
    rewrite Hbody. simpl. rewrite Hjson. simpl. rewrite Hq. simpl.
    erewrite put_item_passes; [| exact H0 | reflexivity | exact Hj].
    unfold try_except. erewrite invoke_fault.
    2:{ rewrite <- (lookup_after_call 0 w) in H1. exact H1. }
    erewrite update_item_fault; [reflexivity|].
    rewrite <- (lookup_after_call 1 w), <- (lookup_after_call 0 (after_call w)) in H2.
    exact H2. }
  rewrite Hrun. split; [reflexivity|]. split; [|reflexivity].
  pose proof (table_admitted (dict_get "question" (VStr EmptyString) kv)
                (dict_get "context" (VDict []) kv) w) as Ht.
  unfold stored. cbn [snd]. subst j.
  change (table (after_call (after_call ?x))) with (table x).
  rewrite Ht. reflexivity.
Qed.

Lemma job_stuck_when_marking_fails_witness :
  let run := App.lambda_handler Json.loads (post_query "{'question': 'q'}")
               (fresh_world [None; Some throttled; Some throttled]) in
  status_code (match fst run with Ret r => r | Raise _ => VNone end) = VInt 500
  /\ stored (snd run) "job-0" "status" = Some (VStr "processing").
Proof.
  intros run.
  destruct (job_stuck_when_marking_fails Json.loads (post_query "{'question': 'q'}")
              (fresh_world [None; Some throttled; Some throttled])
              (Json.text "{'question': 'q'}") [("question", VStr "q")] throttled throttled)
    as (Hr & Hs & _);
    [reflexivity | reflexivity | reflexivity | reflexivity | reflexivity | discriminate
    | reflexivity | reflexivity | reflexivity |].
  split; [|exact Hs]. subst run. rewrite Hr. reflexivity.
Defined.

(** ** The status route *)

Lemma list_ascii_app (s1 s2 : string) :
  list_ascii_of_string (s1 ++ s2)
  = (list_ascii_of_string s1 ++ list_ascii_of_string s2)%list.
Proof. induction s1 as [|a s1 IH]; simpl; [reflexivity | rewrite IH; reflexivity]. Qed.

Lemma py_split_no_slash (s : string) :
  no_slash s = true -> py_split "/" s = [s].
Proof.
  unfold no_slash. induction s as [|a s IH]; simpl; [reflexivity|].
  intros H. apply andb_prop in H as [Ha Hs].
  destruct (Ascii.eqb a "/"); [discriminate|]. rewrite (IH Hs). reflexivity.
Qed.

(** Stripping at the right end keeps a string whose last character is
    not stripped. *)
Lemma rstrip_keeps (p : ascii -> bool) (s : string) :
  match rev (list_ascii_of_string s) with
  | a :: _ => p a = false
  | [] => True
  end ->
  string_rev (lstrip_by p (string_rev s)) = s.
Proof.
  unfold string_rev. intros H.
  destruct (rev (list_ascii_of_string s)) as [|a l] eqn:Hr.
  - simpl. apply (f_equal (@rev ascii)) in Hr. rewrite rev_involutive in Hr. simpl in Hr.
    rewrite <- (string_of_list_ascii_of_string s), Hr. reflexivity.
  - simpl. rewrite H. simpl. rewrite list_ascii_of_string_of_list_ascii.
    change (a :: rev (rev l) ++ [a])%list with (a :: rev (rev l) ++ [a])%list.
    replace (rev l ++ [a])%list with (rev (a :: l)) by reflexivity.
    rewrite <- Hr, rev_involutive. apply string_of_list_ascii_of_string.
Qed.

Lemma last_of_no_slash (prefix j : string) :
  j <> EmptyString -> no_slash j = true ->
  match rev (list_ascii_of_string (prefix ++ j)) with
  | a :: _ => Ascii.eqb "/" a = false
  | [] => True
  end.
Proof.
  intros Hj Hn. rewrite list_ascii_app, rev_app_distr.
  destruct (rev (list_ascii_of_string j)) as [|a l] eqn:Hr.
  - apply (f_equal (@rev ascii)) in Hr. rewrite rev_involutive in Hr. simpl in Hr.
    exfalso. apply Hj. rewrite <- (string_of_list_ascii_of_string j), Hr. reflexivity.
  - cbn [app]. unfold no_slash in Hn. rewrite forallb_forall in Hn.
    assert (Hin : In a (list_ascii_of_string j)).
    { apply in_rev. rewrite Hr. left. reflexivity. }
    specialize (Hn a Hin). rewrite Ascii.eqb_sym. destruct (Ascii.eqb a "/"); [discriminate | reflexivity].
Qed.

Lemma strip_status_path (j : string) :
  j <> EmptyString -> no_slash j = true ->
  py_strip_char "/" ("/status/" ++ j) = "status/" ++ j.
Proof.
  intros Hj Hn. unfold py_strip_char, strip_by. simpl lstrip_by.
  apply rstrip_keeps. apply (last_of_no_slash "status/" j Hj Hn).
Qed.

Lemma py_split_other (c a : ascii) (s : string) :
  Ascii.eqb a c = false ->
  py_split c (String a s)
  = match py_split c s with
    | h :: t => String a h :: t
    | [] => [String a EmptyString]
    end.
Proof. intros H. simpl. rewrite H. reflexivity. Qed.

Lemma py_split_sep (c : ascii) (s : string) :
  py_split c (String c s) = EmptyString :: py_split c s.
Proof. simpl. rewrite Ascii.eqb_refl. reflexivity. Qed.

Lemma split_status_path (j : string) :
  no_slash j = true -> py_split "/" ("status/" ++ j) = ["status"; j].
Proof.
  intros Hn.
  change ("status/" ++ j)
    with (String "s" (String "t" (String "a" (String "t" (String "u" (String "s" (String "/" j))))))).
  rewrite !py_split_other by reflexivity.
  rewrite py_split_sep, (py_split_no_slash j Hn). reflexivity.
Qed.

Lemma startswith_empty (s : string) : startswith EmptyString s = true.
Proof. destruct s; reflexivity. Qed.

Lemma try_except_answers (m : M value) (h : exn -> M value) (w : world) :
  answers m -> try_except m h w = m w.
Proof.
  intros Hm. unfold try_except. destruct (Hm w) as (code & body & Hr).
  destruct (m w) as [[r|e] w']; [reflexivity | discriminate Hr].
Qed.

(** A GET on [/status/<id>] without path parameters is a status read of
    the job [<id>]. *)
Lemma lambda_handler_status_path
    (json_loads : string -> string + value) (event : dict) (w : world) (j : string) :
  assoc "httpMethod" event = Some (VStr "GET") ->
  assoc "path" event = Some (VStr ("/status/" ++ j)) ->
  truthy (dict_get "pathParameters" VNone event) = false ->
  j <> EmptyString ->
  no_slash j = true ->
  App.lambda_handler json_loads event w = App.check_status (VStr j) w.
Proof.
  intros Hm Hp Hpp Hj Hn.
  assert (Ht : truthy (VStr j) = true).
  { simpl. destruct (String.eqb_spec j EmptyString); [contradiction | reflexivity]. }
  unfold App.lambda_handler, dict_get in *. rewrite Hm, Hp. simpl.
  unfold App.path_job_id, dict_get. unfold bind at 2.
  change (match assoc "pathParameters" event with Some v => v | None => VNone end)
    with (dict_get "pathParameters" VNone event).
  fold (dict_get "pathParameters" VNone event) in Hpp. rewrite Hpp.
  unfold ret at 1. cbn iota beta. cbn [truthy].
  rewrite (strip_status_path j Hj Hn), (split_status_path j Hn).
  cbn [String.eqb Ascii.eqb Bool.eqb]. unfold bind, ret. cbn iota beta.
  rewrite Ht. cbn [negb].
  change (EmptyString ++ j) with j. rewrite startswith_empty. cbn [andb].
  apply (try_except_answers (App.check_status (VStr j))), check_status_answers.
Qed.

(** X8: a status read for a job that was never created.  A GET on
    [/status/<id>], the id read from the path, for an id under which the
    table holds nothing is answered 404 with the error [Job not found] and
    the id, and stores nothing. *)
Theorem status_of_unknown_job
    (json_loads : string -> string + value) (event : dict) (w : world) (j : string) :
  assoc "httpMethod" event = Some (VStr "GET") ->
  assoc "path" event = Some (VStr ("/status/" ++ j)) ->
  truthy (dict_get "pathParameters" VNone event) = false ->
  j <> EmptyString ->
  no_slash j = true ->
  table w !! j = None ->
  passes 0 (faults w) = true ->
  App.lambda_handler json_loads event w
  = (Ret (App.cors_response 404 [("error", VStr "Job not found"); ("job_id", VStr j)]),
     after_call w).
Proof.
  intros Hm Hp Hpp Hj Hn Ht Hf.
  rewrite (lambda_handler_status_path json_loads event w j Hm Hp Hpp Hj Hn).
  unfold App.check_status, try_except, bind.
  rewrite (get_item_passes w j Hf Hj), Ht. reflexivity.
Qed.

Lemma status_of_unknown_job_witness :
  App.lambda_handler Json.loads (get_status "nobody") retry_w3
  = (Ret (App.cors_response 404 [("error", VStr "Job not found"); ("job_id", VStr "nobody")]),
     after_call retry_w3).
Proof.
  apply (status_of_unknown_job Json.loads (get_status "nobody") retry_w3 "nobody");
    try reflexivity. discriminate.
Defined.

(** X9: the path parameter wins.  When the event carries a non-empty
    [job_id] under [pathParameters], a GET on a path that starts with
    [/status/] reads the status of that job, whatever id the path itself
    spells. *)
Theorem status_route_prefers_path_parameter
    (json_loads : string -> string + value) (event : dict) (w : world)
    (rest : string) (params : dict) (p : value) :
  assoc "httpMethod" event = Some (VStr "GET") ->
  assoc "path" event = Some (VStr ("/status/" ++ rest)) ->
  assoc "pathParameters" event = Some (VDict params) ->
  assoc "job_id" params = Some p ->
  truthy p = true ->
  App.lambda_handler json_loads event w = App.check_status p w.
Proof.
  intros Hm Hp Hpp Hid Ht.
  assert (Hparams : truthy (VDict params) = true).
  { destruct params; [discriminate Hid | reflexivity]. }
  unfold App.lambda_handler, dict_get. rewrite Hm, Hp. simpl.
  change (EmptyString ++ rest) with rest. rewrite startswith_empty. cbn [andb].
  unfold App.path_job_id, dict_get. rewrite Hpp, Hparams.
  unfold bind, py_get, dict_get, ret. rewrite Hid, Ht. cbn iota beta. rewrite Ht. cbn [negb].
  unfold try_except. cbn beta iota. rewrite ?Ht. cbn [negb].
  destruct (check_status_answers p w) as (code & body & Hr).
  destruct (App.check_status p w) as [[r|e] w']; [reflexivity | discriminate Hr].
Qed.

Lemma status_route_prefers_path_parameter_witness :
  let event := [("httpMethod", VStr "GET"); ("path", VStr "/status/nobody");
                ("pathParameters", VDict [("job_id", VStr "job-0")])] in
  App.lambda_handler Json.loads event retry_w3 = App.check_status (VStr "job-0") retry_w3.
Proof.
  intros event.
  apply (status_route_prefers_path_parameter Json.loads event retry_w3 "nobody"
           [("job_id", VStr "job-0")] (VStr "job-0")); reflexivity.
Defined.

Lemma lstrip_all (p : ascii -> bool) (l1 l2 : list ascii) :
  forallb p l1 = true ->
  lstrip_by p (string_of_list_ascii (l1 ++ l2)) = lstrip_by p (string_of_list_ascii l2).
Proof.
  induction l1 as [|a l1 IH]; simpl; [reflexivity|].
  intros H. apply andb_prop in H as [Ha Hl]. rewrite Ha. exact (IH Hl).
Qed.

Lemma forallb_rev {A : Type} (p : A -> bool) (l : list A) :
  forallb p l = true -> forallb p (rev l) = true.
Proof.
  rewrite !forallb_forall. intros H x Hx. apply H. apply (proj2 (in_rev l x)). exact Hx.
Qed.

Lemma strip_bare_status_path (rest : string) :
  all_slash rest = true -> py_strip_char "/" ("/status/" ++ rest) = "status".
Proof.
  intros H. unfold py_strip_char, strip_by.
  change (lstrip_by (Ascii.eqb "/") ("/status/" ++ rest)) with ("status/" ++ rest).
  unfold string_rev at 2. rewrite list_ascii_app, rev_app_distr.
  rewrite lstrip_all by (apply forallb_rev, H). reflexivity.
Qed.

(** X10: a status request without an id.  A GET on [/status/], alone or
    followed by more slashes, with no path parameter, is answered 400 with
    the error [Job ID not found in path] and the path, and the table is
    not consulted. *)
Theorem status_without_id
    (json_loads : string -> string + value) (event : dict) (w : world) (rest : string) :
  assoc "httpMethod" event = Some (VStr "GET") ->
  assoc "path" event = Some (VStr ("/status/" ++ rest)) ->
  truthy (dict_get "pathParameters" VNone event) = false ->
  all_slash rest = true ->
  App.lambda_handler json_loads event w
  = (Ret (App.cors_response 400 [("error", VStr "Job ID not found in path");
                                 ("path", VStr ("/status/" ++ rest))]),
     w).
Proof.
  intros Hm Hp Hpp Hs.
  unfold App.lambda_handler, dict_get in *. rewrite Hm, Hp. simpl.
  change (EmptyString ++ rest) with rest. rewrite startswith_empty. cbn [andb].
  unfold App.path_job_id, dict_get. unfold bind at 2.
  fold (dict_get "pathParameters" VNone event) in Hpp.
  change (match assoc "pathParameters" event with Some v => v | None => VNone end)
    with (dict_get "pathParameters" VNone event).
  rewrite Hpp. unfold ret at 1. cbn iota beta. cbn [truthy].
  rewrite (strip_bare_status_path rest Hs). reflexivity.
Qed.

Lemma status_without_id_witness :
  status_code
    (match fst (App.lambda_handler Json.loads (get_status "//") retry_w3) with
     | Ret r => r
     | Raise _ => VNone
     end) = VInt 400.
Proof.
  rewrite (status_without_id Json.loads (get_status "//") retry_w3 "//");
    reflexivity.
Defined.

(** ** The record of an admitted job *)

(** X11: the record of an admitted job.  After an admission the table
    holds, under the new id, the question, the context of the request (an
    empty dictionary when the request has none), the time of the second
    reading of the clock as [created_at], an expiry time [ttl] of 24 hours
    after the first reading, and neither a result nor an error. *)
Theorem admitted_job_record
    (json_loads : string -> string + value) (event : dict) (w : world)
    (text : string) (kv : dict) :
  dict_get "body" (VStr "{}") event = VStr text ->
  json_loads text = inr (VDict kv) ->
  truthy (dict_get "question" (VStr EmptyString) kv) = true ->
  uuids w (drawn w) <> EmptyString ->
  passes 0 (faults w) = true ->
  passes 1 (faults w) = true ->
  let j := uuids w (drawn w) in
  let w' := snd (App.start_job json_loads event w) in
  stored w' j "job_id" = Some (VStr j)
  /\ stored w' j "question" = Some (dict_get "question" (VStr EmptyString) kv)
  /\ stored w' j "context" = Some (dict_get "context" (VDict []) kv)
  /\ stored w' j "created_at" = Some (VStr (isoformat (clock w (S (ticks w)))))
  /\ stored w' j "ttl" = Some (VInt (timestamp (clock w (ticks w)) + 86400))
  /\ stored w' j "result" = None
  /\ stored w' j "error" = None.
Proof.
  intros Hbody Hjson Hq Hj H0 H1 j w'. subst w'.
  rewrite (start_job_admits json_loads event w text kv Hbody Hjson Hq Hj H0 H1).
  pose proof (table_admitted (dict_get "question" (VStr EmptyString) kv)
                (dict_get "context" (VDict []) kv) w) as Ht.
  unfold stored. cbn [snd].
  change (table (set_queue ?q (after_call ?x))) with (table x).
  subst j. rewrite Ht. unfold new_job. repeat split.
Qed.

Lemma admitted_job_record_witness :
  let w' := snd (App.start_job Json.loads (post_query "{'question': 'q'}") (fresh_world [])) in
  stored w' "job-0" "context" = Some (VDict [])
  /\ stored w' "job-0" "ttl" = Some (VInt (1735689600 + 86400)).
Proof.
  intros w'.
  destruct (admitted_job_record Json.loads (post_query "{'question': 'q'}") (fresh_world [])
              (Json.text "{'question': 'q'}") [("question", VStr "q")])
    as (_ & _ & Hc & _ & Ht & _);
    [reflexivity | reflexivity | reflexivity | discriminate | reflexivity | reflexivity |].
  split; [exact Hc | exact Ht].
Defined.

(** ** What a run of the processor writes *)

Lemma table_written (j : string) (l : list (string * value)) (w : world) :
  table (written j l w) !! j
  = Some (assign (default {[ "job_id" := VStr j ]} (table w !! j)) l).
Proof. unfold written. simpl. apply lookup_insert_eq. Qed.

(** X13: the processor creates the record it does not find.  Run for a
    job id under which the table holds nothing (a record that expired, or
    an id that was never admitted), a run that goes through stores a new
    record that is [completed] and has a result, and that has no question,
    no creation time and no [ttl]: a record that never expires. *)
Theorem processor_creates_missing_record (event : dict) (w : world) (j : string) :
  dict_get "job_id" VNone event = VStr j ->
  j <> EmptyString ->
  reserved w "updated_at" = false ->
  passes 0 (faults w) = true ->
  table w !! j = None ->
  let w' := snd (Processor.lambda_handler event w) in
  stored w' j "job_id" = Some (VStr j)
  /\ stored w' j "status" = Some (VStr "completed")
  /\ is_Some (stored w' j "result")
  /\ stored w' j "question" = None
  /\ stored w' j "created_at" = None
  /\ stored w' j "ttl" = None.
Proof.
  intros Hj Hne Hr Hf Hnone w'. subst w'.
  rewrite (processor_completes event w j Hj Hne Hr Hf). cbn [snd].
  unfold stored. rewrite table_written.
  change (table (after_call (set_ticks ?n w))) with (table w). rewrite Hnone.
  unfold completed_write, assign. simpl. repeat split. eauto.
Qed.

Lemma processor_creates_missing_record_witness :
  let w' := snd (Processor.lambda_handler [("job_id", VStr "gone"); ("question", VStr "q")]
                   (fresh_world [])) in
  stored w' "gone" "status" = Some (VStr "completed") /\ stored w' "gone" "ttl" = None.
Proof.
  intros w'.
  destruct (processor_creates_missing_record [("job_id", VStr "gone"); ("question", VStr "q")]
              (fresh_world []) "gone")
    as (_ & Hs & _ & _ & _ & Ht);
    [reflexivity | discriminate | reflexivity | reflexivity | reflexivity |].
  split; [exact Hs | exact Ht].
Defined.

Lemma assign_other (it : gmap string value) (l : list (string * value)) (a : string) :
  ~ In a (map fst l) -> assign it l !! a = it !! a.
Proof.
  unfold assign. revert it. induction l as [|[k v] l IH]; intros it Hn; [reflexivity|].
  simpl. rewrite IH by (intros H; apply Hn; right; exact H).
  apply lookup_insert_ne. intros ->. apply Hn. left. reflexivity.
Qed.

(** X14: the processor keeps what it does not set.  On a stored record a
    run that completes changes [status], [result] and [updated_at] and
    nothing else, and a run that fails changes [status] and [error] and
    nothing else: the question, the context, the creation time and the
    expiry time of the job stay as they were admitted. *)
Theorem processor_keeps_other_attributes
    (event : dict) (w : world) (j a : string) (it : gmap string value) :
  dict_get "job_id" VNone event = VStr j ->
  j <> EmptyString ->
  reserved w "updated_at" = false ->
  table w !! j = Some it ->
  (passes 0 (faults w) = true ->
   ~ In a ["status"; "result"; "updated_at"] ->
   stored (snd (Processor.lambda_handler event w)) j a = it !! a)
  /\ (forall e,
         faults w !! 0%nat = Some (Some e) -> passes 1 (faults w) = true ->
         ~ In a ["status"; "error"] ->
         stored (snd (Processor.lambda_handler event w)) j a = it !! a).
Proof.
  intros Hj Hne Hr Hit. split.
  - intros Hf Ha. rewrite (processor_completes event w j Hj Hne Hr Hf). cbn [snd].
    unfold stored. rewrite table_written.
    change (table (after_call (set_ticks ?n w))) with (table w). rewrite Hit.
    apply assign_other. exact Ha.
  - intros e He Hf Ha. rewrite (processor_fails event w j e Hj Hne He Hf). cbn [snd].
    unfold stored. rewrite table_written.
    change (table (after_call (after_call (set_ticks ?n w)))) with (table w). rewrite Hit.
    apply assign_other. exact Ha.
Qed.

Lemma processor_keeps_other_attributes_witness :
  stored (snd (Processor.lambda_handler queued_job retry_w2)) "job-0" "ttl"
  = stored retry_w2 "job-0" "ttl"
  /\ is_Some (stored retry_w2 "job-0" "ttl").
Proof.
  split; [|vm_compute; eauto].
  transitivity (default ∅ (table retry_w2 !! "job-0") !! "ttl"); [|vm_compute; reflexivity].
  refine (proj1 (processor_keeps_other_attributes queued_job retry_w2 "job-0" "ttl"
                   (default ∅ (table retry_w2 !! "job-0")) _ _ _ _) _ _);
    [reflexivity | discriminate | reflexivity | vm_compute; reflexivity | reflexivity |].
  intros [H|[H|[H|[]]]]; discriminate H.
Defined.

(** X15: what a completed run stores.  A run that goes through stores
    the result [{'answer': 'Processed: ' + str(question)}] and the reading
    of the clock as [updated_at].  The question is the text, the number or
    the truth value of the event, or [None] when the event has none (for a
    list or a dictionary the stored text is their [repr], which the model
    follows only on plain strings). *)
Theorem processor_stores_answer (event : dict) (w : world) (j : string) :
  dict_get "job_id" VNone event = VStr j ->
  j <> EmptyString ->
  reserved w "updated_at" = false ->
  passes 0 (faults w) = true ->
  (forall l, dict_get "question" VNone event <> VList l) ->
  (forall kv, dict_get "question" VNone event <> VDict kv) ->
  let w' := snd (Processor.lambda_handler event w) in
  stored w' j "result"
  = Some (VDict [("answer", VStr ("Processed: " ++ py_str (dict_get "question" VNone event)))])
  /\ stored w' j "updated_at" = Some (VStr (isoformat (clock w (ticks w))))
  /\ ticks w' = S (ticks w).
Proof.
  intros Hj Hne Hr Hf _ _ w'. subst w'.
  rewrite (processor_completes event w j Hj Hne Hr Hf). cbn [snd].
  unfold stored. rewrite table_written. unfold completed_write, assign. simpl.
  split; [|split; [|reflexivity]].
  - rewrite lookup_insert_ne by done. apply lookup_insert_eq.
  - apply lookup_insert_eq.
Qed.

Lemma processor_stores_answer_witness :
  stored (snd (Processor.lambda_handler queued_job retry_w2)) "job-0" "result"
  = Some (VDict [("answer", VStr "Processed: q")]).
Proof.
  refine (proj1 (processor_stores_answer queued_job retry_w2 "job-0" _ _ _ _ _ _));
    [reflexivity | discriminate | reflexivity | reflexivity
     | intros l; discriminate | intros kv; discriminate].
Defined.

(** X16: running the processor again.  A second run of the processor on
    the same payload, when both runs go through, leaves every attribute of
    the record as the first run left it, [updated_at] apart: the run is
    idempotent on the status and on the result. *)
Theorem processor_rerun_changes_only_updated_at
    (event : dict) (w : world) (j a : string) :
  dict_get "job_id" VNone event = VStr j ->
  j <> EmptyString ->
  reserved w "updated_at" = false ->
  passes 0 (faults w) = true ->
  passes 1 (faults w) = true ->
  a <> "updated_at" ->
  let w1 := snd (Processor.lambda_handler event w) in
  let w2 := snd (Processor.lambda_handler event w1) in
  stored w2 j a = stored w1 j a.
Proof.
  intros Hj Hne Hr H0 H1 Ha w1 w2. subst w2 w1.
  rewrite (processor_completes event w j Hj Hne Hr H0). cbn [snd].
  rewrite (processor_completes event _ j Hj Hne).
  2:{ exact Hr. }
  2:{ change (passes 0 (faults (after_call w)) = true). rewrite passes_after_call. exact H1. }
  cbn [snd]. unfold stored. rewrite !table_written.
  change (table (after_call (set_ticks ?n ?x))) with (table x).
  rewrite table_written.
  change (default ?d (Some ?x)) with x.
  unfold completed_write, assign. cbn [foldl].
  destruct (String.eqb_spec a "status") as [->|Hs].
  { rewrite !(lookup_insert_ne _ "updated_at") by done.
    rewrite !(lookup_insert_ne _ "result") by done.
    rewrite !lookup_insert_eq. reflexivity. }
  destruct (String.eqb_spec a "result") as [->|Hres].
  { rewrite !(lookup_insert_ne _ "updated_at") by done.
    rewrite !lookup_insert_eq. reflexivity. }
  rewrite !lookup_insert_ne by congruence. reflexivity.
Qed.

Lemma processor_rerun_changes_only_updated_at_witness :
  let w1 := snd (Processor.lambda_handler queued_job retry_w2) in
  let w2 := snd (Processor.lambda_handler queued_job w1) in
  stored w2 "job-0" "result" = stored w1 "job-0" "result".
Proof.
  apply (processor_rerun_changes_only_updated_at queued_job retry_w2 "job-0" "result");
    try reflexivity; discriminate.
Defined.

(** ** Runs of the processor that write nothing *)

Lemma table_eq_of_only {A : Type} (m : M A) (w : world) :
  only_at EmptyString m w -> table (snd (m w)) = table w.
Proof.
  intros H. apply map_eq. intros j. apply H.
  destruct (String.eqb_spec j EmptyString); [left | right]; assumption.
Qed.

Lemma update_item_bad_key (k : value) (expression : string)
    (names : list (string * string)) (values : dict) (w : world) :
  (forall s, k = VStr s -> s = EmptyString) ->
  exists e, fst (update_item k expression names values w) = Raise e.
Proof.
  intros Hk. unfold update_item, bind, service_call, key_of.
  destruct (faults w) as [|[e|] f]; simpl; eauto;
    destruct k as [| | |s| |]; simpl; eauto;
    rewrite (Hk s eq_refl); simpl; eauto.
Qed.

(** X17: an event without a usable job id.  When the event of the
    processor has no [job_id], or one that is not a string, or the empty
    string, both updates are refused: the run raises and the table is what
    it was, whatever the services do. *)
Theorem processor_without_job_id (event : dict) (w : world) :
  (forall s, dict_get "job_id" VNone event = VStr s -> s = EmptyString) ->
  (exists e, fst (Processor.lambda_handler event w) = Raise e)
  /\ table (snd (Processor.lambda_handler event w)) = table w.
Proof.
  intros Hk. split; [|apply table_eq_of_only, only_processor, Hk].
  unfold Processor.lambda_handler, try_except, bind, datetime_now.
  match goal with |- context [update_item ?k ?x ?n ?v ?w1] =>
    destruct (update_item_bad_key k x n v w1 Hk) as [e1 He1];
    destruct (update_item k x n v w1) as [[u|x1] w2]; [discriminate He1|] end.
  match goal with |- context [update_item ?k ?x ?n ?v w2] =>
    destruct (update_item_bad_key k x n v w2 Hk) as [e2 He2];
    destruct (update_item k x n v w2) as [[u|x2] w3]; [discriminate He2|] end.
  eauto.
Qed.

Lemma processor_without_job_id_witness :
  (exists e, fst (Processor.lambda_handler [("question", VStr "q")] retry_w3) = Raise e)
  /\ table (snd (Processor.lambda_handler [("question", VStr "q")] retry_w3)) = table retry_w3.
Proof.
  apply (processor_without_job_id [("question", VStr "q")] retry_w3).
  intros s H. discriminate H.
Defined.

Lemma update_item_refused (k : value) (expression : string)
    (names : list (string * string)) (values : dict) (w : world) (e : exn) :
  resolved (reserved w) expression names values = inl e ->
  (exists e', fst (update_item k expression names values w) = Raise e')
  /\ table (snd (update_item k expression names values w)) = table w.
Proof.
  unfold resolved, update_item, bind, service_call, key_of. intros H.
  destruct (faults w) as [|[e0|] f]; simpl; eauto;
    destruct k as [| | |s| |]; simpl; eauto;
    destruct (String.eqb s EmptyString); simpl; eauto;
    destruct (parse_set expression); simpl; eauto;
    rewrite H; simpl; eauto.
Qed.

(** X18: the processor as built writes nothing on a table service that
    reserves [result] and [error].  Whatever the event and whatever else
    the services do, both of its updates are refused or fail: the run
    raises and the table is what it was, so no job it is run for ever
    leaves [processing] through it. *)
Theorem built_processor_never_writes (event : dict) (w : world) :
  reserved w "result" = true ->
  reserved w "error" = true ->
  (exists e, fst (ProcessorBuild.lambda_handler event w) = Raise e)
  /\ table (snd (ProcessorBuild.lambda_handler event w)) = table w.
Proof.
  intros Hr He.
  unfold ProcessorBuild.lambda_handler, try_except, bind, datetime_now.
  set (w1 := set_ticks (S (ticks w)) w).
  match goal with |- context [update_item ?k ?x ?n ?v w1] =>
    destruct (update_item_refused k x n v w1
                (validation "UpdateItem"
                   "Invalid UpdateExpression: Attribute name is a reserved keyword; reserved keyword: result"))
      as [[e1 He1] Ht1];
    [ unfold resolved; eval_parse_set; simpl; unfold resolve_path; simpl; rewrite Hr; reflexivity |];
    pose proof (reserved_update_item k x n v w1) as Hw1;
    destruct (update_item k x n v w1) as [[u|x1] w2]; [discriminate He1|] end.
  simpl in Ht1, Hw1.
  match goal with |- context [update_item ?k ?x ?n ?v w2] =>
    destruct (update_item_refused k x n v w2
                (validation "UpdateItem"
                   "Invalid UpdateExpression: Attribute name is a reserved keyword; reserved keyword: error"))
      as [[e2 He2] Ht2];
    [ unfold resolved; eval_parse_set; simpl; unfold resolve_path; simpl; rewrite Hw1, He; reflexivity |];
    destruct (update_item k x n v w2) as [[u|x2] w3]; [discriminate He2|] end.
  simpl in *. split; [eauto | congruence].
Qed.

Lemma built_processor_never_writes_witness :
  (exists e, fst (ProcessorBuild.lambda_handler queued_job retry_w1) = Raise e)
  /\ table (snd (ProcessorBuild.lambda_handler queued_job retry_w1)) = table retry_w1.
Proof.
  apply (built_processor_never_writes queued_job retry_w1); reflexivity.
Defined.

(** X19: when both updates fail.  If the completed-update raises and the
    failed-update raises too, the run raises the second exception (the
    first one is lost) and the table is what it was: the job keeps the
    status it had. *)
Theorem processor_double_failure (event : dict) (w : world) (e1 e2 : exn) :
  faults w !! 0%nat = Some (Some e1) ->
  faults w !! 1%nat = Some (Some e2) ->
  fst (Processor.lambda_handler event w) = Raise e2
  /\ table (snd (Processor.lambda_handler event w)) = table w.
Proof.
  intros H1 H2.
  unfold Processor.lambda_handler, try_except, bind, datetime_now.
  rewrite (update_item_fault _ _ _ _ _ e1) by exact H1.
  rewrite (update_item_fault _ _ _ _ _ e2)
    by (rewrite lookup_after_call; exact H2).
  split; reflexivity.
Qed.

Lemma processor_double_failure_witness :
  let w := set_faults [Some throttled; Some (Exn "ClientError" "second")] retry_w1 in
  fst (Processor.lambda_handler queued_job w) = Raise (Exn "ClientError" "second")
  /\ stored (snd (Processor.lambda_handler queued_job w)) "job-0" "status"
     = Some (VStr "processing").
Proof.
  intros w.
  destruct (processor_double_failure queued_job w throttled (Exn "ClientError" "second"))
    as [Hr Ht]; [reflexivity | reflexivity |].
  split; [exact Hr|]. unfold stored. rewrite Ht. vm_compute. reflexivity.
Defined.

(** ** Responses of the step handlers *)

Lemma crew_step_response
    (crew : string -> dict -> exn + string) (step : string) (event : dict) (w : world)
    (handler : dict -> M value) :
  (forall text,
      crew step event = inr text ->
      exists r, fst (handler event w) = Ret r
                /\ status_code r = VInt 200
                /\ body_field "success" r = Some (VBool true)) ->
  (forall e,
      crew step event = inl e ->
      fst (handler event w) = fst (Planner.create_step_function_error step (exn_msg e) event w)) ->
  exists r,
    fst (handler event w) = Ret r
    /\ match crew step event with
       | inr _ => status_code r = VInt 200 /\ body_field "success" r = Some (VBool true)
       | inl e =>
           status_code r = VInt 500
           /\ body_field "error" r = Some (VStr (exn_msg e))
           /\ body_field "input_event" r = Some (VDict event)
           /\ body_field "success" r = Some (VBool false)
       end.
Proof.
  intros Hok Herr. destruct (crew step event) as [e|text].
  - rewrite (Herr e eq_refl). eexists. split; [reflexivity|]. repeat split.
  - destruct (Hok text eq_refl) as (r & Hr & Hc & Hs). eauto.
Qed.

(** X20: the step handlers never raise.  Every call of the main handler
    returns a response.  For the reporting step, which runs no crew, it is
    a 200 that echoes the report format (summary when the event names
    none).  For every other step it is a 200 with [success] true when the
    crew returns, and when the crew raises a 500 whose body carries the
    text of the exception, the event as it came in and [success] false. *)
Theorem step_handlers_never_raise
    (crew : string -> dict -> exn + string) (event : dict) (w : world) :
  let step := routed (dict_get "step" VNone event) in
  exists r,
    fst (Planner.lambda_handler crew event w) = Ret r
    /\ if String.eqb step "reporting"
       then status_code r = VInt 200
            /\ body_field "report_format" r = Some (dict_get "format" (VStr "summary") event)
       else match crew step event with
            | inr _ => status_code r = VInt 200 /\ body_field "success" r = Some (VBool true)
            | inl e =>
                status_code r = VInt 500
                /\ body_field "error" r = Some (VStr (exn_msg e))
                /\ body_field "input_event" r = Some (VDict event)
                /\ body_field "success" r = Some (VBool false)
            end.
Proof.
  assert (Hplan : forall ev w0, exists r,
             fst (Planner.task_planner_handler crew ev w0) = Ret r
             /\ match crew "task_planning" ev with
                | inr _ => status_code r = VInt 200 /\ body_field "success" r = Some (VBool true)
                | inl e => status_code r = VInt 500
                           /\ body_field "error" r = Some (VStr (exn_msg e))
                           /\ body_field "input_event" r = Some (VDict ev)
                           /\ body_field "success" r = Some (VBool false)
                end).
  { intros ev w0. apply crew_step_response;
      unfold Planner.task_planner_handler, Planner.run_crew, try_except, bind.
    - intros text ->. eexists. repeat split.
    - intros e ->. reflexivity. }
  assert (Hmeta : forall ev w0, exists r,
             fst (Planner.metadata_handler crew ev w0) = Ret r
             /\ match crew "metadata_retrieval" ev with
                | inr _ => status_code r = VInt 200 /\ body_field "success" r = Some (VBool true)
                | inl e => status_code r = VInt 500
                           /\ body_field "error" r = Some (VStr (exn_msg e))
                           /\ body_field "input_event" r = Some (VDict ev)
                           /\ body_field "success" r = Some (VBool false)
                end).
  { intros ev w0. apply crew_step_response;
      unfold Planner.metadata_handler, Planner.run_crew, try_except, bind.
    - intros text ->. eexists. repeat split.
    - intros e ->. reflexivity. }
  assert (Hquery : forall ev w0, exists r,
             fst (Planner.query_execution_handler crew ev w0) = Ret r
             /\ match crew "query_execution" ev with
                | inr _ => status_code r = VInt 200 /\ body_field "success" r = Some (VBool true)
                | inl e => status_code r = VInt 500
                           /\ body_field "error" r = Some (VStr (exn_msg e))
                           /\ body_field "input_event" r = Some (VDict ev)
                           /\ body_field "success" r = Some (VBool false)
                end).
  { intros ev w0. apply crew_step_response;
      unfold Planner.query_execution_handler, Planner.run_crew, try_except, bind.
    - intros text ->. eexists. repeat split.
    - intros e ->. reflexivity. }
  assert (Hall : forall ev w0, exists r,
             fst (Planner.financial_analysis_handler crew ev w0) = Ret r
             /\ match crew "complete_analysis" ev with
                | inr _ => status_code r = VInt 200 /\ body_field "success" r = Some (VBool true)
                | inl e => status_code r = VInt 500
                           /\ body_field "error" r = Some (VStr (exn_msg e))
                           /\ body_field "input_event" r = Some (VDict ev)
                           /\ body_field "success" r = Some (VBool false)
                end).
  { intros ev w0. apply crew_step_response;
      unfold Planner.financial_analysis_handler, Planner.run_crew, try_except, bind.
    - intros text ->. eexists. repeat split.
    - intros e ->. reflexivity. }
  assert (Hrep : forall ev w0, exists r,
             fst (Planner.reporting_handler ev w0) = Ret r
             /\ status_code r = VInt 200
             /\ body_field "report_format" r = Some (dict_get "format" (VStr "summary") ev)).
  { intros ev w0.
    unfold Planner.reporting_handler, Planner.format_financial_report, try_except, bind.
    destruct (value_is_str _ "executive"); [eexists; repeat split|].
    destruct (value_is_str _ "detailed"); eexists; repeat split. }
  intros step. subst step. unfold Planner.lambda_handler, routed.
  destruct (dict_get "step" VNone event) as [| | |s| |]; simpl; try apply Hall.
  destruct (String.eqb s "task_planning") eqn:H1; simpl.
  { apply String.eqb_eq in H1. subst s. apply Hplan. }
  destruct (String.eqb s "metadata_retrieval") eqn:H2; simpl.
  { apply String.eqb_eq in H2. subst s. apply Hmeta. }
  destruct (String.eqb s "query_execution") eqn:H3; simpl.
  { apply String.eqb_eq in H3. subst s. apply Hquery. }
  destruct (String.eqb s "reporting") eqn:H4; simpl.
  { apply String.eqb_eq in H4. subst s. apply Hrep. }
  destruct (String.eqb s "complete_analysis"); apply Hall.
Qed.

(** ** The planner function *)

(** X21: the status codes of the planner function.  It never raises.
    It answers 500, with the text of the exception and an empty
    classification, exactly when building the classifier raises; otherwise
    400 with [No question provided] when the question is missing or empty,
    and 200 in every other case, whatever the crew does.  An identifier is
    drawn in every call, also when the event brings its own
    [conversation_id], which is the one the response carries. *)
Theorem planner_status_codes
    (json_loads : string -> string + value) (classifier : option exn)
    (kickoff : exn + string) (event : dict) (w : world) :
  let run := PlannerV3.lambda_handler json_loads classifier kickoff event w in
  exists r,
    fst run = Ret r
    /\ status_code r
       = VInt match classifier with
              | Some _ => 500
              | None => if truthy (dict_get "question" (VStr EmptyString) event) then 200 else 400
              end
    /\ response_field "conversation_id" r
       = Some (dict_get "conversation_id" (VStr (uuids w (drawn w))) event)
    /\ drawn (snd run) = S (drawn w)
    /\ match classifier with
       | Some e => response_field "error" r = Some (VStr (exn_msg e))
                   /\ response_field "classification" r = Some (VDict [])
       | None =>
           truthy (dict_get "question" (VStr EmptyString) event) = false ->
           response_field "error" r = Some (VStr "No question provided")
           /\ response_field "classification" r = Some (VDict [])
       end.
Proof.
  intros run. subst run.
  unfold PlannerV3.lambda_handler, try_except at 1.
  destruct classifier as [e|].
  - simpl. eexists. repeat split.
  - unfold bind at 1. unfold ret at 1. cbn iota beta.
    unfold bind at 1. unfold uuid4 at 1. cbn iota beta.
    destruct (truthy (dict_get "question" (VStr EmptyString) event)) eqn:Hq; cbn [negb].
    + unfold PlannerV3.classify_question, try_except, try_except_on, bind.
      destruct kickoff as [e|raw]; simpl; [eexists; repeat split; discriminate|].
      destruct (json_loads (PlannerV3.clean_response raw)) as [msg|v]; simpl;
        [eexists; repeat split; discriminate|].
      destruct v; simpl; eexists; repeat split; discriminate.
    + simpl. eexists. repeat split.
Qed.

(** X22: a classification that failed is not an error response.  For a
    non-empty question the response is a 200 that carries the
    classification and repeats its [success] flag; the flag is true exactly
    when the crew returned text whose cleaned form is a JSON object, and in
    every other case (the crew raised, the text is not JSON, the JSON is no
    object) the response still has status code 200, with [success] false
    and the one-fragment fallback as its questions.  The answer of the
    crew is ASCII text, on which [clean_response] is what the code
    computes. *)
Theorem planner_reports_failed_classification
    (json_loads : string -> string + value) (kickoff : exn + string)
    (event : dict) (w : world) :
  truthy (dict_get "question" (VStr EmptyString) event) = true ->
  (forall raw, kickoff = inr raw -> all_ascii raw = true) ->
  let parsed :=
    match kickoff with
    | inr raw =>
        match json_loads (PlannerV3.clean_response raw) with
        | inr (VDict kv) => Some kv
        | _ => None
        end
    | inl _ => None
    end in
  exists r c,
    fst (PlannerV3.lambda_handler json_loads None kickoff event w) = Ret r
    /\ status_code r = VInt 200
    /\ response_field "classification" r = Some (VDict c)
    /\ response_field "success" r = assoc "success" c
    /\ match parsed with
       | Some kv =>
           assoc "success" c = Some (VBool true)
           /\ assoc "questions" c = Some (dict_get "questions" (VList []) kv)
       | None =>
           assoc "success" c = Some (VBool false)
           /\ assoc "questions" c
              = Some (PlannerV3.fallback_questions
                        (dict_get "question" (VStr EmptyString) event))
       end.
Proof.
  intros Hq _ parsed. subst parsed.
  unfold PlannerV3.lambda_handler, try_except at 1.
  unfold bind at 1. unfold ret at 1. cbn iota beta.
  unfold bind at 1. unfold uuid4 at 1. cbn iota beta. rewrite Hq. cbn [negb].
  unfold PlannerV3.classify_question, try_except, try_except_on, bind.
  destruct kickoff as [e|raw]; simpl; [eexists; eexists; repeat split|].
  destruct (json_loads (PlannerV3.clean_response raw)) as [msg|v]; simpl;
    [eexists; eexists; repeat split|].
  destruct v; simpl; eexists; eexists; repeat split.
Qed.

Lemma planner_reports_failed_classification_witness :
  exists r,
    fst (PlannerV3.lambda_handler Json.loads None (inr "I cannot classify this")
           [("question", VStr "What are your storage rates?")] (fresh_world []))
    = Ret r
    /\ status_code r = VInt 200
    /\ response_field "success" r = Some (VBool false).
Proof.
  destruct (planner_reports_failed_classification Json.loads (inr "I cannot classify this")
              [("question", VStr "What are your storage rates?")] (fresh_world []))
    as (r & c & Hr & Hc & _ & Hs & Hp & _);
    [reflexivity | intros raw [= <-]; reflexivity |].
  exists r. split; [exact Hr|]. split; [exact Hc|]. rewrite Hs. exact Hp.
Defined.

(** ** Stripping the code fence *)

Lemma lstrip_app_all (p : ascii -> bool) (pre t : string) :
  forallb p (list_ascii_of_string pre) = true ->
  lstrip_by p (pre ++ t) = lstrip_by p t.
Proof.
  induction pre as [|a pre IH]; simpl; [reflexivity|].
  intros H. apply andb_prop in H as [Ha Hp]. rewrite Ha. exact (IH Hp).
Qed.

Lemma rstrip_app_all (p : ascii -> bool) (t post : string) :
  forallb p (list_ascii_of_string post) = true ->
  match rev (list_ascii_of_string t) with
  | a :: _ => p a = false
  | [] => True
  end ->
  string_rev (lstrip_by p (string_rev (t ++ post))) = t.
Proof.
  intros Hpost Hlast. unfold string_rev at 2.
  rewrite list_ascii_app, rev_app_distr, lstrip_all by (apply forallb_rev, Hpost).
  apply (rstrip_keeps p t Hlast).
Qed.

Lemma startswith_app (p s : string) : startswith p (p ++ s) = true.
Proof.
  unfold startswith. induction p as [|a p IH]; simpl; [destruct s; reflexivity|].
  destruct (ascii_dec a a); [exact IH | contradiction].
Qed.

Lemma substring_head (s t : string) :
  String.substring 0 (String.length s) (s ++ t) = s.
Proof. induction s as [|a s IH]; simpl; [destruct t; reflexivity | rewrite IH; reflexivity]. Qed.

Lemma length_app (s t : string) :
  String.length (s ++ t) = (String.length s + String.length t)%nat.
Proof. induction s as [|a s IH]; simpl; [reflexivity | rewrite IH; reflexivity]. Qed.

(** X23: a fenced answer is unwrapped.  For an answer that consists of a
    [```json] fence around a body, with blanks before and after the fence
    or without, the cleaning yields the body, whatever the body is. *)
Theorem clean_response_fenced (before body after : string) :
  all_space before = true ->
  all_space after = true ->
  PlannerV3.clean_response (before ++ ("```json" ++ body ++ "```") ++ after) = body.
Proof.
  intros Hb Ha. unfold PlannerV3.clean_response.
  set (core := "```json" ++ body ++ "```").
  assert (Hstrip : py_strip (before ++ core ++ after) = core).
  { unfold py_strip, strip_by. rewrite (lstrip_app_all is_space before _ Hb).
    change (lstrip_by is_space (core ++ after)) with (core ++ after).
    apply rstrip_app_all; [exact Ha|].
    unfold core. rewrite !list_ascii_app, !rev_app_distr. reflexivity. }
  rewrite Hstrip. unfold core at 1. rewrite startswith_app.
  unfold py_slice, core. rewrite !length_app.
  change (String.length "```json") with 7%nat. change (String.length "```") with 3%nat.
  replace (7 + (String.length body + 3) - 3 - 7)%nat with (String.length body) by lia.
  change (String.substring 7 (String.length body) ("```json" ++ body ++ "```"))
    with (String.substring 0 (String.length body) (body ++ "```")).
  apply substring_head.
Qed.

Lemma clean_response_fenced_witness :
  PlannerV3.clean_response
    (" " ++ ("```json" ++ Json.text "{'questions': []}" ++ "```") ++ " ")
  = Json.text "{'questions': []}".
Proof.
  apply (clean_response_fenced " " (Json.text "{'questions': []}") " "); reflexivity.
Defined.

(** X24: a fence that is not closed costs the answer its end.  For an
    answer that opens a [```json] fence and never closes it, the cleaning
    still drops three characters at the end: what is left is the body
    without its last three characters.  The body is ASCII text that does
    not end in a blank (a string of the model counts bytes where the code
    counts characters, and the blanks of the model are the ASCII ones). *)
Theorem clean_response_unclosed_fence (body : string) :
  all_ascii body = true ->
  ends_blank body = false ->
  PlannerV3.clean_response ("```json" ++ body)
  = String.substring 0 (String.length body - 3) body.
Proof.
  intros _ Hlast. unfold PlannerV3.clean_response.
  assert (Hstrip : py_strip ("```json" ++ body) = "```json" ++ body).
  { unfold py_strip, strip_by.
    change (lstrip_by is_space ("```json" ++ body)) with ("```json" ++ body).
    apply rstrip_keeps. rewrite list_ascii_app, rev_app_distr.
    unfold ends_blank in Hlast.
    destruct (rev (list_ascii_of_string body)) as [|a l]; [reflexivity | exact Hlast]. }
  rewrite Hstrip, startswith_app. unfold py_slice. rewrite length_app.
  change (String.length "```json") with 7%nat.
  replace (7 + String.length body - 3 - 7)%nat with (String.length body - 3)%nat by lia.
  reflexivity.
Qed.

Lemma clean_response_unclosed_fence_witness :
  PlannerV3.clean_response ("```json" ++ Json.text "{'questions': []}")
  = Json.text "{'questions': ".
Proof.
  rewrite (clean_response_unclosed_fence (Json.text "{'questions': []}")); reflexivity.
Defined.

(** ** Records and payloads over the life of the system *)

Lemma grows_reads {A : Type} (m : M A) : reads m -> grows m.
Proof. intros H w. destruct (H w) as [Ht Hq]. split; [exact Hq|]. rewrite Ht. auto. Qed.

Lemma grows_bind {A B : Type} (m : M A) (k : A -> M B) :
  grows m -> (forall a, grows (k a)) -> grows (bind m k).
Proof.
  intros Hm Hk w. unfold bind. specialize (Hm w).
  destruct (m w) as [[a|e] w']; simpl in *; [|exact Hm].
  destruct (Hk a w') as [Hq Ht]. destruct Hm as [Hq' Ht']. split; [congruence | auto].
Qed.

Lemma grows_try_except {A : Type} (m : M A) (h : exn -> M A) :
  grows m -> (forall e, grows (h e)) -> grows (try_except m h).
Proof.
  intros Hm Hh w. unfold try_except. specialize (Hm w).
  destruct (m w) as [[a|e] w']; simpl in *; [exact Hm|].
  destruct (Hh e w') as [Hq Ht]. destruct Hm as [Hq' Ht']. split; [congruence | auto].
Qed.

Lemma is_Some_insert {V : Type} (t : gmap string V) (j k : string) (v : V) :
  is_Some (t !! k) -> is_Some (<[j := v]> t !! k).
Proof.
  intros H. destruct (decide (j = k)) as [->|Hne].
  - rewrite lookup_insert_eq. eauto.
  - rewrite lookup_insert_ne by exact Hne. exact H.
Qed.

(** An update removes no record: it writes the record of its key, or
    nothing. *)
Lemma grows_update_item (k : value) (expression : string)
    (names : list (string * string)) (values : dict) :
  grows (update_item k expression names values).
Proof.
  unfold update_item.
  apply grows_bind; [apply grows_reads, reads_service_call | intros _].
  apply grows_bind; [apply grows_reads, reads_key_of | intros j].
  intros w. destruct (parse_set expression); [|split; auto].
  destruct (resolve _ _ _ _); [split; auto|].
  split; [reflexivity|]. intros k'. simpl. apply is_Some_insert.
Qed.

Lemma grows_processor (event : dict) : grows (Processor.lambda_handler event).
Proof.
  unfold Processor.lambda_handler.
  apply grows_try_except.
  - apply grows_bind; [apply grows_reads; intros w; split; reflexivity | intros now].
    apply grows_bind; [apply grows_update_item | intros _; apply grows_reads, reads_ret].
  - intros e. apply grows_bind; [apply grows_update_item | intros _; apply grows_reads, reads_raise].
Qed.

Lemma grows_processor_build (event : dict) : grows (ProcessorBuild.lambda_handler event).
Proof.
  unfold ProcessorBuild.lambda_handler.
  apply grows_try_except.
  - apply grows_bind; [apply grows_reads; intros w; split; reflexivity | intros now].
    apply grows_bind; [apply grows_update_item | intros _; apply grows_reads, reads_ret].
  - intros e. apply grows_bind; [apply grows_update_item | intros _; apply grows_reads, reads_raise].
Qed.

Lemma reads_loads (json_loads : string -> string + value) (x : value) :
  reads (loads json_loads x).
Proof.
  destruct x; simpl; try apply reads_raise.
  destruct (json_loads s); [apply reads_raise | apply reads_ret].
Qed.

Lemma from_to_bind {A B : Type} (P Q Q' R : world -> Prop) (m : M A) (k : A -> M B) :
  from_to P m Q R -> (forall a, from_to Q (k a) Q' R) -> from_to P (bind m k) Q' R.
Proof.
  intros Hm Hk w HP. unfold bind. specialize (Hm w HP).
  destruct (m w) as [[a|e] w']; simpl in *; [apply Hk, Hm | exact Hm].
Qed.

Lemma from_to_try_except {A : Type} (P Q R R' : world -> Prop) (m : M A) (h : exn -> M A) :
  from_to P m Q R -> (forall e, from_to R (h e) Q R') -> from_to P (try_except m h) Q R'.
Proof.
  intros Hm Hh w HP. unfold try_except. specialize (Hm w HP).
  destruct (m w) as [[a|e] w']; simpl in *; [exact Hm | apply Hh, Hm].
Qed.

Lemma from_to_ret {A : Type} (P R : world -> Prop) (a : A) : from_to P (ret a) P R.
Proof. intros w HP. exact HP. Qed.

(** A property of the table and the queue that survives new records and
    the arrival of a payload that names a stored job is kept by every step
    of the system. *)
Section Kept.

Variable P : world -> Prop.

Hypothesis P_grows :
  forall w w',
    queue w' = queue w ->
    (forall k, is_Some (table w !! k) -> is_Some (table w' !! k)) ->
    P w -> P w'.

Hypothesis P_enqueue :
  forall w p j,
    dict_get "job_id" VNone p = VStr j ->
    j <> EmptyString ->
    is_Some (table w !! j) ->
    P w -> P (set_queue (queue w ++ [p])%list w).

Lemma from_to_grows {A : Type} (m : M A) : grows m -> from_to P m P P.
Proof.
  intros Hm w HP. destruct (Hm w) as [Hq Ht].
  destruct (fst (m w)); exact (P_grows w (snd (m w)) Hq Ht HP).
Qed.

Lemma put_item_stores (it : dict) (j : string) :
  dict_get "job_id" VNone it = VStr j ->
  from_to P (put_item it)
    (fun w => P w /\ j <> EmptyString /\ is_Some (table w !! j)) P.
Proof.
  intros Hk. unfold put_item. rewrite Hk.
  apply (from_to_bind P P); [apply from_to_grows, grows_reads, reads_service_call | intros _].
  intros w HP. unfold bind, key_of.
  destruct (String.eqb_spec j EmptyString) as [He|He]; simpl; [exact HP|].
  split; [|split; [exact He | rewrite lookup_insert_eq; eauto]].
  apply (P_grows w); [reflexivity | intros k; apply is_Some_insert | exact HP].
Qed.

Lemma invoke_enqueues (p : dict) (j : string) :
  dict_get "job_id" VNone p = VStr j ->
  from_to (fun w => P w /\ j <> EmptyString /\ is_Some (table w !! j)) (invoke p) P P.
Proof.
  intros Hk w (HP & Hj & Hs). unfold invoke, bind, service_call.
  destruct (faults w) as [|[e|] f]; simpl.
  - exact (P_enqueue w p j Hk Hj Hs HP).
  - apply (P_grows w); [reflexivity | auto | exact HP].
  - apply (P_enqueue (set_faults f w) p j Hk Hj Hs).
    apply (P_grows w); [reflexivity | auto | exact HP].
Qed.

Lemma start_job_keeps (json_loads : string -> string + value) (event : dict) :
  from_to P (App.start_job json_loads event) P P.
Proof.
  unfold App.start_job.
  apply (from_to_bind P P); [apply from_to_grows, grows_reads, reads_loads | intros body].
  apply (from_to_bind P P); [apply from_to_grows, grows_reads, reads_py_get | intros question].
  apply (from_to_bind P P); [apply from_to_grows, grows_reads, reads_py_get | intros context_data].
  destruct (negb (truthy question)); [apply from_to_ret|].
  apply (from_to_bind P P);
    [apply from_to_grows, grows_reads; intros w; split; reflexivity | intros job_id].
  apply (from_to_bind P P);
    [apply from_to_grows, grows_reads; intros w; split; reflexivity | intros now].
  apply (from_to_bind P P);
    [apply from_to_grows, grows_reads; intros w; split; reflexivity | intros created].
  eapply from_to_bind; [apply (put_item_stores _ job_id); reflexivity | intros _].
  apply (from_to_bind _ P); [|intros _; apply from_to_ret].
  apply (from_to_try_except _ P P).
  - apply (invoke_enqueues _ job_id). reflexivity.
  - intros e. apply from_to_grows, grows_update_item.
Qed.

Lemma api_keeps (json_loads : string -> string + value) (event : dict) (w : world) :
  P w -> P (snd (App.lambda_handler json_loads event w)).
Proof.
  intros HP.
  destruct (value_is_str (dict_get "path" (VStr EmptyString) event) "/query"
            && value_is_str (dict_get "httpMethod" (VStr EmptyString) event) "POST")%bool
    eqn:Hroute.
  - unfold App.lambda_handler. rewrite Hroute. unfold try_except.
    destruct (value_is_str _ "OPTIONS"); [exact HP|].
    pose proof (start_job_keeps json_loads event w HP) as H.
    destruct (App.start_job json_loads event w) as [[r|e] w']; exact H.
  - destruct (lambda_handler_reads json_loads event Hroute w) as [Ht Hq].
    apply (P_grows w); [exact Hq | rewrite Ht; auto | exact HP].
Qed.

Lemma step_keeps (json_loads : string -> string + value) (w w' : world) :
  step json_loads w w' -> P w -> P w'.
Proof.
  intros [event w1 | event w1 Hin | event w1 Hin | f w1] HP.
  - apply api_keeps, HP.
  - destruct (grows_processor event w1) as [Hq Ht]. exact (P_grows _ _ Hq Ht HP).
  - destruct (grows_processor_build event w1) as [Hq Ht]. exact (P_grows _ _ Hq Ht HP).
  - apply (P_grows w1); [reflexivity | auto | exact HP].
Qed.

Lemma reachable_keeps (json_loads : string -> string + value) (w0 w : world) :
  reachable json_loads w0 w -> P w0 -> P w.
Proof.
  intros Hr H0. induction Hr as [|w w' Hr IH Hs]; [exact H0|].
  exact (step_keeps json_loads w w' Hs IH).
Qed.

End Kept.

(** X25: the processor is only ever asked to run a job that is stored.
    In every world the system reaches from one where no payload waits,
    each payload that Lambda holds for the processor names, by a non-empty
    string, a job whose record is in the table: the API function hands a
    payload over only after the record is written, and no step removes a
    record. *)
Theorem queued_jobs_are_stored
    (json_loads : string -> string + value) (w0 w : world) (p : dict) :
  queue w0 = [] ->
  reachable json_loads w0 w ->
  In p (queue w) ->
  exists j,
    dict_get "job_id" VNone p = VStr j
    /\ j <> EmptyString
    /\ is_Some (table w !! j).
Proof.
  intros H0 Hr.
  apply (reachable_keeps queue_stored) with (json_loads := json_loads) (w0 := w0);
    [| | exact Hr |].
  - intros w1 w2 Hq Ht H q Hin. rewrite Hq in Hin.
    destruct (H q Hin) as (j & Hk & Hj & Hs). exists j. auto.
  - intros w1 q j Hk Hj Hs H q' Hin. simpl in Hin. apply in_app_or in Hin.
    destruct Hin as [Hin|[<-|[]]].
    + exact (H q' Hin).
    + exists j. auto.
  - intros q Hin. rewrite H0 in Hin. destruct Hin.
Qed.

Lemma queued_jobs_are_stored_witness :
  exists j,
    dict_get "job_id" VNone queued_job = VStr j
    /\ j <> EmptyString
    /\ is_Some (table retry_w3 !! j).
Proof.
  apply (queued_jobs_are_stored Json.loads retry_w0 retry_w3 queued_job);
    [reflexivity | exact retry_reachable | vm_compute; left; reflexivity].
Defined.

(** X26: no step of the system removes a record.  A job that is stored
    is stored in every world the system reaches from there, whatever the
    requests, the runs of the processor and the faults of the services
    (the expiry that the table applies to the [ttl] attribute is not a step
    of the handlers). *)
Theorem stored_jobs_stay_stored
    (json_loads : string -> string + value) (w0 w : world) (j : string) :
  reachable json_loads w0 w ->
  is_Some (table w0 !! j) ->
  is_Some (table w !! j).
Proof.
  intros Hr.
  apply (reachable_keeps (fun w1 => is_Some (table w1 !! j)))
    with (json_loads := json_loads) (w0 := w0); [| | exact Hr].
  - intros w1 w2 _ Ht. apply Ht.
  - intros w1 q j' _ _ _ H. exact H.
Qed.

Lemma stored_jobs_stay_stored_witness :
  is_Some (table retry_w3 !! "job-0").
Proof.
  apply (stored_jobs_stay_stored Json.loads retry_w1 retry_w3 "job-0").
  - apply reach_step with (w := retry_w2).
    + apply reach_step with (w := retry_w1); [apply reach_start|].
      apply step_process. vm_compute. left. reflexivity.
    + apply step_process. vm_compute. left. reflexivity.
  - vm_compute. eauto.
Defined.

(** ** Reading the jobs the system has stored *)

Lemma step_keeps_empty_key (json_loads : string -> string + value) (w w' : world) :
  step json_loads w w' -> table w' !! EmptyString = table w !! EmptyString.
Proof.
  intros [event w1 | event w1 Hin | event w1 Hin | f w1].
  - apply (api_only_at json_loads event w1). left. reflexivity.
  - destruct (dict_get "job_id" VNone event) as [| | |j| |] eqn:Hk.
    4:{ apply (only_processor j event); [rewrite Hk; intros s [= ->]; reflexivity | left; reflexivity]. }
    all: apply (only_processor EmptyString event); [rewrite Hk; discriminate | left; reflexivity].
  - destruct (dict_get "job_id" VNone event) as [| | |j| |] eqn:Hk.
    4:{ apply (only_processor_build j event); [rewrite Hk; intros s [= ->]; reflexivity | left; reflexivity]. }
    all: apply (only_processor_build EmptyString event); [rewrite Hk; discriminate | left; reflexivity].
  - reflexivity.
Qed.

Lemma no_empty_key_of_reachable (json_loads : string -> string + value) (w0 w : world) :
  table w0 = ∅ -> reachable json_loads w0 w -> table w !! EmptyString = None.
Proof.
  intros H0 Hr. induction Hr as [|w w' Hr IH Hs].
  - rewrite H0. apply lookup_empty.
  - rewrite (step_keeps_empty_key json_loads w w' Hs). exact IH.
Qed.

Lemma settled_of_reachable (json_loads : string -> string + value) (w0 w : world) :
  table w0 = ∅ -> reachable json_loads w0 w -> table_settled w.
Proof.
  intros H0 Hr. induction Hr as [|w w' Hr IH Hs].
  - intros j it. rewrite H0, lookup_empty. discriminate.
  - exact (step_settled json_loads w w' Hs IH).
Qed.

Lemma settled_status (it : gmap string value) :
  settled it = true ->
  exists s,
    it !! "status" = Some (VStr s)
    /\ (s = "processing" \/ s = "completed" \/ s = "failed")
    /\ (s = "completed" -> is_Some (it !! "result"))
    /\ (s = "failed" -> is_Some (it !! "error")).
Proof.
  unfold settled, status_is, has. intros H.
  destruct (it !! "status") as [v|]; [|discriminate].
  destruct (value_is_str v "processing") eqn:Hp.
  { apply value_is_str_spec in Hp. subst v. eexists. split; [reflexivity|].
    split; [left; reflexivity|]. split; discriminate. }
  destruct (value_is_str v "completed") eqn:Hc.
  { apply value_is_str_spec in Hc. subst v. eexists. split; [reflexivity|].
    split; [right; left; reflexivity|]. split; [|discriminate].
    intros _. destruct (it !! "result"); [eauto | discriminate]. }
  destruct (value_is_str v "failed") eqn:Hf; [|discriminate].
  apply value_is_str_spec in Hf. subst v. eexists. split; [reflexivity|].
  split; [right; right; reflexivity|]. split; [discriminate|].
  intros _. destruct (it !! "error"); [eauto | discriminate].
Qed.

Lemma from_to_raise {A : Type} (P Q : world -> Prop) (e : exn) : from_to P (@raise A e) Q P.
Proof. intros w HP. exact HP. Qed.

Lemma textual_same_table {A : Type} (m : M A) :
  (forall w, table (snd (m w)) = table w) ->
  from_to table_textual m table_textual table_textual.
Proof.
  intros Hm w H.
  assert (H' : table_textual (snd (m w))) by (intros j it; rewrite Hm; apply H).
  destruct (fst (m w)); exact H'.
Qed.

Lemma textual_reads {A : Type} (m : M A) :
  reads m -> from_to table_textual m table_textual table_textual.
Proof. intros Hm. apply textual_same_table. intros w. apply (Hm w). Qed.

Lemma textual_insert (w : world) (j : string) (it : gmap string value) :
  table_textual w -> textual it = true ->
  table_textual (set_table (<[j := it]> (table w)) w).
Proof.
  intros H Hit j' it'. simpl. rewrite lookup_insert.
  case_decide; [intros [= <-]; exact Hit | apply H].
Qed.

Lemma numberless_insert (x a : string) (v : value) (it : gmap string value) :
  has_number v = false -> numberless x it = true -> numberless x (<[a := v]> it) = true.
Proof.
  intros Hv Hx. unfold numberless. destruct (decide (a = x)) as [->|Hne].
  - rewrite lookup_insert_eq, Hv. reflexivity.
  - rewrite lookup_insert_ne by exact Hne. exact Hx.
Qed.

Lemma textual_assign (l : list (string * value)) (old : gmap string value) :
  Forall (fun p => has_number (snd p) = false) l ->
  textual old = true -> textual (assign old l) = true.
Proof.
  unfold assign. intros Hl. revert old.
  induction Hl as [|[a v] l Hv Hl IH]; intros old Hold; [exact Hold|].
  simpl. apply IH. unfold textual in *.
  rewrite !andb_true_iff in *. destruct Hold as [[[H1 H2] H3] H4].
  repeat split; apply numberless_insert; assumption.
Qed.

Lemma resolve_numberless (rsv : string -> bool) (names : list (string * string))
    (values : dict) (sets : list (string * string)) (l : list (string * value)) :
  no_number values = true ->
  resolve rsv names values sets = inr l ->
  Forall (fun p => has_number (snd p) = false) l.
Proof.
  intros Hv. revert l. induction sets as [|[p o] sets IH]; intros l; simpl.
  - intros [= <-]. constructor.
  - destruct (resolve_path rsv names p) as [e|a]; [discriminate|].
    unfold resolve_operand. destruct (assoc o values) as [v|] eqn:Ho; [|discriminate].
    destruct (resolve rsv names values sets) as [e|l']; [discriminate|].
    intros [= <-]. constructor; [|apply IH; reflexivity].
    simpl. unfold no_number in Hv. apply negb_true_iff in Hv.
    destruct (has_number v) eqn:Hn; [|reflexivity].
    rewrite <- Hv. symmetry. apply existsb_exists. exists (o, v). split; [|exact Hn].
    clear -Ho. induction values as [|[k' v'] values IH]; [discriminate|].
    simpl in Ho. destruct (String.eqb_spec o k') as [->|Hne].
    + injection Ho as ->. left. reflexivity.
    + right. apply IH, Ho.
Qed.

Lemma textual_put_item (it : dict) :
  textual (list_to_map it) = true ->
  from_to table_textual (put_item it) table_textual table_textual.
Proof.
  intros Hit. unfold put_item.
  apply (from_to_bind _ table_textual); [apply textual_reads, reads_service_call | intros _].
  apply (from_to_bind _ table_textual); [apply textual_reads, reads_key_of | intros j].
  intros w H. apply textual_insert; assumption.
Qed.

(** An update whose values hold no number keeps the records free of
    numbers in the attributes of the view, whatever it assigns to. *)
Lemma textual_update_item (k : value) (expression : string)
    (names : list (string * string)) (values : dict) :
  no_number values = true ->
  from_to table_textual (update_item k expression names values) table_textual table_textual.
Proof.
  intros Hv. unfold update_item.
  apply (from_to_bind _ table_textual); [apply textual_reads, reads_service_call | intros _].
  apply (from_to_bind _ table_textual); [apply textual_reads, reads_key_of | intros j].
  intros w H. destruct (parse_set expression) as [sets|]; [|exact H].
  destruct (resolve (reserved w) names values sets) as [e|l] eqn:Hr; [exact H|].
  apply textual_insert; [exact H|].
  apply textual_assign; [exact (resolve_numberless _ _ _ _ _ Hv Hr)|].
  destruct (table w !! j) as [old|] eqn:Hold; [exact (H j old Hold) | reflexivity].
Qed.

Lemma textual_processor (event : dict) :
  from_to table_textual (Processor.lambda_handler event) table_textual table_textual.
Proof.
  unfold Processor.lambda_handler.
  apply (from_to_try_except _ table_textual table_textual).
  - apply (from_to_bind _ table_textual);
      [apply textual_reads; intros w; split; reflexivity | intros now].
    apply (from_to_bind _ table_textual);
      [apply textual_update_item; reflexivity | intros _; apply from_to_ret].
  - intros e. apply (from_to_bind _ table_textual);
      [apply textual_update_item; reflexivity | intros _; apply from_to_raise].
Qed.

Lemma textual_processor_build (event : dict) :
  from_to table_textual (ProcessorBuild.lambda_handler event) table_textual table_textual.
Proof.
  unfold ProcessorBuild.lambda_handler.
  apply (from_to_try_except _ table_textual table_textual).
  - apply (from_to_bind _ table_textual);
      [apply textual_reads; intros w; split; reflexivity | intros now].
    apply (from_to_bind _ table_textual);
      [apply textual_update_item; reflexivity | intros _; apply from_to_ret].
  - intros e. apply (from_to_bind _ table_textual);
      [apply textual_update_item; reflexivity | intros _; apply from_to_raise].
Qed.

Lemma textual_start_job (json_loads : string -> string + value) (event : dict) :
  from_to table_textual (App.start_job json_loads event) table_textual table_textual.
Proof.
  unfold App.start_job.
  apply (from_to_bind _ table_textual); [apply textual_reads, reads_loads | intros body].
  apply (from_to_bind _ table_textual); [apply textual_reads, reads_py_get | intros question].
  apply (from_to_bind _ table_textual); [apply textual_reads, reads_py_get | intros context_data].
  destruct (negb (truthy question)); [apply from_to_ret|].
  apply (from_to_bind _ table_textual);
    [apply textual_reads; intros w; split; reflexivity | intros job_id].
  apply (from_to_bind _ table_textual);
    [apply textual_reads; intros w; split; reflexivity | intros now].
  apply (from_to_bind _ table_textual);
    [apply textual_reads; intros w; split; reflexivity | intros created].
  apply (from_to_bind _ table_textual); [apply textual_put_item; reflexivity | intros _].
  apply (from_to_bind _ table_textual); [|intros _; apply from_to_ret].
  apply (from_to_try_except _ table_textual table_textual).
  - apply textual_same_table. intros w. unfold invoke, bind, service_call.
    destruct (faults w) as [|[x|] f]; reflexivity.
  - intros e. apply textual_update_item. reflexivity.
Qed.

Lemma textual_api (json_loads : string -> string + value) (event : dict) (w : world) :
  table_textual w -> table_textual (snd (App.lambda_handler json_loads event w)).
Proof.
  intros H.
  destruct (value_is_str (dict_get "path" (VStr EmptyString) event) "/query"
            && value_is_str (dict_get "httpMethod" (VStr EmptyString) event) "POST")%bool
    eqn:Hroute.
  - unfold App.lambda_handler. rewrite Hroute. unfold try_except.
    destruct (value_is_str _ "OPTIONS"); [exact H|].
    pose proof (textual_start_job json_loads event w H) as Hs.
    destruct (App.start_job json_loads event w) as [[r|e] w']; exact Hs.
  - destruct (lambda_handler_reads json_loads event Hroute w) as [Ht _].
    intros j it. rewrite Ht. apply H.
Qed.

Lemma textual_of_reachable (json_loads : string -> string + value) (w0 w : world) :
  table w0 = ∅ -> reachable json_loads w0 w -> table_textual w.
Proof.
  intros H0 Hr. induction Hr as [|w w' Hr IH Hs].
  - intros j it. rewrite H0, lookup_empty. discriminate.
  - destruct Hs as [event w | event w Hin | event w Hin | f w].
    + apply textual_api, IH.
    + pose proof (textual_processor event w IH) as H.
      destruct (fst (Processor.lambda_handler event w)); exact H.
    + pose proof (textual_processor_build event w IH) as H.
      destruct (fst (ProcessorBuild.lambda_handler event w)); exact H.
    + exact IH.
Qed.

Lemma numberless_default (a : string) (it : gmap string value) (d : value) :
  numberless a it = true -> has_number d = false ->
  has_number (default d (it !! a)) = false.
Proof.
  unfold numberless. intros H Hd. destruct (it !! a) as [v|]; simpl; [|exact Hd].
  apply negb_true_iff, H.
Qed.

(** X12: every job the system has stored can be read.  In a world
    reached from an empty table, a status read of any stored job whose
    question is text, when the table answers, is answered 200 with the
    stored status, which is one of the three; for a completed job the view
    shows the stored result and for a failed job the stored error: the
    defaults of the status read ([{}], [Unknown error]), its error path for
    a record without status and the refusal of the encoder are never
    met. *)
Theorem reachable_job_is_readable
    (json_loads : string -> string + value) (w0 w : world)
    (j : string) (it : gmap string value) :
  table w0 = ∅ ->
  reachable json_loads w0 w ->
  table w !! j = Some it ->
  (forall q, it !! "question" = Some q -> exists s, q = VStr s) ->
  passes 0 (faults w) = true ->
  exists view s,
    it !! "status" = Some (VStr s)
    /\ fst (App.check_status (VStr j) w) = Ret view
    /\ status_code view = VInt 200
    /\ body_field "status" view = Some (VStr s)
    /\ (s = "processing" \/ s = "completed" \/ s = "failed")
    /\ (s = "completed" ->
        is_Some (it !! "result") /\ body_field "result" view = it !! "result")
    /\ (s = "failed" ->
        is_Some (it !! "error") /\ body_field "error" view = it !! "error").
Proof.
  intros H0 Hr Hit Hq Hf.
  assert (Hj : j <> EmptyString).
  { intros ->. rewrite (no_empty_key_of_reachable json_loads w0 w H0 Hr) in Hit. discriminate. }
  destruct (settled_status it (settled_of_reachable json_loads w0 w H0 Hr j it Hit))
    as (s & Hs & Hthree & Hres & Herr).
  pose proof (textual_of_reachable json_loads w0 w H0 Hr j it Hit) as Htx.
  unfold textual in Htx. rewrite !andb_true_iff in Htx. destruct Htx as [[[_ Hc] Hre] Her].
  assert (Hqn : has_number (default (VStr EmptyString) (it !! "question")) = false).
  { destruct (it !! "question") as [q|] eqn:Hq'; [|reflexivity].
    destruct (Hq q eq_refl) as [t ->]. reflexivity. }
  assert (Hn : no_number (view_of j it (VStr s)) = true).
  { unfold no_number, view_of. rewrite existsb_app. cbn [existsb snd has_number].
    rewrite (numberless_default "created_at" it (VStr EmptyString) Hc eq_refl), Hqn. cbn [orb].
    destruct (value_is_str (VStr s) "completed"); [|destruct (value_is_str (VStr s) "failed")];
      cbn [existsb snd orb]; [| |reflexivity].
    - rewrite (numberless_default "result" it (VDict []) Hre eq_refl). reflexivity.
    - rewrite (numberless_default "error" it (VStr "Unknown error") Her eq_refl). reflexivity. }
  rewrite (check_status_found w j it (VStr s) Hit Hs Hj Hf), Hn. cbn [fst].
  eexists. exists s. split; [exact Hs|]. split; [reflexivity|]. split; [reflexivity|].
  split; [reflexivity|]. split; [exact Hthree|]. split.
  - intros ->. destruct (Hres eq_refl) as [r Hr']. split; [eauto|].
    unfold view_of. simpl. rewrite Hr'. reflexivity.
  - intros ->. destruct (Herr eq_refl) as [r Hr']. split; [eauto|].
    unfold view_of. simpl. rewrite Hr'. reflexivity.
Qed.

Lemma reachable_job_is_readable_witness :
  exists view,
    fst (App.check_status (VStr "job-0") retry_w3) = Ret view
    /\ status_code view = VInt 200
    /\ body_field "status" view = Some (VStr "completed").
Proof.
  destruct (reachable_job_is_readable Json.loads retry_w0 retry_w3 "job-0"
              (default ∅ (table retry_w3 !! "job-0")))
    as (view & s & Hst & Hv & Hc & Hs & _);
    [reflexivity | exact retry_reachable | vm_compute; reflexivity
     | intros q Hq; vm_compute in Hq; injection Hq as <-; eexists; reflexivity
     | reflexivity |].
  exists view. split; [exact Hv|]. split; [exact Hc|].
  rewrite Hs. vm_compute in Hst. injection Hst as <-. reflexivity.
Defined.
